(** * Okta MCP server: dispatcher, attribute search and onboarding workflow

    A shallow embedding of the TypeScript sources
      - [src/index.ts]            (the two drafts of the tool-call dispatcher),
      - [src/tools/users.ts]      (PII masking, [find_users_by_attribute]),
      - [src/tools/onboarding.ts] (bulk import, group assignment,
                                   application provisioning, workflow),
      - [src/tools/index.ts]      (the [HANDLERS] table),
    followed by the properties proved about them.

    Conventions of the embedding.
      - JavaScript strings are Rocq strings; the model covers strings of
        ASCII characters, for which [length], [charAt] and [toLowerCase]
        coincide with the JavaScript ones.
      - An [async] function is a computation in the monad [M]: it reads and
        updates the state of the remote directory, records every directory
        call it issues, and either returns a value or raises.
      - [try]/[catch] is [try_catch]; a [for .. of] loop is a [Fixpoint] over
        the list it iterates, threading the arrays it pushes to. *)

From Stdlib Require Import String Ascii List Bool Arith ZArith Lia DecimalString.
Import ListNotations.
Set Warnings "-register-all".
Local Open Scope list_scope.
Local Open Scope string_scope.

(* ================================================================== *)
(** * Part I: definitions                                              *)
(* ================================================================== *)

(** ** JavaScript string primitives used by the sources *)

Module JS.

(** The character with code 34 (the double quote) and the line feed. *)
Definition dquote : string := String (ascii_of_nat 34) EmptyString.
Definition nl : string := String (ascii_of_nat 10) EmptyString.

(** [s.length] *)
Definition length (s : string) : nat := String.length s.

(** [s.charAt(i)]: the empty string when [i] is out of range. *)
Definition charAt (s : string) (i : nat) : string :=
  match String.get i s with
  | Some c => String c EmptyString
  | None => EmptyString
  end.

(** [s.repeat(n)] *)
Fixpoint repeat (s : string) (n : nat) : string :=
  match n with
  | O => EmptyString
  | S k => s ++ repeat s k
  end.

(** One character of [toLowerCase] on the ASCII range: [A]-[Z] move to
    [a]-[z], every other character stays. *)
Definition lower_ascii (c : ascii) : ascii :=
  let n := nat_of_ascii c in
  if (Nat.leb 65 n) && (Nat.leb n 90) then ascii_of_nat (n + 32) else c.

(** [s.toLowerCase()] *)
Fixpoint toLowerCase (s : string) : string :=
  match s with
  | EmptyString => EmptyString
  | String c r => String (lower_ascii c) (toLowerCase r)
  end.

(** [s.startsWith(t)] *)
Definition startsWith (s t : string) : bool := String.prefix t s.

(** [s.endsWith(t)] *)
Definition endsWith (s t : string) : bool :=
  Nat.leb (String.length t) (String.length s) &&
  String.eqb (String.substring (String.length s - String.length t) (String.length t) s) t.

(** [s.includes(t)]: [t] occurs in [s] at some position. *)
Fixpoint includes (s t : string) : bool :=
  String.prefix t s ||
  match s with
  | EmptyString => false
  | String _ r => includes r t
  end.

(** [arr.includes(x)] on an array of strings. *)
Definition array_includes (arr : list string) (x : string) : bool :=
  existsb (String.eqb x) arr.

(** [arr.join(sep)] *)
Fixpoint join (sep : string) (arr : list string) : string :=
  match arr with
  | [] => EmptyString
  | [x] => x
  | x :: rest => x ++ sep ++ join sep rest
  end.

(** [arr.map((x, index) => f(index, x))], the indices starting at [i]. *)
Fixpoint mapi_from {A B : Type} (f : nat -> A -> B) (i : nat) (l : list A) : list B :=
  match l with
  | [] => []
  | x :: rest => f i x :: mapi_from f (S i) rest
  end.

(** [String(n)] for a natural number and for an integer. *)
Definition of_nat (n : nat) : string := NilEmpty.string_of_uint (Nat.to_uint n).

Definition of_Z (n : Z) : string := NilEmpty.string_of_int (Z.to_int n).

(** Truthiness of a string ([""] is falsy), and of a possibly undefined
    string ([undefined] and [""] are falsy). *)
Definition truthy (s : string) : bool := negb (String.eqb s EmptyString).

Definition truthy_opt (o : option string) : bool :=
  match o with
  | Some s => truthy s
  | None => false
  end.

(** [o || d] for a possibly undefined string [o] and a string [d]. *)
Definition or_else (o : option string) (d : string) : string :=
  match o with
  | Some s => if truthy s then s else d
  | None => d
  end.

(** What a template literal prints for a possibly undefined string. *)
Definition show_opt (o : option string) : string :=
  match o with
  | Some s => s
  | None => "undefined"
  end.

(** [obj[key]] on an object used as a string-keyed record of own
    properties, in insertion order. *)
Fixpoint lookup {A : Type} (key : string) (obj : list (string * A)) : option A :=
  match obj with
  | [] => None
  | (k, v) :: rest => if String.eqb k key then Some v else lookup key rest
  end.

End JS.

(** ** Failures and outcomes *)

(** What a [throw] carries, as far as the sources look at it: an [Error]
    with its [message], or any other value with its [String(..)] rendering. *)
Inductive Thrown : Type :=
| ErrorObj (message : string)
| OtherThrown (rendering : string).

(** [error instanceof Error ? error.message : String(error)] *)
Definition errorText (error : Thrown) : string :=
  match error with
  | ErrorObj message => message
  | OtherThrown rendering => rendering
  end.

Inductive Outcome (A : Type) : Type :=
| Returned (a : A)
| Raised (e : Thrown).

Arguments Returned {A} a.
Arguments Raised {A} e.

(** ** The schema validator

    Modelled from the spec: the schema validator (section 4.1) is the zod
    library, which is not part of the repository.  The model keeps what the
    sources rely on: the schema combinators they use, absent fields
    ([undefined]) failing with a "Required" issue unless the schema is
    optional or carries a default, every issue carrying the path of the
    offending field, and [parse] raising an [Error] whose message is the
    JSON rendering of the issue list.  The rendering keeps each issue's
    [code], [path] and [message]; the members that only some kinds of issue
    have (expected, received, minimum ...) are left out, and the strings
    printed are taken to need no JSON escaping. *)

Module Zod.

(** Untyped argument values, as they arrive in a request. *)
Inductive JSON : Type :=
| JNull
| JBool (b : bool)
| JNum (n : Z)
| JStr (s : string)
| JArr (items : list JSON)
| JObj (members : list (string * JSON)).

Inductive PathSeg : Type :=
| Key (k : string)
| Index (i : nat).

Record Issue : Type := mkIssue {
  code : string;
  path : list PathSeg;
  message : string
}.

(** The combinators the sources build their schemas from:
    [z.string()] with an optional [.min(n, msg)], [z.string().email(msg)]
    (the format test of the validator being [is_email]), [z.number()] with
    optional [.min(a)] and [.max(b)], [z.boolean()], [z.enum([..])],
    [z.array(s)], [z.record(s)], [s.optional()] and [s.default(v)]. *)
Inductive Schema : Type :=
| ZString (minLen : option (nat * string))
| ZEmail (is_email : string -> bool) (msg : string)
| ZNumber (min max : option Z)
| ZBoolean
| ZEnum (options : list string)
| ZArray (item : Schema)
| ZRecord (value : Schema)
| ZOptional (inner : Schema)
| ZDefault (inner : Schema) (dflt : JSON).

(** [z.object({ k1: s1, ... })] *)
Definition ObjectSchema : Type := list (string * Schema).

Definition typeName (v : JSON) : string :=
  match v with
  | JNull => "null"
  | JBool _ => "boolean"
  | JNum _ => "number"
  | JStr _ => "string"
  | JArr _ => "array"
  | JObj _ => "object"
  end.

Definition invalid_type (p : list PathSeg) (expected : string) (input : option JSON) : Issue :=
  {| code := "invalid_type";
     path := p;
     message :=
       match input with
       | None => "Required"
       | Some v => "Expected " ++ expected ++ ", received " ++ typeName v
       end |}.

(** Elements of an array, each validated under its index. *)
Fixpoint parse_items (f : list PathSeg -> option JSON -> list Issue * option JSON)
    (p : list PathSeg) (i : nat) (items : list JSON) : list Issue * list JSON :=
  match items with
  | [] => ([], [])
  | x :: rest =>
      let '(issues1, v) := f (p ++ [Index i])%list (Some x) in
      let '(issues2, vs) := parse_items f p (S i) rest in
      ((issues1 ++ issues2)%list,
       match v with Some y => y :: vs | None => vs end)
  end.

(** Members of a record, each validated under its key. *)
Fixpoint parse_members (f : list PathSeg -> option JSON -> list Issue * option JSON)
    (p : list PathSeg) (members : list (string * JSON)) : list Issue * list (string * JSON) :=
  match members with
  | [] => ([], [])
  | (k, x) :: rest =>
      let '(issues1, v) := f (p ++ [Key k])%list (Some x) in
      let '(issues2, vs) := parse_members f p rest in
      ((issues1 ++ issues2)%list,
       match v with Some y => (k, y) :: vs | None => vs end)
  end.

(** Validation of one value ([None] is [undefined]) at path [p]: the issues
    found, and the validated value when there are none. *)
Fixpoint parse_value (s : Schema) (p : list PathSeg) (input : option JSON)
    : list Issue * option JSON :=
  match s with
  | ZString minLen =>
      match input with
      | Some (JStr v) =>
          match minLen with
          | Some (n, msg) =>
              if Nat.ltb (String.length v) n
              then ([mkIssue "too_small" p msg], None)
              else ([], input)
          | None => ([], input)
          end
      | _ => ([invalid_type p "string" input], None)
      end
  | ZEmail is_email msg =>
      match input with
      | Some (JStr v) =>
          if is_email v then ([], input) else ([mkIssue "invalid_string" p msg], None)
      | _ => ([invalid_type p "string" input], None)
      end
  | ZNumber lo hi =>
      match input with
      | Some (JNum n) =>
          let low :=
            match lo with
            | Some a =>
                if Z.ltb n a
                then [mkIssue "too_small" p
                        ("Number must be greater than or equal to " ++ JS.of_Z a)]
                else []
            | None => []
            end in
          let high :=
            match hi with
            | Some b =>
                if Z.ltb b n
                then [mkIssue "too_big" p
                        ("Number must be less than or equal to " ++ JS.of_Z b)]
                else []
            | None => []
            end in
          ((low ++ high)%list, input)
      | _ => ([invalid_type p "number" input], None)
      end
  | ZBoolean =>
      match input with
      | Some (JBool _) => ([], input)
      | _ => ([invalid_type p "boolean" input], None)
      end
  | ZEnum options =>
      match input with
      | Some (JStr v) =>
          if JS.array_includes options v then ([], input)
          else ([mkIssue "invalid_enum_value" p
                   ("Invalid enum value. Expected "
                    ++ JS.join " | " (map (fun o => "'" ++ o ++ "'") options)
                    ++ ", received '" ++ v ++ "'")], None)
      | _ => ([invalid_type p "string" input], None)
      end
  | ZArray item =>
      match input with
      | Some (JArr items) =>
          let '(issues, vs) := parse_items (parse_value item) p 0 items in
          (issues, Some (JArr vs))
      | _ => ([invalid_type p "array" input], None)
      end
  | ZRecord value =>
      match input with
      | Some (JObj members) =>
          let '(issues, vs) := parse_members (parse_value value) p members in
          (issues, Some (JObj vs))
      | _ => ([invalid_type p "object" input], None)
      end
  | ZOptional inner =>
      match input with
      | None => ([], None)
      | Some _ => parse_value inner p input
      end
  | ZDefault inner dflt =>
      match input with
      | None => parse_value inner p (Some dflt)
      | Some _ => parse_value inner p input
      end
  end.

(** The fields of an object schema, each looked up in the raw object and
    validated under its name; keys the schema does not name are dropped. *)
Fixpoint parse_fields (shape : ObjectSchema) (members : list (string * JSON))
    : list Issue * list (string * JSON) :=
  match shape with
  | [] => ([], [])
  | (k, s) :: rest =>
      let '(issues1, v) := parse_value s [Key k] (JS.lookup k members) in
      let '(issues2, vs) := parse_fields rest members in
      ((issues1 ++ issues2)%list,
       match v with Some y => (k, y) :: vs | None => vs end)
  end.

Definition parse_object (shape : ObjectSchema) (input : option JSON)
    : list Issue * list (string * JSON) :=
  match input with
  | Some (JObj members) => parse_fields shape members
  | _ => ([invalid_type [] "object" input], [])
  end.

(** The JSON rendering of the issue list, indented by two spaces. *)
Definition render_seg (seg : PathSeg) : string :=
  match seg with
  | Key k => JS.dquote ++ k ++ JS.dquote
  | Index i => JS.of_nat i
  end.

Definition render_path (p : list PathSeg) : string :=
  match p with
  | [] => "[]"
  | _ =>
      "[" ++ JS.nl
      ++ JS.join ("," ++ JS.nl) (map (fun seg => "      " ++ render_seg seg) p)
      ++ JS.nl ++ "    ]"
  end.

Definition render_issue (i : Issue) : string :=
  "  {" ++ JS.nl
  ++ "    " ++ JS.dquote ++ "code" ++ JS.dquote ++ ": "
  ++ JS.dquote ++ code i ++ JS.dquote ++ "," ++ JS.nl
  ++ "    " ++ JS.dquote ++ "path" ++ JS.dquote ++ ": " ++ render_path (path i) ++ "," ++ JS.nl
  ++ "    " ++ JS.dquote ++ "message" ++ JS.dquote ++ ": "
  ++ JS.dquote ++ message i ++ JS.dquote ++ JS.nl
  ++ "  }".

Definition errorMessage (issues : list Issue) : string :=
  match issues with
  | [] => "[]"
  | _ => "[" ++ JS.nl ++ JS.join ("," ++ JS.nl) (map render_issue issues) ++ JS.nl ++ "]"
  end.

(** [schema.parse(input)]: the validated object, or a raised [ZodError]. *)
Definition parse (shape : ObjectSchema) (input : option JSON)
    : Outcome (list (string * JSON)) :=
  match parse_object shape input with
  | ([], v) => Returned v
  | (issues, _) => Raised (ErrorObj (errorMessage issues))
  end.

(** A field schema that rejects [undefined]: anything but [.optional()] and
    [.default(..)]. *)
Definition requires_value (s : Schema) : bool :=
  match s with
  | ZOptional _ => false
  | ZDefault _ _ => false
  | _ => true
  end.

End Zod.

(** ** The remote directory and the process environment *)

(** A profile: the attributes of a user that hold a string; an attribute
    that is absent stands for [undefined] and for [null] alike (the sources
    treat the two the same way). *)
Definition Profile : Type := list (string * string).

Module User.
(** A user as the directory returns it.  An [id] that is [undefined] is the
    empty string (both are falsy, and both are rejected by the schemas
    that ask for [z.string().min(1)]). *)
Record t : Type := mk {
  id : string;
  status : string;
  profile : option Profile;
  lastLogin : option string
}.
End User.

(** A row of the parsed CSV data: the columns of the header row that the
    row has a value for. *)
Definition Row : Type := list (string * string).

Module ListUsersParams.
(** The query parameters of [userApi.listUsers] that the sources set. *)
Record t : Type := mk {
  search : option string;
  limit : nat
}.
End ListUsersParams.

(** The directory calls the sources issue, with their arguments. *)
Inductive Call : Type :=
| Call_listUsers (params : ListUsersParams.t)
| Call_getUser (userId : string)
| Call_createUser (body : Profile)
| Call_activateUser (userId : string) (sendEmail : bool)
| Call_assignUserToGroup (groupId userId : string)
| Call_assignUserToApplication (appId userId : string).

(** Everything the modelled code takes from outside the repository: the
    state of the remote directory and its answers (the Okta SDK client),
    the two environment variables [getOktaClient] reads, the CSV parser
    and the locale-dependent date formatter. *)
Record Platform : Type := mkPlatform {
  World : Type;
  OKTA_ORG_URL : option string;
  OKTA_API_TOKEN : option string;
  userApi_listUsers : ListUsersParams.t -> World -> Outcome (option (list User.t)) * World;
  userApi_getUser : string -> World -> Outcome (option User.t) * World;
  userApi_createUser : Profile -> World -> Outcome User.t * World;
  userApi_activateUser : string -> bool -> World -> Outcome unit * World;
  groupApi_assignUserToGroup : string -> string -> World -> Outcome unit * World;
  applicationApi_assignUserToApplication : string -> string -> World -> Outcome unit * World;
  Papa_parse : string -> list Row;
  toLocaleString : string -> string
}.

(** ** The monad of asynchronous code

    A computation takes the state of the directory and gives back its
    outcome, the new state, and the directory calls it issued, in order. *)
Definition M (P : Platform) (A : Type) : Type :=
  World P -> Outcome A * World P * list Call.

Definition ret {P : Platform} {A : Type} (a : A) : M P A :=
  fun w => (Returned a, w, []).

Definition throw {P : Platform} {A : Type} (e : Thrown) : M P A :=
  fun w => (Raised e, w, []).

Definition bind {P : Platform} {A B : Type} (m : M P A) (k : A -> M P B) : M P B :=
  fun w =>
    match m w with
    | (Returned a, w1, calls1) =>
        let '(r, w2, calls2) := k a w1 in (r, w2, (calls1 ++ calls2)%list)
    | (Raised e, w1, calls1) => (Raised e, w1, calls1)
    end.

(** [try { m } catch (error) { handler(error) }] *)
Definition try_catch {P : Platform} {A : Type} (m : M P A) (handler : Thrown -> M P A) : M P A :=
  fun w =>
    match m w with
    | (Returned a, w1, calls1) => (Returned a, w1, calls1)
    | (Raised e, w1, calls1) =>
        let '(r, w2, calls2) := handler e w1 in (r, w2, (calls1 ++ calls2)%list)
    end.

(** A synchronous result or exception, inside asynchronous code. *)
Definition lift {P : Platform} {A : Type} (o : Outcome A) : M P A :=
  fun w => (o, w, []).

(** One directory call: the directory answers and moves on, and the call
    is recorded. *)
Definition request {P : Platform} {A : Type} (c : Call)
    (answer : World P -> Outcome A * World P) : M P A :=
  fun w => let '(r, w1) := answer w in (r, w1, [c]).

Definition outcome {P : Platform} {A : Type} (x : Outcome A * World P * list Call) : Outcome A :=
  fst (fst x).

Definition final {P : Platform} {A : Type} (x : Outcome A * World P * list Call) : World P :=
  snd (fst x).

Definition calls {P : Platform} {A : Type} (x : Outcome A * World P * list Call) : list Call :=
  snd x.

(** A run that comes after the calls [c]. *)
Definition after_calls {P : Platform} {A : Type} (c : list Call)
    (x : Outcome A * World P * list Call) : Outcome A * World P * list Call :=
  let '(r, w, c') := x in (r, w, (c ++ c')%list).

(** The user a call is about, for the calls that are about one user. *)
Definition call_user (c : Call) : option string :=
  match c with
  | Call_getUser userId => Some userId
  | Call_activateUser userId _ => Some userId
  | Call_assignUserToGroup _ userId => Some userId
  | Call_assignUserToApplication _ userId => Some userId
  | Call_listUsers _ => None
  | Call_createUser _ => None
  end.

(** The users whose record is fetched, in the order of the fetches. *)
Fixpoint fetched (cs : list Call) : list string :=
  match cs with
  | [] => []
  | Call_getUser userId :: rest => userId :: fetched rest
  | _ :: rest => fetched rest
  end.

Declare Scope async_scope.
Delimit Scope async_scope with async.
Notation "x <- m ;; k" := (bind m (fun x => k))
  (at level 61, m at next level, right associativity) : async_scope.
Notation "' pat <- m ;; k" := (bind m (fun x => match x with pat => k end))
  (at level 61, pat pattern, m at next level, right associativity) : async_scope.
Local Open Scope async_scope.

(** [for (const x of items) { body }], where the body updates [state] and
    neither breaks out of the loop nor returns from the function. *)
Fixpoint for_of {P : Platform} {A S : Type} (body : A -> S -> M P S) (items : list A)
    (state : S) : M P S :=
  match items with
  | [] => ret state
  | x :: rest =>
      state' <- body x state ;;
      for_of body rest state'
  end.

Section Client.
Context {P : Platform}.

(** Both environment variables are set. *)
Definition configured (P : Platform) : bool :=
  JS.truthy_opt (OKTA_ORG_URL P) && JS.truthy_opt (OKTA_API_TOKEN P).

(** [getOktaClient()]: raises when either environment variable is unset
    (or empty). *)
Definition getOktaClient : M P unit :=
  if negb (JS.truthy_opt (OKTA_ORG_URL P)) then
    throw (ErrorObj
      "OKTA_ORG_URL environment variable is not set. Please set it to your Okta domain.")
  else if negb (JS.truthy_opt (OKTA_API_TOKEN P)) then
    throw (ErrorObj
      "OKTA_API_TOKEN environment variable is not set. Please generate an API token in the Okta Admin Console.")
  else ret tt.

Definition listUsers (params : ListUsersParams.t) : M P (option (list User.t)) :=
  request (Call_listUsers params) (userApi_listUsers P params).

Definition getUser (userId : string) : M P (option User.t) :=
  request (Call_getUser userId) (userApi_getUser P userId).

Definition createUser (body : Profile) : M P User.t :=
  request (Call_createUser body) (userApi_createUser P body).

Definition activateUser (userId : string) (sendEmail : bool) : M P unit :=
  request (Call_activateUser userId sendEmail) (userApi_activateUser P userId sendEmail).

Definition assignUserToGroup (groupId userId : string) : M P unit :=
  request (Call_assignUserToGroup groupId userId) (groupApi_assignUserToGroup P groupId userId).

Definition assignUserToApplication (appId userId : string) : M P unit :=
  request (Call_assignUserToApplication appId userId)
    (applicationApi_assignUserToApplication P appId userId).

(** [formatDate(dateString)] of [users.ts]; the [catch] branch of the
    source is not reachable for a string ([new Date] does not raise). *)
Definition formatDate (dateString : option string) : string :=
  match dateString with
  | Some d => if JS.truthy d then toLocaleString P d else "N/A"
  | None => "N/A"
  end.

End Client.

(** ** The dispatcher ([src/index.ts]) *)

Record ContentBlock : Type := mkContentBlock {
  type : string;
  text : string
}.

(** [{ content, isError }]; an [isError] that is left out is [false]. *)
Record InvocationResult : Type := mkInvocationResult {
  content : list ContentBlock;
  isError : bool
}.

Definition text_result (t : string) (err : bool) : InvocationResult :=
  {| content := [ {| type := "text"; text := t |} ]; isError := err |}.

(** What calling a property of the handler table may give back: a result
    object (its optional [data] member is not looked at by the dispatcher
    and is left out here), or some other JavaScript value. *)
Inductive JSValue : Type :=
| VResult (r : InvocationResult)
| VOther (rendering : string).

(** A handler, as a function of the raw arguments it is given
    ([request.parameters] in [tools/], [args] in the second draft of
    [index.ts]); [None] is [undefined]. *)
Definition Handler (P : Platform) : Type := option Zod.JSON -> M P JSValue.

(** The value of a property: a function, or a truthy value that is not
    callable. *)
Inductive Property (P : Platform) : Type :=
| Fn (h : Handler P)
| NotFn.

Arguments Fn {P} h.
Arguments NotFn {P}.

(** The handler table is an object literal: the handlers are its own
    properties, and it inherits the properties of [Object.prototype]. *)
Record HandlerTable (P : Platform) : Type := mkHandlerTable {
  own : list (string * Handler P);
  inherited : list (string * Property P)
}.

Arguments own {P} h.
Arguments inherited {P} h.

Record CallToolRequest : Type := mkCallToolRequest {
  name : string;
  arguments : option (list (string * Zod.JSON))
}.

Section Dispatcher.
Context {P : Platform}.

Definition is_some {A : Type} (o : option A) : bool :=
  match o with
  | Some _ => true
  | None => false
  end.

(** [key in table] *)
Definition has_property (key : string) (table : HandlerTable P) : bool :=
  is_some (JS.lookup key (own table)) || is_some (JS.lookup key (inherited table)).

(** [table[key]] *)
Definition get_property (key : string) (table : HandlerTable P) : option (Property P) :=
  match JS.lookup key (own table) with
  | Some h => Some (Fn h)
  | None => JS.lookup key (inherited table)
  end.

(** [f(arg)] for a property value [f] written [callee] in the source: a
    [TypeError] when [f] is not a function. *)
Definition call_property (callee : string) (f : option (Property P)) (arg : option Zod.JSON)
    : M P JSValue :=
  match f with
  | Some (Fn h) => h arg
  | _ => throw (ErrorObj (callee ++ " is not a function"))
  end.

(** A handler validates its raw arguments against [schema] before
    anything else: when they are refused, it raises the validator's error
    without having touched the directory. *)
Definition validates_first (h : Handler P) (schema : Zod.ObjectSchema) : Prop :=
  forall (parameters : option Zod.JSON) (w : World P) (e : Thrown),
    Zod.parse schema parameters = Raised e -> h parameters w = (Raised e, w, []).

(** The handlers of [tools/]: the first statement validates
    [request.parameters], outside the handler's own [try]; the rest of the
    handler, [body], runs on the validated arguments. *)
Definition validated (schema : Zod.ObjectSchema)
    (body : list (string * Zod.JSON) -> M P JSValue) : Handler P :=
  fun parameters =>
    args <- lift (Zod.parse schema parameters) ;;
    body args.

(** The call-tool request handler that [startServer] installs
    ([index.ts], first draft, lines 38-65). *)
Definition callTool_startServer (HANDLERS : HandlerTable P) (request : CallToolRequest)
    : M P JSValue :=
  let toolName := name request in
  try_catch
    (if negb (has_property toolName HANDLERS) then
       throw (ErrorObj ("Unknown tool: " ++ toolName))
     else
       result <- call_property "HANDLERS[toolName]" (get_property toolName HANDLERS)
                   (Some (Zod.JObj
                      match arguments request with
                      | Some args => args
                      | None => []
                      end)) ;;
       ret result)
    (fun error =>
       ret (VResult (text_result ("Error: " ++ errorText error) true))).

(** The call-tool request handler of the second draft ([index.ts], lines
    752-768): the failure is raised again, under the tool's name. *)
Definition callTool_server (toolHandlers : HandlerTable P) (request : CallToolRequest)
    : M P JSValue :=
  let name := name request in
  let args := option_map Zod.JObj (arguments request) in
  try_catch
    (match get_property name toolHandlers with
     | None => throw (ErrorObj ("Unknown tool: " ++ name))
     | Some handler => call_property "handler" (Some handler) args
     end)
    (fun error =>
       throw (ErrorObj ("Error executing tool " ++ name ++ ": " ++ errorText error))).

(** [userSchemas.getUser] and the [get_user] handler of [tools/users.ts]
    (lines 343-344); [body] is the rest of the handler. *)
Definition userSchemas_getUser : Zod.ObjectSchema :=
  [ ("userId", Zod.ZString (Some (1, "User ID is required"))) ].

Definition get_user (body : list (string * Zod.JSON) -> M P JSValue) : Handler P :=
  validated userSchemas_getUser body.

End Dispatcher.

(** ** Attribute search ([src/tools/users.ts]) *)

Module Search.

(** The [operator] enumeration: ["eq"], ["sw"], ["ew"], ["co"], ["pr"]. *)
Inductive Operator : Type := op_eq | op_sw | op_ew | op_co | op_pr.

Definition operator_name (o : Operator) : string :=
  match o with
  | op_eq => "eq"
  | op_sw => "sw"
  | op_ew => "ew"
  | op_co => "co"
  | op_pr => "pr"
  end.

(** [userSchemas.getUserByAttribute] *)
Definition userSchemas_getUserByAttribute : Zod.ObjectSchema :=
  [ ("attribute", Zod.ZString (Some (1, "Attribute name is required")));
    ("value", Zod.ZString (Some (1, "Value is required")));
    ("operator",
      Zod.ZDefault (Zod.ZOptional (Zod.ZEnum ["eq"; "sw"; "ew"; "co"; "pr"])) (Zod.JStr "eq"));
    ("limit",
      Zod.ZDefault (Zod.ZOptional (Zod.ZNumber (Some 1%Z) (Some 200%Z))) (Zod.JNum 50%Z));
    ("includeInactive", Zod.ZDefault (Zod.ZOptional Zod.ZBoolean) (Zod.JBool false)) ].

(** The validated arguments, destructured. *)
Record Args : Type := mkArgs {
  attribute : string;
  value : string;
  operator : Operator;
  limit : nat;
  includeInactive : bool
}.

(** The destructuring of the validated object; the fall-back of each
    member is never used on an object that passed the schema. *)
Definition destructure (v : list (string * Zod.JSON)) : Args :=
  {| attribute := match JS.lookup "attribute" v with Some (Zod.JStr s) => s | _ => EmptyString end;
     value := match JS.lookup "value" v with Some (Zod.JStr s) => s | _ => EmptyString end;
     operator :=
       match JS.lookup "operator" v with
       | Some (Zod.JStr "sw") => op_sw
       | Some (Zod.JStr "ew") => op_ew
       | Some (Zod.JStr "co") => op_co
       | Some (Zod.JStr "pr") => op_pr
       | _ => op_eq
       end;
     limit := match JS.lookup "limit" v with Some (Zod.JNum n) => Z.to_nat n | _ => 50 end;
     includeInactive :=
       match JS.lookup "includeInactive" v with Some (Zod.JBool b) => b | _ => false end |}.

(** [isPIIAttribute] (lines 103-120) *)
Definition piiAttributes : list string :=
  [ "email"; "login"; "firstName"; "lastName"; "displayName"; "nickName";
    "mobilePhone"; "primaryPhone"; "streetAddress"; "secondEmail";
    "employeeNumber"; "manager"; "managerId" ].

Definition isPIIAttribute (attribute : string) : bool :=
  JS.array_includes piiAttributes (JS.toLowerCase attribute).

(** [maskValue] (lines 122-131) *)
Definition maskValue (value : string) : string :=
  if Nat.leb (JS.length value) 3 then "***"
  else
    JS.charAt value 0
    ++ JS.repeat "*" (JS.length value - 2)
    ++ JS.charAt value (JS.length value - 1).

(** The value echoed in the response (line 906). *)
Definition displayValue (attribute value : string) : string :=
  if isPIIAttribute attribute then maskValue value else value.

(** [limit || 50] *)
Definition limit_or_50 (limit : nat) : nat :=
  if Nat.eqb limit 0 then 50 else limit.

(** The three names [searchMethod] takes. *)
Definition formatted_search : string := "formatted search".
Definition free_text_search : string := "free-text search".
Definition client_side_filtering : string := "client-side filtering (limited to 200 users)".

(** The query of strategy 1 (lines 746-752). *)
Definition searchQuery (a : Args) : string :=
  match operator a with
  | op_pr => "profile." ++ attribute a ++ " pr"
  | o =>
      "profile." ++ attribute a ++ " " ++ operator_name o ++ " "
      ++ JS.dquote ++ value a ++ JS.dquote
  end.

Definition searchParams (a : Args) : ListUsersParams.t :=
  {| ListUsersParams.search := Some (searchQuery a);
     ListUsersParams.limit := limit_or_50 (limit a) |}.

Definition freeTextParams (a : Args) : ListUsersParams.t :=
  {| ListUsersParams.search := Some (value a);
     ListUsersParams.limit := limit_or_50 (limit a) |}.

Definition basicParams : ListUsersParams.t :=
  {| ListUsersParams.search := None; ListUsersParams.limit := 200 |}.

(** [user.profile?.[key]] *)
Definition profile_get (u : User.t) (key : string) : option string :=
  match User.profile u with
  | Some p => JS.lookup key p
  | None => None
  end.

(** The comparison of the verification pass (lines 872-889), for the
    operators other than [pr]. *)
Definition isMatch (o : Operator) (attributeValue value : string) : bool :=
  let attrValueStr := JS.toLowerCase attributeValue in
  let searchValueStr := JS.toLowerCase value in
  match o with
  | op_eq => String.eqb attrValueStr searchValueStr
  | op_sw => JS.startsWith attrValueStr searchValueStr
  | op_ew => JS.endsWith attrValueStr searchValueStr
  | op_co => JS.includes attrValueStr searchValueStr
  | op_pr => false
  end.

Arguments isMatch : simpl never.

Section WithPlatform.
Context {P : Platform}.

(** The choice of the search strategy (lines 741-796): the collection the
    directory returned and the name of the strategy that served it. *)
Definition select_users (a : Args) : M P (option (list User.t) * string) :=
  try_catch
    (users <- listUsers (searchParams a) ;;
     ret (users, formatted_search))
    (fun searchError =>
       let errorMessage := errorText searchError in
       if JS.includes errorMessage "operator is not supported" then
         try_catch
           (users <- listUsers (freeTextParams a) ;;
            ret (users, free_text_search))
           (fun freeTextError =>
              users <- listUsers basicParams ;;
              ret (users, client_side_filtering))
       else
         users <- listUsers basicParams ;;
         ret (users, client_side_filtering)).

(** One candidate of the loop over the results of the formatted search
    (lines 822-838): the array [matchingUsers] after the iteration. *)
Definition filter_candidate (a : Args) (user : User.t) (matchingUsers : list User.t)
    : M P (list User.t) :=
  try_catch
    (fullUser <- getUser (User.id user) ;;
     match fullUser with
     | None => ret matchingUsers
     | Some fullUser =>
         match User.profile fullUser with
         | None => ret matchingUsers
         | Some _ =>
             if negb (includeInactive a) && negb (String.eqb (User.status fullUser) "ACTIVE")
             then ret matchingUsers
             else ret (matchingUsers ++ [fullUser])%list
         end
     end)
    (fun userError => ret matchingUsers).

Definition filter_loop (a : Args) (candidateUsers : list User.t) (matchingUsers : list User.t)
    : M P (list User.t) :=
  for_of (filter_candidate a) candidateUsers matchingUsers.

(** One candidate of the verification loop (lines 841-902): the array
    [matchingUsers] after the iteration, and whether the loop breaks. *)
Definition verify_candidate (a : Args) (user : User.t) (matchingUsers : list User.t)
    : M P (list User.t * bool) :=
  try_catch
    (fullUser <- getUser (User.id user) ;;
     match fullUser with
     | None => ret (matchingUsers, false)
     | Some fullUser =>
         match User.profile fullUser with
         | None => ret (matchingUsers, false)
         | Some profile =>
             if negb (includeInactive a) && negb (String.eqb (User.status fullUser) "ACTIVE")
             then ret (matchingUsers, false)
             else
               let attributeValue := JS.lookup (attribute a) profile in
               match operator a with
               | op_pr =>
                   if JS.truthy_opt attributeValue
                   then ret ((matchingUsers ++ [fullUser])%list, false)
                   else ret (matchingUsers, false)
               | o =>
                   match attributeValue with
                   | None => ret (matchingUsers, false)
                   | Some attributeValue =>
                       if isMatch o attributeValue (value a) then
                         let matchingUsers' := (matchingUsers ++ [fullUser])%list in
                         ret (matchingUsers',
                              Nat.leb (limit_or_50 (limit a)) (List.length matchingUsers'))
                       else ret (matchingUsers, false)
                   end
               end
         end
     end)
    (fun userError => ret (matchingUsers, false)).

Fixpoint verify_loop (a : Args) (candidateUsers : list User.t) (matchingUsers : list User.t)
    : M P (list User.t) :=
  match candidateUsers with
  | [] => ret matchingUsers
  | user :: rest =>
      ' (matchingUsers', stop) <- verify_candidate a user matchingUsers ;;
      if stop then ret matchingUsers' else verify_loop a rest matchingUsers'
  end.

(** One entry of the list of users found (lines 919-931). *)
Definition user_entry (a : Args) (index : nat) (user : User.t) : string :=
  let actualValue := JS.or_else (profile_get user (attribute a)) "N/A" in
  JS.of_nat (index + 1) ++ ". " ++ JS.or_else (profile_get user "firstName") EmptyString
  ++ " " ++ JS.or_else (profile_get user "lastName") EmptyString ++ JS.nl
  ++ "   Email: " ++ JS.or_else (profile_get user "email") "No email" ++ JS.nl
  ++ "   ID: " ++ User.id user ++ JS.nl
  ++ "   Status: " ++ User.status user ++ JS.nl
  ++ "   " ++ attribute a ++ ": " ++ actualValue ++ JS.nl
  ++ "   Department: " ++ JS.or_else (profile_get user "department") "N/A" ++ JS.nl
  ++ "   Title: " ++ JS.or_else (profile_get user "title") "N/A" ++ JS.nl
  ++ "   Last Login: " ++ formatDate (P := P) (User.lastLogin user).

(** The text of the response (lines 905-942). *)
Definition response_text (a : Args) (searchMethod : string) (matchingUsers : list User.t)
    : string :=
  "Search Results for " ++ attribute a ++ " " ++ operator_name (operator a) ++ " "
  ++ JS.dquote ++ displayValue (attribute a) (value a) ++ JS.dquote ++ JS.nl
  ++ "Method: " ++ searchMethod ++ JS.nl
  ++ (if includeInactive a then "Including" else "Excluding") ++ " inactive users"
  ++ JS.nl ++ JS.nl
  ++ match matchingUsers with
     | [] =>
         "No users found with " ++ attribute a ++ " matching the specified criteria"
         ++ (if JS.includes searchMethod "limited"
             then JS.nl ++ "(Note: Only checked first 200 users for performance)"
             else EmptyString)
     | _ =>
         JS.join (JS.nl ++ JS.nl) (JS.mapi_from (user_entry a) 0 matchingUsers)
         ++ JS.nl ++ JS.nl ++ "Total found: " ++ JS.of_nat (List.length matchingUsers)
         ++ " user" ++ (if Nat.eqb (List.length matchingUsers) 1 then EmptyString else "s")
         ++ (if String.eqb searchMethod formatted_search then
               JS.nl ++ JS.nl
               ++ "✅ Note: This search used Okta's native filtering for optimal performance."
             else if JS.includes searchMethod "limited" then
               JS.nl ++ JS.nl
               ++ "⚠️ Note: This search was limited to 200 users for performance. For comprehensive results across all users, consider using more specific search criteria."
             else EmptyString)
     end.

(** The handler after validation (lines 737-963). *)
Definition find_users_by_attribute_body (a : Args) : M P JSValue :=
  try_catch
    (oktaClient <- getOktaClient ;;
     ' (users, searchMethod) <- select_users a ;;
     match users with
     | None => ret (VResult (text_result "No users data returned from Okta." false))
     | Some users =>
         let candidateUsers := filter (fun user => JS.truthy (User.id user)) users in
         matchingUsers <-
           (if String.eqb searchMethod formatted_search
            then filter_loop a candidateUsers []
            else verify_loop a candidateUsers []) ;;
         ret (VResult (text_result (response_text a searchMethod matchingUsers) false))
     end)
    (fun error =>
       ret (VResult (text_result ("Search failed: " ++ errorText error) true))).

(** [userHandlers.find_users_by_attribute] (lines 733-964) *)
Definition find_users_by_attribute : Handler P :=
  validated userSchemas_getUserByAttribute
    (fun v => find_users_by_attribute_body (destructure v)).

End WithPlatform.

End Search.

(** ** Onboarding ([src/tools/onboarding.ts]) *)

Module Onboarding.

(** *** Schemas *)

Definition onboardingSchemas_bulkUserImport : Zod.ObjectSchema :=
  [ ("csvData", Zod.ZString (Some (1, "CSV data is required")));
    ("activateUsers", Zod.ZDefault (Zod.ZOptional Zod.ZBoolean) (Zod.JBool false));
    ("sendEmail", Zod.ZDefault (Zod.ZOptional Zod.ZBoolean) (Zod.JBool true));
    ("defaultGroups",
      Zod.ZDefault (Zod.ZOptional (Zod.ZArray (Zod.ZString None))) (Zod.JArr [])) ].

Definition onboardingSchemas_assignUsersToGroups : Zod.ObjectSchema :=
  [ ("userIds", Zod.ZArray (Zod.ZString (Some (1, "User ID is required"))));
    ("attributeMapping", Zod.ZRecord (Zod.ZRecord (Zod.ZString None))) ].

Definition onboardingSchemas_provisionApplications : Zod.ObjectSchema :=
  [ ("userIds", Zod.ZArray (Zod.ZString (Some (1, "User ID is required"))));
    ("applicationIds", Zod.ZArray (Zod.ZString (Some (1, "Application ID is required")))) ].

Definition onboardingSchemas_runOnboardingWorkflow : Zod.ObjectSchema :=
  [ ("csvData", Zod.ZString (Some (1, "CSV data is required")));
    ("activateUsers", Zod.ZDefault (Zod.ZOptional Zod.ZBoolean) (Zod.JBool true));
    ("defaultGroups",
      Zod.ZDefault (Zod.ZOptional (Zod.ZArray (Zod.ZString None))) (Zod.JArr []));
    ("groupMappings",
      Zod.ZDefault (Zod.ZOptional (Zod.ZRecord (Zod.ZRecord (Zod.ZString None)))) (Zod.JObj []));
    ("applicationIds",
      Zod.ZDefault (Zod.ZOptional (Zod.ZArray (Zod.ZString None))) (Zod.JArr []));
    ("sendWelcomeEmail", Zod.ZDefault (Zod.ZOptional Zod.ZBoolean) (Zod.JBool true)) ].

(** *** Argument objects: destructuring, and building them for a call *)

(** An attribute-to-value-to-group mapping, in the order of its keys. *)
Definition Mapping : Type := list (string * list (string * string)).

Definition get_string (k : string) (v : list (string * Zod.JSON)) : string :=
  match JS.lookup k v with
  | Some (Zod.JStr s) => s
  | _ => EmptyString
  end.

Definition get_bool (k : string) (v : list (string * Zod.JSON)) : bool :=
  match JS.lookup k v with
  | Some (Zod.JBool b) => b
  | _ => false
  end.

Fixpoint strings_of (items : list Zod.JSON) : list string :=
  match items with
  | [] => []
  | Zod.JStr s :: rest => s :: strings_of rest
  | _ :: rest => strings_of rest
  end.

Definition get_strings (k : string) (v : list (string * Zod.JSON)) : list string :=
  match JS.lookup k v with
  | Some (Zod.JArr items) => strings_of items
  | _ => []
  end.

Fixpoint string_members_of (members : list (string * Zod.JSON)) : list (string * string) :=
  match members with
  | [] => []
  | (k, Zod.JStr s) :: rest => (k, s) :: string_members_of rest
  | _ :: rest => string_members_of rest
  end.

Fixpoint mapping_of (members : list (string * Zod.JSON)) : Mapping :=
  match members with
  | [] => []
  | (k, Zod.JObj inner) :: rest => (k, string_members_of inner) :: mapping_of rest
  | _ :: rest => mapping_of rest
  end.

Definition get_mapping (k : string) (v : list (string * Zod.JSON)) : Mapping :=
  match JS.lookup k v with
  | Some (Zod.JObj members) => mapping_of members
  | _ => []
  end.

Definition strings (l : list string) : Zod.JSON := Zod.JArr (map Zod.JStr l).

Definition mapping (m : Mapping) : Zod.JSON :=
  Zod.JObj (map (fun '(k, inner) =>
                   (k, Zod.JObj (map (fun '(k', g) => (k', Zod.JStr g)) inner))) m).

Module ImportArgs.
Record t : Type := mk {
  csvData : string;
  activateUsers : bool;
  sendEmail : bool;
  defaultGroups : list string
}.
End ImportArgs.

Module AssignArgs.
Record t : Type := mk {
  userIds : list string;
  attributeMapping : Mapping
}.
End AssignArgs.

Module ProvisionArgs.
Record t : Type := mk {
  userIds : list string;
  applicationIds : list string
}.
End ProvisionArgs.

Module WorkflowArgs.
Record t : Type := mk {
  csvData : string;
  activateUsers : bool;
  defaultGroups : list string;
  groupMappings : Mapping;
  applicationIds : list string;
  sendWelcomeEmail : bool
}.
End WorkflowArgs.

Definition destructure_import (v : list (string * Zod.JSON)) : ImportArgs.t :=
  {| ImportArgs.csvData := get_string "csvData" v;
     ImportArgs.activateUsers := get_bool "activateUsers" v;
     ImportArgs.sendEmail := get_bool "sendEmail" v;
     ImportArgs.defaultGroups := get_strings "defaultGroups" v |}.

Definition destructure_assign (v : list (string * Zod.JSON)) : AssignArgs.t :=
  {| AssignArgs.userIds := get_strings "userIds" v;
     AssignArgs.attributeMapping := get_mapping "attributeMapping" v |}.

Definition destructure_provision (v : list (string * Zod.JSON)) : ProvisionArgs.t :=
  {| ProvisionArgs.userIds := get_strings "userIds" v;
     ProvisionArgs.applicationIds := get_strings "applicationIds" v |}.

Definition destructure_workflow (v : list (string * Zod.JSON)) : WorkflowArgs.t :=
  {| WorkflowArgs.csvData := get_string "csvData" v;
     WorkflowArgs.activateUsers := get_bool "activateUsers" v;
     WorkflowArgs.defaultGroups := get_strings "defaultGroups" v;
     WorkflowArgs.groupMappings := get_mapping "groupMappings" v;
     WorkflowArgs.applicationIds := get_strings "applicationIds" v;
     WorkflowArgs.sendWelcomeEmail := get_bool "sendWelcomeEmail" v |}.

(** *** Results *)

(** What a handler of this file returns: [{ content, isError, data }]; an
    [isError] left out is [false], a [data] left out is [None]. *)
Module ToolResult.
Record t (D : Type) : Type := mk {
  content : list ContentBlock;
  isError : bool;
  data : option D
}.
Arguments mk {D} content isError data.
Arguments content {D} t.
Arguments isError {D} t.
Arguments data {D} t.
End ToolResult.

(** The result as the dispatcher sees it. *)
Definition to_value {D : Type} (r : ToolResult.t D) : JSValue :=
  VResult {| content := ToolResult.content r; isError := ToolResult.isError r |}.

Definition text_only (t : string) : list ContentBlock :=
  [ {| type := "text"; text := t |} ].

(** Stage 1: [{ id, email, status }] and [{ email, reason }]. *)
Module Created.
Record t : Type := mk {
  id : string;
  email : string;
  status : string
}.
End Created.

Module ImportFailure.
Record t : Type := mk {
  email : string;
  reason : string
}.
End ImportFailure.

Module ImportResults.
Record t : Type := mk {
  success : list Created.t;
  failed : list ImportFailure.t
}.
End ImportResults.

(** Stage 2: the entries pushed carry [id] or [userId], depending on the
    branch that pushes them. *)
Module Assigned.
Record t : Type := mk {
  id : option string;
  userId : option string;
  email : option string;
  assignedGroups : list string;
  message : option string
}.
End Assigned.

Module AssignFailure.
Record t : Type := mk {
  userId : option string;
  id : option string;
  reason : string
}.
End AssignFailure.

Module AssignResults.
Record t : Type := mk {
  success : list Assigned.t;
  failed : list AssignFailure.t
}.
End AssignResults.

(** Stage 3: [{ appId, status, reason? }] per application, and per user
    [{ userId, email?, reason?, applications? }]. *)
Module AppResult.
Record t : Type := mk {
  appId : string;
  status : string;
  reason : option string
}.
End AppResult.

Module Provisioned.
Record t : Type := mk {
  userId : string;
  email : option string;
  reason : option string;
  applications : option (list AppResult.t)
}.
End Provisioned.

Module ProvisionResults.
Record t : Type := mk {
  success : list Provisioned.t;
  failed : list Provisioned.t
}.
End ProvisionResults.

Module Summary.
Record t : Type := mk {
  totalProcessed : nat;
  successfullyOnboarded : nat;
  failedUsers : nat;
  groupsAssigned : nat;
  applicationsProvisioned : nat
}.
End Summary.

Module Workflow.
Record t : Type := mk {
  userImport : ImportResults.t;
  groupAssignment : AssignResults.t;
  applicationProvisioning : ProvisionResults.t;
  summary : Summary.t
}.
End Workflow.

(** The [data] of the workflow: [{ userImport }] on the early return, the
    compiled [workflow] otherwise. *)
Inductive WorkflowData : Type :=
| OnlyImport (userImport : option ImportResults.t)
| Compiled (workflow : Workflow.t).

(** *** Handlers *)

Section Handlers.
Context {P : Platform}.

(** [obj.k] for a column that the code reads as a string once it is known
    to be truthy. *)
Definition column (userData : Row) (k : string) : string :=
  match JS.lookup k userData with
  | Some v => v
  | None => EmptyString
  end.

(** [...(userData.k && { k: userData.k })] *)
Definition optional_column (userData : Row) (k : string) : Profile :=
  if JS.truthy_opt (JS.lookup k userData) then [ (k, column userData k) ] else [].

(** The [profile] of [newUser] (lines 212-223). *)
Definition newUser (userData : Row) : Profile :=
  ([ ("firstName", column userData "firstName");
     ("lastName", column userData "lastName");
     ("email", column userData "email");
     ("login", column userData "email") ]
   ++ optional_column userData "department"
   ++ optional_column userData "title"
   ++ optional_column userData "mobilePhone")%list.

(** The loop over [defaultGroups] (lines 240-245). *)
Definition assign_default_groups (defaultGroups : list string) (userId : string) : M P unit :=
  for_of (fun groupId _ => assignUserToGroup groupId userId) defaultGroups tt.

Definition push_created (r : ImportResults.t) (x : Created.t) : ImportResults.t :=
  {| ImportResults.success := (ImportResults.success r ++ [x])%list;
     ImportResults.failed := ImportResults.failed r |}.

Definition push_import_failure (r : ImportResults.t) (x : ImportFailure.t) : ImportResults.t :=
  {| ImportResults.success := ImportResults.success r;
     ImportResults.failed := (ImportResults.failed r ++ [x])%list |}.

Definition missing_required_fields : string :=
  "Missing required fields (email, firstName, or lastName)".

(** [!userData.email || !userData.firstName || !userData.lastName] *)
Definition lacks_required (userData : Row) : bool :=
  negb (JS.truthy_opt (JS.lookup "email" userData))
  || negb (JS.truthy_opt (JS.lookup "firstName" userData))
  || negb (JS.truthy_opt (JS.lookup "lastName" userData)).

(** The creation of one user, its activation and its assignment to the
    default groups (lines 211-252): the entry pushed to [results.success]. *)
Definition create_and_assign (a : ImportArgs.t) (userData : Row) : M P Created.t :=
  createdUser <- createUser (newUser userData) ;;
  activated <-
    (if ImportArgs.activateUsers a && JS.truthy (User.id createdUser)
     then activateUser (User.id createdUser) (ImportArgs.sendEmail a)
     else ret tt) ;;
  assigned <-
    (if Nat.ltb 0 (List.length (ImportArgs.defaultGroups a))
        && JS.truthy (User.id createdUser)
     then assign_default_groups (ImportArgs.defaultGroups a) (User.id createdUser)
     else ret tt) ;;
  ret {| Created.id := User.id createdUser;
         Created.email := column userData "email";
         Created.status := if ImportArgs.activateUsers a then "ACTIVE" else "STAGED" |}.

(** One row of the import loop (lines 200-259): [results] after the
    iteration. *)
Definition import_row (a : ImportArgs.t) (userData : Row) (results : ImportResults.t)
    : M P ImportResults.t :=
  try_catch
    (if lacks_required userData then
       ret (push_import_failure results
              {| ImportFailure.email := JS.or_else (JS.lookup "email" userData) "Missing email";
                 ImportFailure.reason := missing_required_fields |})
     else
       created <- create_and_assign a userData ;;
       ret (push_created results created))
    (fun error =>
       ret (push_import_failure results
              {| ImportFailure.email := JS.or_else (JS.lookup "email" userData) "Unknown";
                 ImportFailure.reason := errorText error |})).

Definition import_rows (a : ImportArgs.t) (users : list Row) (results : ImportResults.t)
    : M P ImportResults.t :=
  for_of (import_row a) users results.

(** The summary of the import (lines 262-270). *)
Definition import_summary (users : list Row) (results : ImportResults.t) : string :=
  "Processed " ++ JS.of_nat (List.length users) ++ " users from CSV data:" ++ JS.nl
  ++ "- Successfully created: " ++ JS.of_nat (List.length (ImportResults.success results)) ++ JS.nl
  ++ "- Failed: " ++ JS.of_nat (List.length (ImportResults.failed results)) ++ JS.nl
  ++ JS.nl
  ++ (if Nat.ltb 0 (List.length (ImportResults.success results)) then
        "• Successfully created users:" ++ JS.nl
        ++ JS.join JS.nl
             (JS.mapi_from
                (fun i user =>
                   JS.of_nat (i + 1) ++ ". " ++ Created.email user
                   ++ " (ID: " ++ Created.id user ++ ", Status: " ++ Created.status user ++ ")")
                0 (ImportResults.success results))
      else EmptyString)
  ++ JS.nl ++ JS.nl
  ++ (if Nat.ltb 0 (List.length (ImportResults.failed results)) then
        "• Failed users:" ++ JS.nl
        ++ JS.join JS.nl
             (JS.mapi_from
                (fun i user =>
                   JS.of_nat (i + 1) ++ ". " ++ ImportFailure.email user
                   ++ " - " ++ ImportFailure.reason user)
                0 (ImportResults.failed results))
      else EmptyString).

(** [bulk_user_import] after validation (lines 180-287). *)
Definition bulk_user_import_body (a : ImportArgs.t) : M P (ToolResult.t ImportResults.t) :=
  try_catch
    (oktaClient <- getOktaClient ;;
     let users := Papa_parse P (ImportArgs.csvData a) in
     match users with
     | [] =>
         ret (ToolResult.mk (text_only "No valid users found in CSV data.") true None)
     | _ =>
         results <- import_rows a users (ImportResults.mk [] []) ;;
         ret (ToolResult.mk (text_only (import_summary users results)) false (Some results))
     end)
    (fun error =>
       ret (ToolResult.mk (text_only ("Failed to import users: " ++ errorText error)) true None)).

(** [onboardingHandlers.bulk_user_import] (lines 176-288) *)
Definition bulk_user_import (parameters : option Zod.JSON) : M P (ToolResult.t ImportResults.t) :=
  args <- lift (Zod.parse onboardingSchemas_bulkUserImport parameters) ;;
  bulk_user_import_body (destructure_import args).

(** [set.add(x)] on a [Set] kept in insertion order. *)
Definition set_add (s : list string) (x : string) : list string :=
  if JS.array_includes s x then s else (s ++ [x])%list.

(** The groups the mapping gives a profile (lines 317-325). *)
Fixpoint groupsToAssign (profile : Profile) (entries : Mapping) (acc : list string)
    : list string :=
  match entries with
  | [] => acc
  | (attribute, valueMapping) :: rest =>
      let acc' :=
        match JS.lookup attribute profile with
        | Some userAttributeValue =>
            if JS.truthy userAttributeValue
               && JS.truthy_opt (JS.lookup userAttributeValue valueMapping)
            then set_add acc (column valueMapping userAttributeValue)
            else acc
        | None => acc
        end in
      groupsToAssign profile rest acc'
  end.

(** The loop over [groupsToAssign] (lines 339-346). *)
Definition assign_groups (groups : list string) (userId : string) (assignedGroups : list string)
    : M P (list string) :=
  for_of (fun groupId assignedGroups =>
            done <- assignUserToGroup groupId userId ;;
            ret (assignedGroups ++ [groupId])%list)
    groups assignedGroups.

Definition push_assigned (r : AssignResults.t) (x : Assigned.t) : AssignResults.t :=
  {| AssignResults.success := (AssignResults.success r ++ [x])%list;
     AssignResults.failed := AssignResults.failed r |}.

Definition push_assign_failure (r : AssignResults.t) (x : AssignFailure.t) : AssignResults.t :=
  {| AssignResults.success := AssignResults.success r;
     AssignResults.failed := (AssignResults.failed r ++ [x])%list |}.

Definition profile_unavailable : string := "User not found or profile unavailable".

(** One user of the group-assignment loop (lines 303-359). *)
Definition assign_user (a : AssignArgs.t) (userId : string) (results : AssignResults.t)
    : M P AssignResults.t :=
  try_catch
    (user <- getUser userId ;;
     match user with
     | None =>
         ret (push_assign_failure results
                (AssignFailure.mk (Some userId) None profile_unavailable))
     | Some user =>
         match User.profile user with
         | None =>
             ret (push_assign_failure results
                    (AssignFailure.mk (Some userId) None profile_unavailable))
         | Some profile =>
             let groups := groupsToAssign profile (AssignArgs.attributeMapping a) [] in
             match groups with
             | [] =>
                 ret (push_assigned results
                        (Assigned.mk (Some userId) None (JS.lookup "email" profile) []
                           (Some "No group mappings matched user attributes")))
             | _ =>
                 assignedGroups <- assign_groups groups userId [] ;;
                 ret (push_assigned results
                        (Assigned.mk None (Some userId) (JS.lookup "email" profile)
                           assignedGroups None))
             end
         end
     end)
    (fun error =>
       ret (push_assign_failure results
              (AssignFailure.mk None (Some userId) (errorText error)))).

Definition assign_users (a : AssignArgs.t) (userIds : list string) (results : AssignResults.t)
    : M P AssignResults.t :=
  for_of (assign_user a) userIds results.

(** The summary of the group assignment (lines 362-375). *)
Definition assign_summary (userIds : list string) (results : AssignResults.t) : string :=
  "Processed group assignments for " ++ JS.of_nat (List.length userIds) ++ " users:" ++ JS.nl
  ++ "- Successful assignments: "
  ++ JS.of_nat (List.length (AssignResults.success results)) ++ JS.nl
  ++ "- Failed assignments: " ++ JS.of_nat (List.length (AssignResults.failed results)) ++ JS.nl
  ++ JS.nl
  ++ (if Nat.ltb 0 (List.length (AssignResults.success results)) then
        "• Successfully assigned users:" ++ JS.nl
        ++ JS.join JS.nl
             (JS.mapi_from
                (fun i user =>
                   let groupsInfo :=
                     if Nat.ltb 0 (List.length (Assigned.assignedGroups user))
                     then "assigned to "
                          ++ JS.of_nat (List.length (Assigned.assignedGroups user)) ++ " groups"
                     else JS.or_else (Assigned.message user) "no matching groups" in
                   JS.of_nat (i + 1) ++ ". "
                   ++ (if JS.truthy_opt (Assigned.email user)
                       then JS.show_opt (Assigned.email user)
                       else JS.show_opt (Assigned.userId user))
                   ++ " (" ++ groupsInfo ++ ")")
                0 (AssignResults.success results))
      else EmptyString)
  ++ JS.nl ++ JS.nl
  ++ (if Nat.ltb 0 (List.length (AssignResults.failed results)) then
        "• Failed assignments:" ++ JS.nl
        ++ JS.join JS.nl
             (JS.mapi_from
                (fun i user =>
                   JS.of_nat (i + 1) ++ ". User ID: " ++ JS.show_opt (AssignFailure.userId user)
                   ++ " - " ++ AssignFailure.reason user)
                0 (AssignResults.failed results))
      else EmptyString).

(** [assign_users_to_groups] after validation (lines 294-392). *)
Definition assign_users_to_groups_body (a : AssignArgs.t) : M P (ToolResult.t AssignResults.t) :=
  try_catch
    (oktaClient <- getOktaClient ;;
     results <- assign_users a (AssignArgs.userIds a) (AssignResults.mk [] []) ;;
     ret (ToolResult.mk (text_only (assign_summary (AssignArgs.userIds a) results))
            false (Some results)))
    (fun error =>
       ret (ToolResult.mk
              (text_only ("Failed to assign users to groups: " ++ errorText error)) true None)).

(** [onboardingHandlers.assign_users_to_groups] (lines 290-393) *)
Definition assign_users_to_groups (parameters : option Zod.JSON)
    : M P (ToolResult.t AssignResults.t) :=
  args <- lift (Zod.parse onboardingSchemas_assignUsersToGroups parameters) ;;
  assign_users_to_groups_body (destructure_assign args).

Definition push_provisioned (r : ProvisionResults.t) (x : Provisioned.t) : ProvisionResults.t :=
  {| ProvisionResults.success := (ProvisionResults.success r ++ [x])%list;
     ProvisionResults.failed := ProvisionResults.failed r |}.

Definition push_provision_failure (r : ProvisionResults.t) (x : Provisioned.t)
    : ProvisionResults.t :=
  {| ProvisionResults.success := ProvisionResults.success r;
     ProvisionResults.failed := (ProvisionResults.failed r ++ [x])%list |}.

(** One application of the inner loop (lines 430-452): the array
    [userResults.applications] and the flag [hasFailure] after it. *)
Definition grant (userId appId : string) (state : list AppResult.t * bool)
    : M P (list AppResult.t * bool) :=
  let '(applications, hasFailure) := state in
  try_catch
    (done <- assignUserToApplication appId userId ;;
     ret ((applications ++ [AppResult.mk appId "assigned" None])%list, hasFailure))
    (fun error =>
       ret ((applications ++ [AppResult.mk appId "failed" (Some (errorText error))])%list,
            true)).

Definition grant_all (applicationIds : list string) (userId : string)
    : M P (list AppResult.t * bool) :=
  for_of (grant userId) applicationIds ([], false).

(** The calls that attempt every application once, in order. *)
Definition grant_calls (userId : string) (applicationIds : list string) : list Call :=
  map (fun appId => Call_assignUserToApplication appId userId) applicationIds.

(** One user of the provisioning loop (lines 408-466). *)
Definition provision_user (a : ProvisionArgs.t) (userId : string) (results : ProvisionResults.t)
    : M P ProvisionResults.t :=
  try_catch
    (user <- getUser userId ;;
     match user with
     | None =>
         ret (push_provision_failure results
                (Provisioned.mk userId None (Some profile_unavailable) None))
     | Some user =>
         match User.profile user with
         | None =>
             ret (push_provision_failure results
                    (Provisioned.mk userId None (Some profile_unavailable) None))
         | Some profile =>
             ' (applications, hasFailure) <-
                 grant_all (ProvisionArgs.applicationIds a) userId ;;
             let userResults :=
               Provisioned.mk userId (JS.lookup "email" profile) None (Some applications) in
             if hasFailure
             then ret (push_provision_failure results userResults)
             else ret (push_provisioned results userResults)
         end
     end)
    (fun error =>
       ret (push_provision_failure results
              (Provisioned.mk userId None (Some (errorText error)) (Some [])))).

Definition provision_users (a : ProvisionArgs.t) (userIds : list string)
    (results : ProvisionResults.t) : M P ProvisionResults.t :=
  for_of (provision_user a) userIds results.

(** [app.status === 'failed'] *)
Definition failed_grant (app : AppResult.t) : bool :=
  String.eqb (AppResult.status app) "failed".

(** A sub-result as the inner loop writes it: assigned and without a
    reason, or failed with the reason of the failure. *)
Definition sub_result_ok (app : AppResult.t) : Prop :=
  (AppResult.status app = "assigned" /\ AppResult.reason app = None)
  \/ (AppResult.status app = "failed" /\ exists msg, AppResult.reason app = Some msg).

(** [user.email || user.userId] *)
Definition email_or_userId (user : Provisioned.t) : string :=
  JS.or_else (Provisioned.email user) (Provisioned.userId user).

(** The lines of the failed users (lines 479-482): reading
    [user.applications.filter] raises a [TypeError] on an entry that has no
    [applications] member. *)
Fixpoint failed_lines (i : nat) (failed : list Provisioned.t) : Outcome (list string) :=
  match failed with
  | [] => Returned []
  | user :: rest =>
      match Provisioned.applications user with
      | None => Raised (ErrorObj "Cannot read properties of undefined (reading 'filter')")
      | Some applications =>
          let failedApps := List.length (filter failed_grant applications) in
          match failed_lines (S i) rest with
          | Returned lines =>
              Returned
                ((JS.of_nat (i + 1) ++ ". " ++ email_or_userId user ++ " - "
                  ++ JS.or_else (Provisioned.reason user)
                       (JS.of_nat failedApps ++ " applications failed")) :: lines)
          | Raised e => Raised e
          end
      end
  end.

(** The lines of the provisioned users (lines 474-476); every entry
    pushed to [success] has its [applications]. *)
Definition provisioned_line (i : nat) (user : Provisioned.t) : string :=
  JS.of_nat (i + 1) ++ ". " ++ email_or_userId user ++ " (provisioned "
  ++ JS.of_nat (List.length
                  (match Provisioned.applications user with
                   | Some applications => applications
                   | None => []
                   end))
  ++ " applications)".

(** The summary of the provisioning (lines 469-482). *)
Definition provision_summary (a : ProvisionArgs.t) (results : ProvisionResults.t)
    : Outcome string :=
  let head :=
    "Processed application provisioning for "
    ++ JS.of_nat (List.length (ProvisionArgs.userIds a)) ++ " users across "
    ++ JS.of_nat (List.length (ProvisionArgs.applicationIds a)) ++ " applications:" ++ JS.nl
    ++ "- Successful provisioning: "
    ++ JS.of_nat (List.length (ProvisionResults.success results)) ++ " users" ++ JS.nl
    ++ "- Failed provisioning: "
    ++ JS.of_nat (List.length (ProvisionResults.failed results)) ++ " users" ++ JS.nl
    ++ JS.nl
    ++ (if Nat.ltb 0 (List.length (ProvisionResults.success results)) then
          "• Successfully provisioned users:" ++ JS.nl
          ++ JS.join JS.nl (JS.mapi_from provisioned_line 0 (ProvisionResults.success results))
        else EmptyString)
    ++ JS.nl ++ JS.nl in
  if Nat.ltb 0 (List.length (ProvisionResults.failed results)) then
    match failed_lines 0 (ProvisionResults.failed results) with
    | Returned lines =>
        Returned (head ++ "• Failed provisioning:" ++ JS.nl ++ JS.join JS.nl lines)
    | Raised e => Raised e
    end
  else Returned head.

(** [provision_applications] after validation (lines 399-499). *)
Definition provision_applications_body (a : ProvisionArgs.t)
    : M P (ToolResult.t ProvisionResults.t) :=
  try_catch
    (oktaClient <- getOktaClient ;;
     results <- provision_users a (ProvisionArgs.userIds a) (ProvisionResults.mk [] []) ;;
     summary <- lift (provision_summary a results) ;;
     ret (ToolResult.mk (text_only summary) false (Some results)))
    (fun error =>
       ret (ToolResult.mk
              (text_only ("Failed to provision applications: " ++ errorText error)) true None)).

(** [onboardingHandlers.provision_applications] (lines 395-500) *)
Definition provision_applications (parameters : option Zod.JSON)
    : M P (ToolResult.t ProvisionResults.t) :=
  args <- lift (Zod.parse onboardingSchemas_provisionApplications parameters) ;;
  provision_applications_body (destructure_provision args).

(** The [created ids] of the workflow (line 530). *)
Definition createdUserIds (d : ImportResults.t) : list string :=
  map Created.id (ImportResults.success d).

(** The keys stage 1 created: the ids of [importResults.data.success]. *)
Definition created_keys (importResults : ToolResult.t ImportResults.t) : list string :=
  match ToolResult.data importResults with
  | Some d => createdUserIds d
  | None => []
  end.

Definition no_users_created : string :=
  "No users were successfully created during the onboarding workflow.".

(** The summary of the workflow (lines 569-584). *)
Definition workflow_summary (a : WorkflowArgs.t) (workflow : Workflow.t) : string :=
  let s := Workflow.summary workflow in
  let mapped := Nat.ltb 0 (List.length (WorkflowArgs.groupMappings a)) in
  let provisioned := Nat.ltb 0 (List.length (WorkflowArgs.applicationIds a)) in
  "Onboarding Workflow Complete:" ++ JS.nl
  ++ JS.nl
  ++ "- User Import:" ++ JS.nl
  ++ "  - Processed " ++ JS.of_nat (Summary.totalProcessed s) ++ " users" ++ JS.nl
  ++ "  - Successfully created: " ++ JS.of_nat (Summary.successfullyOnboarded s) ++ JS.nl
  ++ "  - Failed: " ++ JS.of_nat (Summary.failedUsers s) ++ JS.nl
  ++ JS.nl
  ++ (if mapped then
        "• Group Assignment:" ++ JS.nl
        ++ "  - Users assigned to groups: "
        ++ JS.of_nat (List.length (AssignResults.success (Workflow.groupAssignment workflow)))
        ++ JS.nl
        ++ "  - Failed group assignments: "
        ++ JS.of_nat (List.length (AssignResults.failed (Workflow.groupAssignment workflow)))
      else "• Group Assignment: Not configured")
  ++ JS.nl ++ JS.nl
  ++ (if provisioned then
        "• Application Provisioning:" ++ JS.nl
        ++ "  - Users provisioned with applications: "
        ++ JS.of_nat
             (List.length (ProvisionResults.success (Workflow.applicationProvisioning workflow)))
        ++ JS.nl
        ++ "  - Failed application provisioning: "
        ++ JS.of_nat
             (List.length (ProvisionResults.failed (Workflow.applicationProvisioning workflow)))
      else "• Application Provisioning: Not configured")
  ++ JS.nl ++ JS.nl
  ++ "Overall, successfully onboarded " ++ JS.of_nat (Summary.successfullyOnboarded s)
  ++ " out of " ++ JS.of_nat (Summary.totalProcessed s) ++ " users with "
  ++ (if mapped then "attribute-based group assignment" else "default groups only")
  ++ " and "
  ++ (if provisioned then "application provisioning" else "no application provisioning")
  ++ ".".

(** The arguments the workflow hands to each stage. *)
Definition import_parameters (a : WorkflowArgs.t) : Zod.JSON :=
  Zod.JObj
    [ ("csvData", Zod.JStr (WorkflowArgs.csvData a));
      ("activateUsers", Zod.JBool (WorkflowArgs.activateUsers a));
      ("sendEmail", Zod.JBool (WorkflowArgs.sendWelcomeEmail a));
      ("defaultGroups", strings (WorkflowArgs.defaultGroups a)) ].

Definition assign_parameters (a : WorkflowArgs.t) (ids : list string) : Zod.JSON :=
  Zod.JObj
    [ ("userIds", strings ids);
      ("attributeMapping", mapping (WorkflowArgs.groupMappings a)) ].

Definition provision_parameters (a : WorkflowArgs.t) (ids : list string) : Zod.JSON :=
  Zod.JObj
    [ ("userIds", strings ids);
      ("applicationIds", strings (WorkflowArgs.applicationIds a)) ].

(** Reading [x.data.success] when [x.data] is [undefined]. *)
Definition data_undefined : Thrown :=
  ErrorObj "Cannot read properties of undefined (reading 'success')".

(** Steps 2 and 3 and the compilation of the report (lines 530-589), for
    the import results [d] of step 1. *)
Definition after_import (a : WorkflowArgs.t) (d : ImportResults.t)
    : M P (ToolResult.t WorkflowData) :=
  let createdUserIds := createdUserIds d in
  groupResults <-
    (if Nat.ltb 0 (List.length (WorkflowArgs.groupMappings a)) then
       r <- assign_users_to_groups (Some (assign_parameters a createdUserIds)) ;;
       ret (ToolResult.data r)
     else ret (Some (AssignResults.mk [] []))) ;;
  appResults <-
    (if Nat.ltb 0 (List.length (WorkflowArgs.applicationIds a)) then
       r <- provision_applications (Some (provision_parameters a createdUserIds)) ;;
       ret (ToolResult.data r)
     else ret (Some (ProvisionResults.mk [] []))) ;;
  match groupResults, appResults with
  | Some groupAssignment, Some applicationProvisioning =>
      let workflow :=
        {| Workflow.userImport := d;
           Workflow.groupAssignment := groupAssignment;
           Workflow.applicationProvisioning := applicationProvisioning;
           Workflow.summary :=
             {| Summary.totalProcessed :=
                  List.length (ImportResults.success d) + List.length (ImportResults.failed d);
                Summary.successfullyOnboarded := List.length (ImportResults.success d);
                Summary.failedUsers := List.length (ImportResults.failed d);
                Summary.groupsAssigned := List.length (AssignResults.success groupAssignment);
                Summary.applicationsProvisioned :=
                  List.length (ProvisionResults.success applicationProvisioning) |} |} in
      ret (ToolResult.mk (text_only (workflow_summary a workflow)) false
             (Some (Compiled workflow)))
  | _, _ => throw data_undefined
  end.

(** [run_onboarding_workflow] after validation (lines 512-601). *)
Definition run_onboarding_workflow_body (a : WorkflowArgs.t)
    : M P (ToolResult.t WorkflowData) :=
  try_catch
    (importResults <- bulk_user_import (Some (import_parameters a)) ;;
     match ToolResult.data importResults with
     | None =>
         ret (ToolResult.mk (text_only no_users_created) false (Some (OnlyImport None)))
     | Some d =>
         match ImportResults.success d with
         | [] =>
             ret (ToolResult.mk (text_only no_users_created) false
                    (Some (OnlyImport (Some d))))
         | _ => after_import a d
         end
     end)
    (fun error =>
       ret (ToolResult.mk
              (text_only ("Failed to complete onboarding workflow: " ++ errorText error))
              true None)).

(** [onboardingHandlers.run_onboarding_workflow] (lines 502-602) *)
Definition run_onboarding_workflow (parameters : option Zod.JSON)
    : M P (ToolResult.t WorkflowData) :=
  args <- lift (Zod.parse onboardingSchemas_runOnboardingWorkflow parameters) ;;
  run_onboarding_workflow_body (destructure_workflow args).

(** The four handlers as the handler table holds them. *)
Definition onboardingHandlers : list (string * Handler P) :=
  [ ("bulk_user_import", fun parameters => r <- bulk_user_import parameters ;; ret (to_value r));
    ("assign_users_to_groups",
      fun parameters => r <- assign_users_to_groups parameters ;; ret (to_value r));
    ("provision_applications",
      fun parameters => r <- provision_applications parameters ;; ret (to_value r));
    ("run_onboarding_workflow",
      fun parameters => r <- run_onboarding_workflow parameters ;; ret (to_value r)) ].

End Handlers.

End Onboarding.

(** ** The tools and their handlers ([src/tools/]) *)

Module Tools.

(** The schemas of [users.ts] and [groups.ts]; those of the attribute
    search and of the onboarding tools are given above. *)
Definition optional_string : Zod.Schema := Zod.ZOptional (Zod.ZString None).

Definition limit_schema : Zod.Schema :=
  Zod.ZDefault (Zod.ZOptional (Zod.ZNumber (Some 1%Z) (Some 200%Z))) (Zod.JNum 50%Z).

Definition userSchemas_listUsers : Zod.ObjectSchema :=
  [ ("limit", limit_schema);
    ("filter", optional_string);
    ("search", optional_string);
    ("after", optional_string);
    ("sortBy", optional_string);
    ("sortOrder", Zod.ZDefault (Zod.ZOptional (Zod.ZEnum ["asc"; "desc"])) (Zod.JStr "asc")) ].

Definition userSchemas_createUser (is_email : string -> bool) : Zod.ObjectSchema :=
  [ ("firstName", Zod.ZString (Some (1, "First name is required")));
    ("lastName", Zod.ZString (Some (1, "Last name is required")));
    ("email", Zod.ZEmail is_email "Valid email is required");
    ("login", optional_string);
    ("activate", Zod.ZDefault (Zod.ZOptional Zod.ZBoolean) (Zod.JBool false)) ].

Definition userSchemas_activateUser : Zod.ObjectSchema :=
  [ ("userId", Zod.ZString (Some (1, "User ID is required")));
    ("sendEmail", Zod.ZDefault (Zod.ZOptional Zod.ZBoolean) (Zod.JBool true)) ].

(** [suspendUser], [unsuspendUser], [deactivateUser], [deleteUser] and
    [getUserLastLocation] are the schema of [getUser]. *)
Definition userSchemas_suspendUser : Zod.ObjectSchema := userSchemas_getUser.
Definition userSchemas_unsuspendUser : Zod.ObjectSchema := userSchemas_getUser.
Definition userSchemas_deactivateUser : Zod.ObjectSchema := userSchemas_getUser.
Definition userSchemas_deleteUser : Zod.ObjectSchema := userSchemas_getUser.
Definition userSchemas_getUserLastLocation : Zod.ObjectSchema := userSchemas_getUser.

Definition groupSchemas_listGroups : Zod.ObjectSchema := userSchemas_listUsers.

Definition groupSchemas_createGroup : Zod.ObjectSchema :=
  [ ("name", Zod.ZString (Some (1, "Group name is required")));
    ("description", optional_string) ].

Definition groupSchemas_getGroup : Zod.ObjectSchema :=
  [ ("groupId", Zod.ZString (Some (1, "Group ID is required"))) ].

Definition groupSchemas_deleteGroup : Zod.ObjectSchema := groupSchemas_getGroup.

Definition groupSchemas_assignUserToGroup : Zod.ObjectSchema :=
  [ ("groupId", Zod.ZString (Some (1, "Group ID is required")));
    ("userId", Zod.ZString (Some (1, "User ID is required"))) ].

Definition groupSchemas_removeUserFromGroup : Zod.ObjectSchema :=
  groupSchemas_assignUserToGroup.

Definition groupSchemas_listGroupUsers : Zod.ObjectSchema :=
  [ ("groupId", Zod.ZString (Some (1, "Group ID is required")));
    ("limit", limit_schema);
    ("after", optional_string) ].

(** The tool definitions, as far as this development reads them: the
    name of each tool and the [required] list of its [inputSchema]. *)
Definition userTools : list (string * list string) :=
  [ ("get_user", [ "userId" ]);
    ("find_users_by_attribute", [ "attribute"; "value" ]);
    ("list_users", []);
    ("create_user", [ "firstName"; "lastName"; "email" ]);
    ("activate_user", [ "userId" ]);
    ("suspend_user", [ "userId" ]);
    ("unsuspend_user", [ "userId" ]);
    ("deactivate_user", [ "userId" ]);
    ("delete_user", [ "userId" ]);
    ("get_user_last_location", [ "userId" ]) ].

Definition groupTools : list (string * list string) :=
  [ ("list_groups", []);
    ("create_group", [ "name" ]);
    ("get_group", [ "groupId" ]);
    ("delete_group", [ "groupId" ]);
    ("assign_user_to_group", [ "groupId"; "userId" ]);
    ("remove_user_from_group", [ "groupId"; "userId" ]);
    ("list_group_users", [ "groupId" ]) ].

Definition onboardingTools : list (string * list string) :=
  [ ("bulk_user_import", [ "csvData" ]);
    ("assign_users_to_groups", [ "userIds"; "attributeMapping" ]);
    ("provision_applications", [ "userIds"; "applicationIds" ]);
    ("run_onboarding_workflow", [ "csvData" ]) ].

(** [TOOLS] of [tools/index.ts] *)
Definition TOOLS : list (string * list string) :=
  (userTools ++ groupTools ++ onboardingTools)%list.

Section WithPlatform.
Context {P : Platform}.

(** The e-mail format test of the validator. *)
Variable is_email : string -> bool.

(** What each handler that is not modelled above does once its arguments
    are validated, by the name of the tool. *)
Variable rest_of : string -> list (string * Zod.JSON) -> M P JSValue.

(** [userHandlers] of [users.ts] *)
Definition userHandlers : list (string * Handler P) :=
  [ ("get_user", get_user (rest_of "get_user"));
    ("list_users", validated userSchemas_listUsers (rest_of "list_users"));
    ("create_user", validated (userSchemas_createUser is_email) (rest_of "create_user"));
    ("activate_user", validated userSchemas_activateUser (rest_of "activate_user"));
    ("suspend_user", validated userSchemas_suspendUser (rest_of "suspend_user"));
    ("unsuspend_user", validated userSchemas_unsuspendUser (rest_of "unsuspend_user"));
    ("deactivate_user", validated userSchemas_deactivateUser (rest_of "deactivate_user"));
    ("delete_user", validated userSchemas_deleteUser (rest_of "delete_user"));
    ("find_users_by_attribute", Search.find_users_by_attribute);
    ("get_user_last_location",
      validated userSchemas_getUserLastLocation (rest_of "get_user_last_location")) ].

(** [groupHandlers] of [groups.ts] *)
Definition groupHandlers : list (string * Handler P) :=
  [ ("list_groups", validated groupSchemas_listGroups (rest_of "list_groups"));
    ("create_group", validated groupSchemas_createGroup (rest_of "create_group"));
    ("get_group", validated groupSchemas_getGroup (rest_of "get_group"));
    ("delete_group", validated groupSchemas_deleteGroup (rest_of "delete_group"));
    ("assign_user_to_group",
      validated groupSchemas_assignUserToGroup (rest_of "assign_user_to_group"));
    ("remove_user_from_group",
      validated groupSchemas_removeUserFromGroup (rest_of "remove_user_from_group"));
    ("list_group_users",
      validated groupSchemas_listGroupUsers (rest_of "list_group_users")) ].

(** [HANDLERS] of [tools/index.ts]: the three tables spread into one
    object literal (no name occurs in two of them), which inherits the
    properties [prototype] of [Object.prototype]. *)
Definition HANDLERS (prototype : list (string * Property P)) : HandlerTable P :=
  {| own := (userHandlers ++ groupHandlers ++ Onboarding.onboardingHandlers)%list;
     inherited := prototype |}.

(** The schema each handler validates its arguments against. *)
Definition schemas : list (string * Zod.ObjectSchema) :=
  [ ("get_user", userSchemas_getUser);
    ("list_users", userSchemas_listUsers);
    ("create_user", userSchemas_createUser is_email);
    ("activate_user", userSchemas_activateUser);
    ("suspend_user", userSchemas_suspendUser);
    ("unsuspend_user", userSchemas_unsuspendUser);
    ("deactivate_user", userSchemas_deactivateUser);
    ("delete_user", userSchemas_deleteUser);
    ("find_users_by_attribute", Search.userSchemas_getUserByAttribute);
    ("get_user_last_location", userSchemas_getUserLastLocation);
    ("list_groups", groupSchemas_listGroups);
    ("create_group", groupSchemas_createGroup);
    ("get_group", groupSchemas_getGroup);
    ("delete_group", groupSchemas_deleteGroup);
    ("assign_user_to_group", groupSchemas_assignUserToGroup);
    ("remove_user_from_group", groupSchemas_removeUserFromGroup);
    ("list_group_users", groupSchemas_listGroupUsers);
    ("bulk_user_import", Onboarding.onboardingSchemas_bulkUserImport);
    ("assign_users_to_groups", Onboarding.onboardingSchemas_assignUsersToGroups);
    ("provision_applications", Onboarding.onboardingSchemas_provisionApplications);
    ("run_onboarding_workflow", Onboarding.onboardingSchemas_runOnboardingWorkflow) ].

End WithPlatform.

End Tools.

(** ** A small directory to run the model on *)

Module Demo.

Definition alice : User.t :=
  User.mk "u1" "ACTIVE"
    (Some [ ("firstName", "Alice"); ("lastName", "Ames"); ("email", "alice@example.com");
            ("department", "Engineering"); ("title", "Engineer") ])
    None.

Definition bob : User.t :=
  User.mk "u2" "ACTIVE"
    (Some [ ("firstName", "Bob"); ("lastName", "Bell"); ("email", "bob@example.com");
            ("department", "Engineering") ])
    None.

Definition carol : User.t :=
  User.mk "u3" "ACTIVE"
    (Some [ ("firstName", "Carol"); ("lastName", "Cole"); ("email", "carol@example.com");
            ("department", "Sales") ])
    None.

Definition users : list User.t := [ alice; bob; carol ].

(** A user the directory lists and then fails to fetch. *)
Definition ghost : User.t := User.mk "ghost" "ACTIVE" None None.

Definition csv : string :=
  "email,firstName,lastName,department" ++ JS.nl
  ++ "ann@example.com,Ann,Lee,Engineering" ++ JS.nl
  ++ "ben@example.com,Ben,,Sales" ++ JS.nl
  ++ "cy@example.com,Cy,Poe,Sales" ++ JS.nl
  ++ "dee@example.com,Dee,Ray,Engineering".

Definition rows : list Row :=
  [ [ ("email", "ann@example.com"); ("firstName", "Ann"); ("lastName", "Lee");
      ("department", "Engineering") ];
    [ ("email", "ben@example.com"); ("firstName", "Ben"); ("lastName", EmptyString);
      ("department", "Sales") ];
    [ ("email", "cy@example.com"); ("firstName", "Cy"); ("lastName", "Poe");
      ("department", "Sales") ];
    [ ("email", "dee@example.com"); ("firstName", "Dee"); ("lastName", "Ray");
      ("department", "Engineering") ] ].

Definition ok : Outcome unit := Returned tt.

(** The state of the directory is the number of users created so far.
    A formatted search on [manager] is refused as an unsupported operator,
    any other formatted search fails with a server error; a free-text
    search and a plain listing return the three users.  The user [ghost]
    cannot be fetched, the group [bad-group] and the application [bad-app]
    cannot be assigned, and a user created gets the next [new-N] id. *)
Definition platform : Platform :=
  {| World := nat;
     OKTA_ORG_URL := Some "https://dev-1.okta.com";
     OKTA_API_TOKEN := Some "token";
     userApi_listUsers := fun params w =>
       match ListUsersParams.search params with
       | Some q =>
           if JS.startsWith q "profile.manager" then
             (Raised (ErrorObj "Invalid search criteria: the operator is not supported."), w)
           else if JS.startsWith q "profile." then
             (Raised (ErrorObj "Internal Server Error"), w)
           else if String.eqb q "unavailable" then
             (Raised (ErrorObj "Service Unavailable"), w)
           else (Returned (Some users), w)
       | None => (Returned (Some users), w)
       end;
     userApi_getUser := fun userId w =>
       if String.eqb userId "ghost" then (Raised (ErrorObj "Not found"), w)
       else if String.eqb userId "u1" then (Returned (Some alice), w)
       else if String.eqb userId "u2" then (Returned (Some bob), w)
       else if String.eqb userId "u3" then (Returned (Some carol), w)
       else
         (Returned
            (Some (User.mk userId "STAGED"
                     (Some [ ("email", userId ++ "@example.com");
                             ("department", "Engineering") ])
                     None)), w);
     userApi_createUser := fun body w =>
       if String.eqb (Onboarding.column body "email") "cy@example.com" then
         (Raised (ErrorObj "login already exists"), w)
       else (Returned (User.mk ("new-" ++ JS.of_nat w) "STAGED" (Some body) None), S w);
     userApi_activateUser := fun userId sendEmail w => (ok, w);
     groupApi_assignUserToGroup := fun groupId userId w =>
       if String.eqb groupId "bad-group" then (Raised (ErrorObj "Group not found"), w)
       else (ok, w);
     applicationApi_assignUserToApplication := fun appId userId w =>
       if String.eqb appId "bad-app" then (Raised (ErrorObj "Application not found"), w)
       else (ok, w);
     Papa_parse := fun data => if String.eqb data csv then rows else [];
     toLocaleString := fun d => d |}.

(** A handler that fetches a user and then fails. *)
Definition failing_body (args : list (string * Zod.JSON)) : M platform JSValue :=
  user <- getUser (Onboarding.get_string "userId" args) ;;
  throw (ErrorObj "boom").

(** The handler table, the handlers not modelled here fetching a user
    and failing, and [toString] being inherited the way an object literal
    inherits it. *)
Definition table : HandlerTable platform :=
  Tools.HANDLERS (fun v => JS.includes v "@") (fun _ => failing_body)
    [ ("toString", Fn (fun _ => ret (VOther "[object Object]"))) ].

Definition search_args (attribute value : string) (o : Search.Operator) (limit : nat)
    : Search.Args :=
  Search.mkArgs attribute value o limit false.

Definition workflow_args (groupMappings : Onboarding.Mapping) (applicationIds : list string)
    : Onboarding.WorkflowArgs.t :=
  Onboarding.WorkflowArgs.mk csv true [] groupMappings applicationIds true.

End Demo.

(** ** The other tools of [users.ts] and [groups.ts]

    The record [User.t] and the calls of [Platform] keep what the
    attribute search and the onboarding read of a user and ask of the
    directory.  The other handlers print more members of a user, pass
    more parameters, and use more methods of the client; the objects
    they read and the methods they call are given here. *)

Module Directory.

(** A member of an object that the sources print or test: absent
    ([undefined]), [null], or a string. *)
Inductive Member : Type :=
| Absent
| Null
| Str (s : string).

(** What a template literal prints for a member. *)
Definition show (m : Member) : string :=
  match m with
  | Absent => "undefined"
  | Null => "null"
  | Str s => s
  end.

(** [m || d] *)
Definition or_else (m : Member) (d : string) : string :=
  match m with
  | Str s => if JS.truthy s then s else d
  | _ => d
  end.

(** [getProfileValue(value)]: [value ?? "N/A"] *)
Definition getProfileValue (value : Member) : string :=
  match value with
  | Str s => s
  | _ => "N/A"
  end.

(** [formatArray(arr)] of [groups.ts] *)
Definition formatArray (arr : option (list string)) : string :=
  match arr with
  | None => "N/A"
  | Some [] => "N/A"
  | Some arr => JS.join ", " arr
  end.

(** The members of an object, by name; [{}] has none. *)
Definition Members : Type := string -> Member.

Definition no_members : Members := fun _ => Absent.

Module FullUser.
(** A user, with the members [get_user] and the listings print. *)
Record t : Type := mk {
  id : Member;
  status : Member;
  created : option string;
  activated : option string;
  lastLogin : option string;
  lastUpdated : option string;
  statusChanged : option string;
  passwordChanged : option string;
  profile : option Members
}.
End FullUser.

Module Group.
Record t : Type := mk {
  id : Member;
  type : Member;
  objectClass : option (list string);
  created : option string;
  lastUpdated : option string;
  lastMembershipUpdated : option string;
  profile : option Members
}.
End Group.

Module Client.
(** [event.client]: its own members and its [geographicalContext]. *)
Record t : Type := mk {
  members : Members;
  geographicalContext : option Members
}.
End Client.

Module LogEvent.
Record t : Type := mk {
  published : option string;
  eventType : Member;
  client : option Client.t
}.
End LogEvent.

Module QueryParams.
(** The query parameters of a listing: a member is set only when the
    validated argument is truthy. *)
Record t : Type := mk {
  limit : option Z;
  after : option string;
  filter : option string;
  search : option string;
  sortBy : option string;
  sortOrder : option string
}.
End QueryParams.

Module LogQuery.
Record t : Type := mk {
  since : string;
  filter : string;
  limit : Z
}.
End LogQuery.

Module Sdk.
(** The methods of the client that the handlers below call, each an
    asynchronous computation about which nothing is assumed.  A listing
    gives the collection the handler iterates, an element of which may be
    [null]; [systemLogApi_listLogEvents] stands for the query followed by
    [logs.next()], and gives the [value] of the first entry, if there is
    one; [ninetyDaysAgo] is the date ninety days before the call, in ISO
    format, read from the clock. *)
Record t (P : Platform) : Type := mk {
  userApi_getUser : string -> M P (option FullUser.t);
  userApi_listUsers : QueryParams.t -> M P (option (list (option FullUser.t)));
  userApi_createUser : Profile -> bool -> M P FullUser.t;
  userApi_suspendUser : string -> M P unit;
  userApi_unsuspendUser : string -> M P unit;
  userApi_deactivateUser : string -> M P unit;
  userApi_deleteUser : string -> M P unit;
  systemLogApi_listLogEvents : LogQuery.t -> M P (option LogEvent.t);
  ninetyDaysAgo : string;
  groupApi_listGroups : QueryParams.t -> M P (option (list (option Group.t)));
  groupApi_createGroup : string -> string -> M P Group.t;
  groupApi_getGroup : string -> M P (option Group.t);
  groupApi_deleteGroup : string -> M P unit;
  groupApi_unassignUserFromGroup : string -> string -> M P unit;
  groupApi_listGroupUsers :
    string -> QueryParams.t -> M P (option (list (option FullUser.t)))
}.
Arguments userApi_getUser {P} t.
Arguments userApi_listUsers {P} t.
Arguments userApi_createUser {P} t.
Arguments userApi_suspendUser {P} t.
Arguments userApi_unsuspendUser {P} t.
Arguments userApi_deactivateUser {P} t.
Arguments userApi_deleteUser {P} t.
Arguments systemLogApi_listLogEvents {P} t.
Arguments ninetyDaysAgo {P} t.
Arguments groupApi_listGroups {P} t.
Arguments groupApi_createGroup {P} t.
Arguments groupApi_getGroup {P} t.
Arguments groupApi_deleteGroup {P} t.
Arguments groupApi_unassignUserFromGroup {P} t.
Arguments groupApi_listGroupUsers {P} t.
End Sdk.

(** *** Validated arguments *)

Definition get_optional (k : string) (v : list (string * Zod.JSON)) : option string :=
  match JS.lookup k v with
  | Some (Zod.JStr s) => Some s
  | _ => None
  end.

Definition get_number (k : string) (v : list (string * Zod.JSON)) : option Z :=
  match JS.lookup k v with
  | Some (Zod.JNum n) => Some n
  | _ => None
  end.

(** [if (x) queryParams.k = x], for a string and for a number. *)
Definition if_truthy (x : option string) : option string :=
  match x with
  | Some s => if JS.truthy s then Some s else None
  | None => None
  end.

Definition if_nonzero (x : option Z) : option Z :=
  match x with
  | Some n => if Z.eqb n 0 then None else Some n
  | None => None
  end.

(** [params.limit || 50] *)
Definition limit_or_50 (limit : option Z) : Z :=
  match limit with
  | Some n => if Z.eqb n 0 then 50%Z else n
  | None => 50%Z
  end.

(** The query parameters of [list_users] and [list_groups]. *)
Definition queryParams (params : list (string * Zod.JSON)) : QueryParams.t :=
  {| QueryParams.limit := if_nonzero (get_number "limit" params);
     QueryParams.after := if_truthy (get_optional "after" params);
     QueryParams.filter := if_truthy (get_optional "filter" params);
     QueryParams.search := if_truthy (get_optional "search" params);
     QueryParams.sortBy := if_truthy (get_optional "sortBy" params);
     QueryParams.sortOrder := if_truthy (get_optional "sortOrder" params) |}.

(** The query parameters of [list_group_users]. *)
Definition pageParams (params : list (string * Zod.JSON)) : QueryParams.t :=
  {| QueryParams.limit := if_nonzero (get_number "limit" params);
     QueryParams.after := if_truthy (get_optional "after" params);
     QueryParams.filter := None;
     QueryParams.search := None;
     QueryParams.sortBy := None;
     QueryParams.sortOrder := None |}.

(** *** Listings *)

(** The state of a listing loop: the text so far, the count, and the
    cursor [after] ([None] while it is [undefined]). *)
Definition Listing : Type := (string * nat * option string)%type.

(** [after && count >= (params.limit || 50)] *)
Definition more_pages (after : option string) (count : nat)
    (params : list (string * Zod.JSON)) : bool :=
  JS.truthy_opt after && Z.leb (limit_or_50 (get_number "limit" params)) (Z.of_nat count).

(** [user.profile?.k] and [group.profile?.k] *)
Definition profile_member (user : FullUser.t) (k : string) : Member :=
  match FullUser.profile user with
  | Some profile => profile k
  | None => Absent
  end.

Definition group_member (group : Group.t) (k : string) : Member :=
  match Group.profile group with
  | Some profile => profile k
  | None => Absent
  end.

Section Handlers.
Context {P : Platform}.

(** The entry of a user in a listing ([users.ts] lines 472-478,
    [groups.ts] lines 587-593). *)
Definition user_entry (count : nat) (user : FullUser.t) (id : string) : string :=
  JS.nl
  ++ JS.of_nat count ++ ". " ++ or_else (profile_member user "firstName") EmptyString ++ " "
  ++ or_else (profile_member user "lastName") EmptyString ++ " ("
  ++ or_else (profile_member user "email") "No email" ++ ")" ++ JS.nl
  ++ " - ID: " ++ id ++ JS.nl
  ++ " - Status: " ++ or_else (FullUser.status user) "Unknown" ++ JS.nl
  ++ " - Created: " ++ formatDate (P := P) (FullUser.created user) ++ JS.nl
  ++ " - Last Updated: " ++ formatDate (P := P) (FullUser.lastUpdated user) ++ JS.nl.

(** One iteration of the loop over the users (lines 462-479): an
    element that is [null] or has no id is passed over. *)
Definition users_step (state : Listing) (user : option FullUser.t) : Listing :=
  let '(formattedResponse, count, after) := state in
  match user with
  | Some user =>
      match FullUser.id user with
      | Str id =>
          if JS.truthy id
          then (formattedResponse ++ user_entry (S count) user id, S count, Some id)
          else state
      | _ => state
      end
  | None => state
  end.

(** The entry of a group in the listing ([groups.ts] lines 287-296). *)
Definition group_entry (count : nat) (group : Group.t) (id : string) : string :=
  JS.nl
  ++ JS.of_nat count ++ ". " ++ or_else (group_member group "name") "Unnamed Group" ++ JS.nl
  ++ "   - ID: " ++ id ++ JS.nl
  ++ "   - Type: " ++ or_else (Group.type group) "Unknown" ++ JS.nl
  ++ "   - Object Class: " ++ formatArray (Group.objectClass group) ++ JS.nl
  ++ "   - Description: " ++ or_else (group_member group "description") "No description"
  ++ JS.nl
  ++ "   - Created: " ++ formatDate (P := P) (Group.created group) ++ JS.nl
  ++ "   - Last Updated: " ++ formatDate (P := P) (Group.lastUpdated group) ++ JS.nl
  ++ "   - Last Membership Updated: "
  ++ formatDate (P := P) (Group.lastMembershipUpdated group) ++ JS.nl.

Definition groups_step (state : Listing) (group : option Group.t) : Listing :=
  let '(formattedResponse, count, after) := state in
  match group with
  | Some group =>
      match Group.id group with
      | Str id =>
          if JS.truthy id
          then (formattedResponse ++ group_entry (S count) group id, S count, Some id)
          else state
      | _ => state
      end
  | None => state
  end.

(** The end of a listing (lines 481-499 of [users.ts]): nothing listed,
    the hint for the next page, or the total. *)
Definition listing_result (state : Listing) (params : list (string * Zod.JSON))
    (nothing : string) (pagination : nat -> string -> string) (total : nat -> string)
    : JSValue :=
  let '(formattedResponse, count, after) := state in
  if Nat.eqb count 0 then VResult (text_result nothing false)
  else if more_pages after count params then
    VResult (text_result
               (formattedResponse ++ pagination count (JS.show_opt after)) false)
  else VResult (text_result (formattedResponse ++ total count) false).

End Handlers.

End Directory.

(** ** The user tools ([src/tools/users.ts]) *)

Module Users.
Import Directory.

Section Handlers.
Context {P : Platform}.
Variable sdk : Sdk.t P.

(** The text of [get_user] (lines 355-400). *)
Definition formattedUser (user : FullUser.t) (profile : Members) : string :=
  "• User Details:" ++ JS.nl
  ++ "  ID: " ++ show (FullUser.id user) ++ JS.nl
  ++ "  Status: " ++ show (FullUser.status user) ++ JS.nl
  ++ JS.nl
  ++ "- Account Dates:" ++ JS.nl
  ++ "  Created: " ++ formatDate (P := P) (FullUser.created user) ++ JS.nl
  ++ "  Activated: " ++ formatDate (P := P) (FullUser.activated user) ++ JS.nl
  ++ "  Last Login: " ++ formatDate (P := P) (FullUser.lastLogin user) ++ JS.nl
  ++ "  Last Updated: " ++ formatDate (P := P) (FullUser.lastUpdated user) ++ JS.nl
  ++ "  Status Changed: " ++ formatDate (P := P) (FullUser.statusChanged user) ++ JS.nl
  ++ "  Password Changed: " ++ formatDate (P := P) (FullUser.passwordChanged user) ++ JS.nl
  ++ JS.nl
  ++ "- Personal Information:" ++ JS.nl
  ++ "  Login: " ++ show (profile "login") ++ JS.nl
  ++ "  Email: " ++ show (profile "email") ++ JS.nl
  ++ "  Secondary Email: " ++ getProfileValue (profile "secondEmail") ++ JS.nl
  ++ "  First Name: " ++ show (profile "firstName") ++ JS.nl
  ++ "  Last Name: " ++ show (profile "lastName") ++ JS.nl
  ++ "  Display Name: " ++ show (profile "displayName") ++ JS.nl
  ++ "  Nickname: " ++ getProfileValue (profile "nickName") ++ JS.nl
  ++ JS.nl
  ++ "- Employment Details:" ++ JS.nl
  ++ "  Organization: " ++ show (profile "organization") ++ JS.nl
  ++ "  Title: " ++ show (profile "title") ++ JS.nl
  ++ "  Division: " ++ show (profile "division") ++ JS.nl
  ++ "  Department: " ++ show (profile "department") ++ JS.nl
  ++ "  Employee Number: " ++ show (profile "employeeNumber") ++ JS.nl
  ++ "  User Type: " ++ show (profile "userType") ++ JS.nl
  ++ "  Cost Center: " ++ show (profile "costCenter") ++ JS.nl
  ++ "  Manager: " ++ getProfileValue (profile "manager") ++ JS.nl
  ++ "  ManagerId " ++ getProfileValue (profile "managerId") ++ JS.nl
  ++ JS.nl
  ++ "- Contact Information:" ++ JS.nl
  ++ "  Mobile Phone: " ++ getProfileValue (profile "mobilePhone") ++ JS.nl
  ++ "  Primary Phone: " ++ getProfileValue (profile "primaryPhone") ++ JS.nl
  ++ "  " ++ JS.nl
  ++ "- Address:" ++ JS.nl
  ++ "  Street: " ++ show (profile "streetAddress") ++ JS.nl
  ++ "  City: " ++ show (profile "city") ++ JS.nl
  ++ "  State: " ++ show (profile "state") ++ JS.nl
  ++ "  Zip Code: " ++ show (profile "zipCode") ++ JS.nl
  ++ "  Country: " ++ show (profile "countryCode") ++ JS.nl
  ++ JS.nl
  ++ "- Preferences:" ++ JS.nl
  ++ "  Preferred Language: " ++ show (profile "preferredLanguage") ++ JS.nl
  ++ "  Profile URL: " ++ getProfileValue (profile "profileUrl").

(** [user.profile] when [user] is [undefined] *)
Definition profile_of_undefined : Thrown :=
  ErrorObj "Cannot read properties of undefined (reading 'profile')".

(** [get_user] after validation (lines 346-421). *)
Definition get_user_body (params : list (string * Zod.JSON)) : M P JSValue :=
  let userId := Onboarding.get_string "userId" params in
  try_catch
    (oktaClient <- getOktaClient ;;
     user <- Sdk.userApi_getUser sdk userId ;;
     match user with
     | None => throw profile_of_undefined
     | Some user =>
         match FullUser.profile user with
         | None => throw (ErrorObj "User profile is undefined")
         | Some profile => ret (VResult (text_result (formattedUser user profile) false))
         end
     end)
    (fun error =>
       ret (VResult (text_result ("Failed to get user: " ++ errorText error) true))).

Definition users_pagination (count : nat) (after : string) : string :=
  JS.nl
  ++ "Pagination:" ++ JS.nl
  ++ "- Total users shown: " ++ JS.of_nat count ++ JS.nl
  ++ "- For next page, use 'after' parameter with value: " ++ after ++ JS.nl.

Definition users_total (count : nat) : string :=
  JS.nl
  ++ "Total users: " ++ JS.of_nat count ++ JS.nl.

(** [list_users] after validation (lines 427-519). *)
Definition list_users_body (params : list (string * Zod.JSON)) : M P JSValue :=
  try_catch
    (let queryParams := queryParams params in
     oktaClient <- getOktaClient ;;
     users <- Sdk.userApi_listUsers sdk queryParams ;;
     match users with
     | None => ret (VResult (text_result "No users data was returned from Okta." false))
     | Some users =>
         ret (listing_result
                (fold_left (users_step (P := P)) users ("Users:" ++ JS.nl, 0, None)) params
                "No users found matching your criteria." users_pagination users_total)
     end)
    (fun error =>
       ret (VResult (text_result ("Failed to list users: " ++ errorText error) true))).

(** The profile [create_user] sends (lines 528-535). *)
Definition newUser (params : list (string * Zod.JSON)) : Profile :=
  [ ("firstName", Onboarding.get_string "firstName" params);
    ("lastName", Onboarding.get_string "lastName" params);
    ("email", Onboarding.get_string "email" params);
    ("login",
      JS.or_else (get_optional "login" params) (Onboarding.get_string "email" params)) ].

Definition created_user (user : FullUser.t) : string :=
  "User created successfully:" ++ JS.nl
  ++ "ID: " ++ show (FullUser.id user) ++ JS.nl
  ++ "Login: " ++ show (profile_member user "login") ++ JS.nl
  ++ "Status: " ++ show (FullUser.status user) ++ JS.nl
  ++ "Created: " ++ formatDate (P := P) (FullUser.created user).

(** [create_user] after validation (lines 525-565). *)
Definition create_user_body (params : list (string * Zod.JSON)) : M P JSValue :=
  try_catch
    (oktaClient <- getOktaClient ;;
     user <- Sdk.userApi_createUser sdk (newUser params)
               (Onboarding.get_bool "activate" params) ;;
     ret (VResult (text_result (created_user user) false)))
    (fun error =>
       ret (VResult (text_result ("Failed to create user: " ++ errorText error) true))).

(** [activate_user] after validation (lines 573-602). *)
Definition activate_user_body (params : list (string * Zod.JSON)) : M P JSValue :=
  let userId := Onboarding.get_string "userId" params in
  let sendEmail := Onboarding.get_bool "sendEmail" params in
  try_catch
    (oktaClient <- getOktaClient ;;
     done <- activateUser userId sendEmail ;;
     ret (VResult
            (text_result
               ("User with ID " ++ userId ++ " has been activated successfully."
                ++ (if sendEmail then " An activation email has been sent."
                    else EmptyString)) false)))
    (fun error =>
       ret (VResult (text_result ("Failed to activate user: " ++ errorText error) true))).

(** The four handlers that call one method on the user and report
    (lines 605-731): [suspend_user], [unsuspend_user], [deactivate_user],
    [delete_user]. *)
Definition suspend_user_body (params : list (string * Zod.JSON)) : M P JSValue :=
  let userId := Onboarding.get_string "userId" params in
  try_catch
    (oktaClient <- getOktaClient ;;
     done <- Sdk.userApi_suspendUser sdk userId ;;
     ret (VResult (text_result ("User with ID " ++ userId ++ " has been suspended.") false)))
    (fun error =>
       ret (VResult (text_result ("Failed to suspend user: " ++ errorText error) true))).

Definition unsuspend_user_body (params : list (string * Zod.JSON)) : M P JSValue :=
  let userId := Onboarding.get_string "userId" params in
  try_catch
    (oktaClient <- getOktaClient ;;
     done <- Sdk.userApi_unsuspendUser sdk userId ;;
     ret (VResult
            (text_result
               ("User with ID " ++ userId ++ " has been unsuspended and is now active.")
               false)))
    (fun error =>
       ret (VResult (text_result ("Failed to unsuspend user: " ++ errorText error) true))).

Definition deactivate_user_body (params : list (string * Zod.JSON)) : M P JSValue :=
  let userId := Onboarding.get_string "userId" params in
  try_catch
    (oktaClient <- getOktaClient ;;
     done <- Sdk.userApi_deactivateUser sdk userId ;;
     ret (VResult (text_result ("User with ID " ++ userId ++ " has been deactivated.") false)))
    (fun error =>
       ret (VResult (text_result ("Failed to deactivate user: " ++ errorText error) true))).

Definition delete_user_body (params : list (string * Zod.JSON)) : M P JSValue :=
  let userId := Onboarding.get_string "userId" params in
  try_catch
    (oktaClient <- getOktaClient ;;
     done <- Sdk.userApi_deleteUser sdk userId ;;
     ret (VResult
            (text_result ("User with ID " ++ userId ++ " has been permanently deleted.")
               false)))
    (fun error =>
       ret (VResult
              (text_result
                 ("Failed to delete user: " ++ errorText error
                  ++ ". Note: Users must be deactivated before they can be deleted.")
                 true))).

(** The query of the system log (lines 993-997). *)
Definition logQuery (userId : string) : LogQuery.t :=
  {| LogQuery.since := Sdk.ninetyDaysAgo sdk;
     LogQuery.filter :=
       "target.id eq " ++ JS.dquote ++ userId ++ JS.dquote ++ " and (eventType eq " ++ JS.dquote
       ++ "user.session.start" ++ JS.dquote ++ " or eventType eq " ++ JS.dquote
       ++ "user.authentication.auth_via_mfa" ++ JS.dquote ++ " or eventType eq "
       ++ JS.dquote ++ "user.authentication.sso" ++ JS.dquote ++ ")";
     LogQuery.limit := 1%Z |}.

Definition no_login_events (profile : Members) : string :=
  "No login events found for user " ++ show (profile "login")
  ++ " in the last 90 days. This might mean the user hasn't logged in recently or the events are not being captured in the system logs.".

(** The text of [get_user_last_location] (lines 1013-1025). *)
Definition formattedLocation (profile : Members) (event : LogEvent.t) : string :=
  let clientData :=
    match LogEvent.client event with
    | Some client => Client.members client
    | None => no_members
    end in
  let geographicalContext :=
    match LogEvent.client event with
    | Some client =>
        match Client.geographicalContext client with
        | Some context => context
        | None => no_members
        end
    | None => no_members
    end in
  "• Last Login Information for User " ++ show (profile "login") ++ ":" ++ JS.nl
  ++ "        Time: " ++ formatDate (P := P) (LogEvent.published event) ++ JS.nl
  ++ "        Event Type: " ++ or_else (LogEvent.eventType event) "N/A" ++ JS.nl
  ++ "        IP Address: " ++ or_else (clientData "ipAddress") "N/A" ++ JS.nl
  ++ "        City: " ++ or_else (geographicalContext "city") "N/A" ++ JS.nl
  ++ "        State: " ++ or_else (geographicalContext "state") "N/A" ++ JS.nl
  ++ "        Country: " ++ or_else (geographicalContext "country") "N/A" ++ JS.nl
  ++ "        Device: " ++ or_else (clientData "device") "N/A" ++ JS.nl
  ++ "        User Agent: " ++ or_else (clientData "userAgent") "N/A".

(** [get_user_last_location] after validation (lines 971-1045). *)
Definition get_user_last_location_body (params : list (string * Zod.JSON)) : M P JSValue :=
  let userId := Onboarding.get_string "userId" params in
  let not_found := VResult (text_result ("User with ID " ++ userId ++ " not found.") false) in
  try_catch
    (oktaClient <- getOktaClient ;;
     user <- Sdk.userApi_getUser sdk userId ;;
     match user with
     | None => ret not_found
     | Some user =>
         match FullUser.profile user with
         | None => ret not_found
         | Some profile =>
             lastLogin <- Sdk.systemLogApi_listLogEvents sdk (logQuery userId) ;;
             match lastLogin with
             | None => ret (VResult (text_result (no_login_events profile) false))
             | Some event =>
                 ret (VResult (text_result (formattedLocation profile event) false))
             end
         end
     end)
    (fun error =>
       ret (VResult
              (text_result ("Failed to fetch user location: " ++ errorText error) true))).

End Handlers.

End Users.

(** ** The group tools ([src/tools/groups.ts]) *)

Module Groups.
Import Directory.

Section Handlers.
Context {P : Platform}.
Variable sdk : Sdk.t P.

Definition groups_pagination (count : nat) (after : string) : string :=
  JS.nl
  ++ "Pagination:" ++ JS.nl
  ++ "- Total groups shown: " ++ JS.of_nat count ++ JS.nl
  ++ "- For next page, use 'after' parameter with value: " ++ after ++ JS.nl.

Definition groups_total (count : nat) : string :=
  JS.nl
  ++ "Total groups: " ++ JS.of_nat count ++ JS.nl.

(** [list_groups] after validation (lines 242-337). *)
Definition list_groups_body (params : list (string * Zod.JSON)) : M P JSValue :=
  try_catch
    (let queryParams := queryParams params in
     oktaClient <- getOktaClient ;;
     groups <- Sdk.groupApi_listGroups sdk queryParams ;;
     match groups with
     | None => ret (VResult (text_result "No groups data was returned from Okta." false))
     | Some groups =>
         ret (listing_result
                (fold_left (groups_step (P := P)) groups ("Groups:" ++ JS.nl, 0, None)) params
                "No groups found matching your criteria." groups_pagination groups_total)
     end)
    (fun error =>
       ret (VResult (text_result ("Failed to list groups: " ++ errorText error) true))).

Definition created_group (group : Group.t) : string :=
  "Group created successfully:" ++ JS.nl
  ++ "ID: " ++ show (Group.id group) ++ JS.nl
  ++ "Name: " ++ show (group_member group "name") ++ JS.nl
  ++ "Type: " ++ or_else (Group.type group) "OKTA_GROUP" ++ JS.nl
  ++ "Created: " ++ formatDate (P := P) (Group.created group).

(** [create_group] after validation (lines 345-382). *)
Definition create_group_body (params : list (string * Zod.JSON)) : M P JSValue :=
  let name := Onboarding.get_string "name" params in
  let description := get_optional "description" params in
  try_catch
    (oktaClient <- getOktaClient ;;
     group <- Sdk.groupApi_createGroup sdk name (JS.or_else description EmptyString) ;;
     ret (VResult (text_result (created_group group) false)))
    (fun error =>
       ret (VResult (text_result ("Failed to create group: " ++ errorText error) true))).

(** The text of [get_group] (lines 406-414). *)
Definition formattedGroup (group : Group.t) (profile : Members) : string :=
  "Group Details:" ++ JS.nl
  ++ "- ID: " ++ show (Group.id group) ++ JS.nl
  ++ "- Name: " ++ show (profile "name") ++ JS.nl
  ++ "- Description: " ++ getProfileValue (profile "description") ++ JS.nl
  ++ "- Type: " ++ or_else (Group.type group) "Unknown" ++ JS.nl
  ++ "- Object Class: " ++ formatArray (Group.objectClass group) ++ JS.nl
  ++ "- Created: " ++ formatDate (P := P) (Group.created group) ++ JS.nl
  ++ "- Last Updated: " ++ formatDate (P := P) (Group.lastUpdated group) ++ JS.nl
  ++ "- Last Membership Updated: " ++ formatDate (P := P) (Group.lastMembershipUpdated group).

(** [get_group] after validation (lines 388-435). *)
Definition get_group_body (params : list (string * Zod.JSON)) : M P JSValue :=
  let groupId := Onboarding.get_string "groupId" params in
  let not_found := VResult (text_result ("No group found with ID: " ++ groupId) false) in
  try_catch
    (oktaClient <- getOktaClient ;;
     group <- Sdk.groupApi_getGroup sdk groupId ;;
     match group with
     | None => ret not_found
     | Some group =>
         match Group.profile group with
         | None => ret not_found
         | Some profile => ret (VResult (text_result (formattedGroup group profile) false))
         end
     end)
    (fun error =>
       ret (VResult (text_result ("Failed to get group: " ++ errorText error) true))).

(** [delete_group] after validation (lines 441-467). *)
Definition delete_group_body (params : list (string * Zod.JSON)) : M P JSValue :=
  let groupId := Onboarding.get_string "groupId" params in
  try_catch
    (oktaClient <- getOktaClient ;;
     done <- Sdk.groupApi_deleteGroup sdk groupId ;;
     ret (VResult
            (text_result ("Group with ID " ++ groupId ++ " has been successfully deleted.")
               false)))
    (fun error =>
       ret (VResult (text_result ("Failed to delete group: " ++ errorText error) true))).

(** [assign_user_to_group] after validation (lines 475-502). *)
Definition assign_user_to_group_body (params : list (string * Zod.JSON)) : M P JSValue :=
  let groupId := Onboarding.get_string "groupId" params in
  let userId := Onboarding.get_string "userId" params in
  try_catch
    (oktaClient <- getOktaClient ;;
     done <- assignUserToGroup groupId userId ;;
     ret (VResult
            (text_result
               ("User with ID " ++ userId
                ++ " has been successfully assigned to group with ID " ++ groupId ++ ".")
               false)))
    (fun error =>
       ret (VResult
              (text_result ("Failed to assign user to group: " ++ errorText error) true))).

(** [remove_user_from_group] after validation (lines 510-537). *)
Definition remove_user_from_group_body (params : list (string * Zod.JSON)) : M P JSValue :=
  let groupId := Onboarding.get_string "groupId" params in
  let userId := Onboarding.get_string "userId" params in
  try_catch
    (oktaClient <- getOktaClient ;;
     done <- Sdk.groupApi_unassignUserFromGroup sdk groupId userId ;;
     ret (VResult
            (text_result
               ("User with ID " ++ userId
                ++ " has been successfully removed from group with ID " ++ groupId ++ ".")
               false)))
    (fun error =>
       ret (VResult
              (text_result ("Failed to remove user from group: " ++ errorText error) true))).

Definition group_users_pagination (count : nat) (after : string) : string :=
  JS.nl
  ++ "Pagination:" ++ JS.nl
  ++ "- Total users shown: " ++ JS.of_nat count ++ JS.nl
  ++ "- For next page, use 'after' parameter with value: " ++ after ++ JS.nl.

Definition group_users_total (count : nat) : string :=
  JS.nl
  ++ "Total users in group: " ++ JS.of_nat count ++ JS.nl.

(** [list_group_users] after validation (lines 543-634). *)
Definition list_group_users_body (params : list (string * Zod.JSON)) : M P JSValue :=
  let groupId := Onboarding.get_string "groupId" params in
  try_catch
    (oktaClient <- getOktaClient ;;
     let queryParams := pageParams params in
     users <- Sdk.groupApi_listGroupUsers sdk groupId queryParams ;;
     match users with
     | None => ret (VResult (text_result "No users data was returned from Okta." false))
     | Some users =>
         ret (listing_result
                (fold_left (users_step (P := P)) users
                   ("Users in Group (ID: " ++ groupId ++ "):" ++ JS.nl, 0, None))
                params "No users found in this group."
                group_users_pagination group_users_total)
     end)
    (fun error =>
       ret (VResult (text_result ("Failed to list group users: " ++ errorText error) true))).

End Handlers.

End Groups.

(** ** The handlers of [tools/index.ts], all of them *)

Module Registry.

Section WithSdk.
Context {P : Platform}.
Variable sdk : Directory.Sdk.t P.

(** What each handler of [users.ts] and [groups.ts] does after its
    validation, by the name of the tool (the attribute search and the
    onboarding tools are in the table as they are). *)
Definition bodies (tool : string) : list (string * Zod.JSON) -> M P JSValue :=
  match tool with
  | "get_user" => Users.get_user_body sdk
  | "list_users" => Users.list_users_body sdk
  | "create_user" => Users.create_user_body sdk
  | "activate_user" => Users.activate_user_body
  | "suspend_user" => Users.suspend_user_body sdk
  | "unsuspend_user" => Users.unsuspend_user_body sdk
  | "deactivate_user" => Users.deactivate_user_body sdk
  | "delete_user" => Users.delete_user_body sdk
  | "get_user_last_location" => Users.get_user_last_location_body sdk
  | "list_groups" => Groups.list_groups_body sdk
  | "create_group" => Groups.create_group_body sdk
  | "get_group" => Groups.get_group_body sdk
  | "delete_group" => Groups.delete_group_body sdk
  | "assign_user_to_group" => Groups.assign_user_to_group_body
  | "remove_user_from_group" => Groups.remove_user_from_group_body sdk
  | "list_group_users" => Groups.list_group_users_body sdk
  | _ => fun _ => throw (ErrorObj "not a tool")
  end.

(** [HANDLERS], for a validator that tests e-mail addresses with
    [is_email] and an [Object.prototype] that holds [prototype]. *)
Definition HANDLERS (is_email : string -> bool) (prototype : list (string * Property P))
    : HandlerTable P :=
  Tools.HANDLERS is_email bodies prototype.

End WithSdk.

(** The tools whose handler is [validated schema (bodies sdk tool)]. *)
Definition plain_tools : list string :=
  [ "get_user"; "list_users"; "create_user"; "activate_user"; "suspend_user";
    "unsuspend_user"; "deactivate_user"; "delete_user"; "get_user_last_location";
    "list_groups"; "create_group"; "get_group"; "delete_group"; "assign_user_to_group";
    "remove_user_from_group"; "list_group_users" ].

(** [request.params.arguments || {}], the object [startServer] hands to
    the handler ([index.ts], line 49). *)
Definition raw (request : CallToolRequest) : option Zod.JSON :=
  Some (Zod.JObj match arguments request with
                 | Some args => args
                 | None => []
                 end).

End Registry.

(** ** What a listing shows *)

Module Shown.
Import Directory.

(** The elements of a collection that a listing shows, with their ids:
    those that are not [null] and have a non-empty id. *)
Definition users (collection : list (option FullUser.t)) : list (FullUser.t * string) :=
  flat_map
    (fun user =>
       match user with
       | Some user =>
           match FullUser.id user with
           | Str id => if JS.truthy id then [ (user, id) ] else []
           | _ => []
           end
       | None => []
       end)
    collection.

Definition groups (collection : list (option Group.t)) : list (Group.t * string) :=
  flat_map
    (fun group =>
       match group with
       | Some group =>
           match Group.id group with
           | Str id => if JS.truthy id then [ (group, id) ] else []
           | _ => []
           end
       | None => []
       end)
    collection.

(** The entries of the elements shown, numbered from [first]. *)
Fixpoint entries {A : Type} (entry : nat -> A -> string -> string) (first : nat)
    (shown : list (A * string)) : string :=
  match shown with
  | [] => EmptyString
  | (x, id) :: rest => entry first x id ++ entries entry (S first) rest
  end.

(** The id of the last element shown. *)
Definition cursor {A : Type} (shown : list (A * string)) : string :=
  match rev shown with
  | (_, id) :: _ => id
  | [] => EmptyString
  end.

(** The text of a listing that shows [shown]: the head, the entries, and
    the hint for the next page when as many elements are shown as the
    limit allows, the total otherwise. *)
Definition report {A : Type} (head : string) (entry : nat -> A -> string -> string)
    (pagination : nat -> string -> string) (total : nat -> string)
    (params : list (string * Zod.JSON)) (shown : list (A * string)) : string :=
  head ++ entries entry 1 shown
  ++ (if Z.leb (limit_or_50 (get_number "limit" params)) (Z.of_nat (List.length shown))
      then pagination (List.length shown) (cursor shown)
      else total (List.length shown)).

End Shown.

(** ** Two more directories to run the model on *)

Module Outage.

(** The demonstration directory, except that no user can be activated
    and that the user [stub] is returned without a profile. *)
Definition platform : Platform :=
  {| World := nat;
     OKTA_ORG_URL := OKTA_ORG_URL Demo.platform;
     OKTA_API_TOKEN := OKTA_API_TOKEN Demo.platform;
     userApi_listUsers := userApi_listUsers Demo.platform;
     userApi_getUser := fun userId w =>
       if String.eqb userId "stub"
       then (Returned (Some (User.mk "stub" "ACTIVE" None None)), w)
       else userApi_getUser Demo.platform userId w;
     userApi_createUser := userApi_createUser Demo.platform;
     userApi_activateUser := fun userId sendEmail w =>
       (Raised (ErrorObj "Activation is not allowed"), w);
     groupApi_assignUserToGroup := groupApi_assignUserToGroup Demo.platform;
     applicationApi_assignUserToApplication :=
       applicationApi_assignUserToApplication Demo.platform;
     Papa_parse := Papa_parse Demo.platform;
     toLocaleString := toLocaleString Demo.platform |}.

(** The demonstration directory, reached from a process whose
    environment lacks [OKTA_ORG_URL]. *)
Definition offline : Platform :=
  {| World := nat;
     OKTA_ORG_URL := None;
     OKTA_API_TOKEN := OKTA_API_TOKEN Demo.platform;
     userApi_listUsers := userApi_listUsers Demo.platform;
     userApi_getUser := userApi_getUser Demo.platform;
     userApi_createUser := userApi_createUser Demo.platform;
     userApi_activateUser := userApi_activateUser Demo.platform;
     groupApi_assignUserToGroup := groupApi_assignUserToGroup Demo.platform;
     applicationApi_assignUserToApplication :=
       applicationApi_assignUserToApplication Demo.platform;
     Papa_parse := Papa_parse Demo.platform;
     toLocaleString := toLocaleString Demo.platform |}.

End Outage.

(** ** The client of the demonstration directory, for the other tools *)

Module DemoSdk.
Import Directory.

Definition profile_of (firstName lastName email : string) : Members :=
  fun k =>
    match k with
    | "firstName" => Str firstName
    | "lastName" => Str lastName
    | "email" => Str email
    | "login" => Str email
    | "secondEmail" => Null
    | _ => Absent
    end.

Definition alice : FullUser.t :=
  FullUser.mk (Str "u1") (Str "ACTIVE") (Some "2024-01-05") None None (Some "2024-02-01")
    None None (Some (profile_of "Alice" "Ames" "alice@example.com")).

Definition bob : FullUser.t :=
  FullUser.mk (Str "u2") (Str "ACTIVE") (Some "2024-01-06") None None None
    None None (Some (profile_of "Bob" "Bell" "bob@example.com")).

(** An element of a collection that has no id, and a user whose record
    has no profile. *)
Definition nameless : FullUser.t :=
  FullUser.mk Absent (Str "STAGED") None None None None None None None.

Definition stub : FullUser.t :=
  FullUser.mk (Str "stub") (Str "ACTIVE") None None None None None None None.

Definition staff : Group.t :=
  Group.mk (Str "g1") (Str "OKTA_GROUP") (Some [ "okta:user_group" ]) (Some "2023-12-01")
    None None
    (Some (fun k => match k with "name" => Str "Staff" | _ => Absent end)).

(** A client that answers from the data above without touching the
    directory: a listing returns two users and two elements that are
    passed over, [stub] is returned without a profile, any other user
    than [u1] is not found, and a user created is [bob]. *)
Definition sdk : Sdk.t Demo.platform :=
  {| Sdk.userApi_getUser := fun userId =>
       if String.eqb userId "u1" then ret (Some alice)
       else if String.eqb userId "stub" then ret (Some stub)
       else ret None;
     Sdk.userApi_listUsers := fun _ => ret (Some [ Some alice; None; Some nameless; Some bob ]);
     Sdk.userApi_createUser := fun body activate => ret bob;
     Sdk.userApi_suspendUser := fun _ => ret tt;
     Sdk.userApi_unsuspendUser := fun _ => ret tt;
     Sdk.userApi_deactivateUser := fun _ => ret tt;
     Sdk.userApi_deleteUser := fun _ => throw (ErrorObj "Forbidden");
     Sdk.systemLogApi_listLogEvents := fun _ => ret None;
     Sdk.ninetyDaysAgo := "2024-01-01T00:00:00.000Z";
     Sdk.groupApi_listGroups := fun _ => ret (Some [ Some staff ]);
     Sdk.groupApi_createGroup := fun name description => ret staff;
     Sdk.groupApi_getGroup := fun _ => ret (Some staff);
     Sdk.groupApi_deleteGroup := fun _ => ret tt;
     Sdk.groupApi_unassignUserFromGroup := fun _ _ => ret tt;
     Sdk.groupApi_listGroupUsers := fun _ _ => ret (Some [ Some alice ]) |}.

(** The same client, from a process whose environment lacks
    [OKTA_ORG_URL]. *)
Definition offline : Sdk.t Outage.offline :=
  Sdk.mk Outage.offline
    (Sdk.userApi_getUser sdk) (Sdk.userApi_listUsers sdk) (Sdk.userApi_createUser sdk)
    (Sdk.userApi_suspendUser sdk) (Sdk.userApi_unsuspendUser sdk)
    (Sdk.userApi_deactivateUser sdk) (Sdk.userApi_deleteUser sdk)
    (Sdk.systemLogApi_listLogEvents sdk) (Sdk.ninetyDaysAgo sdk)
    (Sdk.groupApi_listGroups sdk) (Sdk.groupApi_createGroup sdk) (Sdk.groupApi_getGroup sdk)
    (Sdk.groupApi_deleteGroup sdk) (Sdk.groupApi_unassignUserFromGroup sdk)
    (Sdk.groupApi_listGroupUsers sdk).

(** An e-mail address, for the demonstrations: a string with an [@]. *)
Definition is_email (v : string) : bool := JS.includes v "@".

End DemoSdk.

(** ** Predicates of the statements about the import *)

(** The calls the import may issue for the rows [users]: the creation of
    the user of a row that has its required columns, an activation when
    activation is asked for, with the [sendEmail] given, and the
    assignment to one of the default groups. *)
Definition import_call (a : Onboarding.ImportArgs.t) (users : list Row) (c : Call) : Prop :=
  match c with
  | Call_createUser body =>
      exists userData : Row,
        In userData users
        /\ Onboarding.lacks_required userData = false
        /\ body = Onboarding.newUser userData
  | Call_activateUser _ sendEmail =>
      Onboarding.ImportArgs.activateUsers a = true
      /\ sendEmail = Onboarding.ImportArgs.sendEmail a
  | Call_assignUserToGroup groupId _ => In groupId (Onboarding.ImportArgs.defaultGroups a)
  | _ => False
  end.

(** ** Predicates of the statements about the attribute search *)

(** A fetched user meets the search criterion: the attribute is present
    and not empty for [pr]; for the other operators it is present and
    compares with the search value the way the verification pass
    compares them. *)
Definition meets_criterion (a : Search.Args) (fullUser : User.t) : bool :=
  match Search.operator a with
  | Search.op_pr => JS.truthy_opt (Search.profile_get fullUser (Search.attribute a))
  | o =>
      match Search.profile_get fullUser (Search.attribute a) with
      | Some attributeValue => Search.isMatch o attributeValue (Search.value a)
      | None => false
      end
  end.

(** A user passes the status filter. *)
Definition passes_status_filter (a : Search.Args) (fullUser : User.t) : bool :=
  Search.includeInactive a || String.eqb (User.status fullUser) "ACTIVE".

(** The fetches of the candidates, one each, in order. *)
Definition candidate_fetches (candidateUsers : list User.t) : list Call :=
  map (fun user => Call_getUser (User.id user)) candidateUsers.

(* ================================================================== *)
(** * Part II: properties                                              *)
(* ================================================================== *)

(** ** Strings *)

Lemma prefix_nil (s : string) : String.prefix EmptyString s = true.
Proof. destruct s; reflexivity. Qed.

Lemma prefix_append (t u : string) : String.prefix t (t ++ u) = true.
Proof.
  induction t as [|c t IH]; simpl.
  - apply prefix_nil.
  - destruct (ascii_dec c c) as [_|n]; [exact IH | now elim n].
Qed.

Lemma prefix_app_l (s t u : string) :
  String.prefix t s = true -> String.prefix t (s ++ u) = true.
Proof.
  revert t; induction s as [|c s IH]; intros [|d t]; simpl; intros H;
    try reflexivity; try discriminate.
  - apply prefix_nil.
  - destruct (ascii_dec d c); [now apply IH | discriminate].
Qed.

Lemma includes_prefix (s t : string) : String.prefix t s = true -> JS.includes s t = true.
Proof. intros H. destruct s; simpl in *; rewrite H; reflexivity. Qed.

Lemma includes_self (s : string) : JS.includes s s = true.
Proof.
  apply includes_prefix. rewrite <- (prefix_append s EmptyString) at 1.
  f_equal. induction s; simpl; congruence.
Qed.

Lemma includes_app_r (s t u : string) :
  JS.includes s t = true -> JS.includes (u ++ s) t = true.
Proof.
  intros H. induction u as [|c u IH]; simpl; [exact H|].
  rewrite IH. apply orb_true_r.
Qed.

Lemma includes_app_l (s t u : string) :
  JS.includes s t = true -> JS.includes (s ++ u) t = true.
Proof.
  induction s as [|c s IH]; intros H.
  - simpl in H. rewrite orb_false_r in H. destruct t; [|discriminate].
    apply includes_prefix, prefix_nil.
  - change (JS.includes (String c s) t)
      with (String.prefix t (String c s) || JS.includes s t) in H.
    change (JS.includes (String c s ++ u) t)
      with (String.prefix t (String c s ++ u) || JS.includes (s ++ u) t).
    apply orb_true_iff in H. destruct H as [H|H].
    + rewrite (prefix_app_l _ _ _ H). reflexivity.
    + rewrite (IH H). apply orb_true_r.
Qed.

Lemma includes_mid (a s b : string) : JS.includes (a ++ s ++ b) s = true.
Proof. apply includes_app_r, includes_app_l, includes_self. Qed.

Lemma includes_join (sep t x : string) (l : list string) :
  In x l -> JS.includes x t = true -> JS.includes (JS.join sep l) t = true.
Proof.
  intros Hin Hx. induction l as [|y l IH]; [contradiction|].
  destruct Hin as [->|Hin].
  - destruct l; simpl; [exact Hx | now apply includes_app_l].
  - specialize (IH Hin). destruct l as [|z l]; [contradiction|].
    change (JS.join sep (y :: z :: l)) with (y ++ sep ++ JS.join sep (z :: l)).
    now apply includes_app_r, includes_app_r.
Qed.

(** ** The schema validator *)

Lemma parse_value_undefined (s : Zod.Schema) (p : list Zod.PathSeg) :
  Zod.requires_value s = true ->
  exists expected, Zod.parse_value s p None = ([Zod.invalid_type p expected None], None).
Proof. destruct s; simpl; intros H; try discriminate; eexists; reflexivity. Qed.

Lemma parse_fields_missing (shape : Zod.ObjectSchema) (members : list (string * Zod.JSON))
    (field : string) (s : Zod.Schema) :
  In (field, s) shape ->
  Zod.requires_value s = true ->
  JS.lookup field members = None ->
  exists i, In i (fst (Zod.parse_fields shape members)) /\ Zod.path i = [Zod.Key field].
Proof.
  intros Hin Hreq Hmiss. induction shape as [|[k s'] shape IH]; [contradiction|].
  simpl.
  destruct (Zod.parse_value s' [Zod.Key k] (JS.lookup k members)) as [issues1 v] eqn:E1.
  destruct (Zod.parse_fields shape members) as [issues2 vs] eqn:E2. simpl.
  destruct Hin as [Heq|Hin].
  - inversion Heq; subst k s'. rewrite Hmiss in E1.
    destruct (parse_value_undefined s [Zod.Key field] Hreq) as [expected E].
    rewrite E in E1. inversion E1; subst.
    eexists; split; [left; reflexivity | reflexivity].
  - destruct (IH Hin) as [i [Hi Hp]]. exists i; split; [|exact Hp].
    apply in_or_app; right. exact Hi.
Qed.

Lemma render_path_cites (p : list Zod.PathSeg) (field : string) :
  In (Zod.Key field) p -> JS.includes (Zod.render_path p) field = true.
Proof.
  intros Hin. destruct p as [|seg p]; [contradiction|].
  unfold Zod.render_path.
  apply includes_app_r, includes_app_r, includes_app_l.
  apply includes_join with (x := "      " ++ Zod.render_seg (Zod.Key field)).
  - apply (in_map (fun seg => "      " ++ Zod.render_seg seg) _ _ Hin).
  - apply includes_app_r. unfold Zod.render_seg. apply includes_mid.
Qed.

Lemma errorMessage_cites (issues : list Zod.Issue) (i : Zod.Issue) (field : string) :
  In i issues ->
  In (Zod.Key field) (Zod.path i) ->
  JS.includes (Zod.errorMessage issues) field = true.
Proof.
  intros Hin Hp. destruct issues as [|i0 issues]; [contradiction|].
  unfold Zod.errorMessage.
  apply includes_app_r, includes_app_r, includes_app_l.
  apply includes_join with (x := Zod.render_issue i).
  - apply (in_map Zod.render_issue _ _ Hin).
  - unfold Zod.render_issue.
    do 17 apply includes_app_r. apply includes_app_l.
    now apply render_path_cites.
Qed.

(** A raw object that lacks a field the schema requires is refused, and
    the message of the error names the field. *)
Lemma parse_missing_required (shape : Zod.ObjectSchema) (members : list (string * Zod.JSON))
    (field : string) (s : Zod.Schema) :
  In (field, s) shape ->
  Zod.requires_value s = true ->
  JS.lookup field members = None ->
  exists message,
    Zod.parse shape (Some (Zod.JObj members)) = Raised (ErrorObj message)
    /\ JS.includes message field = true.
Proof.
  intros Hin Hreq Hmiss.
  destruct (parse_fields_missing shape members field s Hin Hreq Hmiss) as [i [Hi Hp]].
  unfold Zod.parse, Zod.parse_object.
  destruct (Zod.parse_fields shape members) as [issues v]. simpl in Hi.
  destruct issues as [|i0 issues]; [contradiction|].
  eexists; split; [reflexivity|].
  apply errorMessage_cites with (i := i); [exact Hi|].
  rewrite Hp. left; reflexivity.
Qed.

(** ** The dispatcher *)

Section DispatcherProperties.
Context {P : Platform}.

(** The raw arguments a handler of the first draft is given:
    [request.params.arguments || {}]. *)
Lemma own_handler_is_called (HANDLERS : HandlerTable P) (request : CallToolRequest)
    (h : Handler P) (w : World P) :
  JS.lookup (name request) (own HANDLERS) = Some h ->
  callTool_startServer HANDLERS request w =
    try_catch
      (result <- h (Some (Zod.JObj match arguments request with
                                   | Some args => args
                                   | None => []
                                   end)) ;;
       ret result)
      (fun error => ret (VResult (text_result ("Error: " ++ errorText error) true))) w.
Proof.
  intros Hown. unfold callTool_startServer, has_property, get_property.
  rewrite Hown. reflexivity.
Qed.

(** C1 (as amended).  The dispatcher installed by [startServer]: a request
    for a name that is no property of [HANDLERS] gets the error result
    naming the unknown tool; a failure raised by the handler is caught and
    turned into an error result; and no request makes the dispatcher
    raise.  The dispatcher of the second draft raises instead: for an
    unknown name, and for a handler that raises, it raises an error
    annotated with the tool's name. *)
Theorem C1_dispatch_converts_failures (HANDLERS : HandlerTable P) (request : CallToolRequest)
    (w : World P) :
  (has_property (name request) HANDLERS = false ->
   callTool_startServer HANDLERS request w =
     (Returned (VResult (text_result ("Error: Unknown tool: " ++ name request) true)), w, []))
  /\ (forall (h : Handler P) (e : Thrown) (w1 : World P) (c : list Call),
        JS.lookup (name request) (own HANDLERS) = Some h ->
        h (Some (Zod.JObj match arguments request with
                          | Some args => args
                          | None => []
                          end)) w = (Raised e, w1, c) ->
        callTool_startServer HANDLERS request w =
          (Returned (VResult (text_result ("Error: " ++ errorText e) true)), w1, c))
  /\ (exists v : JSValue, outcome (callTool_startServer HANDLERS request w) = Returned v)
  /\ (get_property (name request) HANDLERS = None ->
      callTool_server HANDLERS request w =
        (Raised (ErrorObj ("Error executing tool " ++ name request
                           ++ ": Unknown tool: " ++ name request)), w, []))
  /\ (forall (h : Handler P) (e : Thrown) (w1 : World P) (c : list Call),
        JS.lookup (name request) (own HANDLERS) = Some h ->
        h (option_map Zod.JObj (arguments request)) w = (Raised e, w1, c) ->
        callTool_server HANDLERS request w =
          (Raised (ErrorObj ("Error executing tool " ++ name request
                             ++ ": " ++ errorText e)), w1, c)).
Proof.
  repeat split.
  - intros Hno. unfold callTool_startServer, try_catch, throw, ret.
    rewrite Hno. reflexivity.
  - intros h e w1 c Hown Hraise.
    rewrite (own_handler_is_called _ _ h w Hown).
    unfold try_catch, bind, ret. rewrite Hraise. simpl. now rewrite app_nil_r.
  - unfold callTool_startServer, try_catch, outcome.
    destruct (has_property (name request) HANDLERS); simpl.
    + destruct (bind _ _ w) as [[[v|e] w1] c]; simpl; eauto.
    + eauto.
  - intros Hno. unfold callTool_server, try_catch, throw.
    rewrite Hno. reflexivity.
  - intros h e w1 c Hown Hraise.
    unfold callTool_server, get_property, try_catch, call_property, throw.
    rewrite Hown, Hraise. simpl. now rewrite app_nil_r.
Qed.

(** A handler built by [validated] validates first. *)
Lemma validated_validates_first (schema : Zod.ObjectSchema)
    (body : list (string * Zod.JSON) -> M P JSValue) :
  validates_first (validated schema body) schema.
Proof.
  intros parameters w e Hparse.
  unfold validated, bind, lift. rewrite Hparse. reflexivity.
Qed.

(** So does a handler that hands the result of a validating handler on. *)
Lemma wrapped_validates_first {A : Type} (schema : Zod.ObjectSchema)
    (body : list (string * Zod.JSON) -> M P A) (wrap : A -> JSValue) :
  validates_first
    (fun parameters =>
       r <- (args <- lift (Zod.parse schema parameters) ;; body args) ;;
       ret (wrap r))
    schema.
Proof.
  intros parameters w e Hparse.
  unfold bind, lift. rewrite Hparse. reflexivity.
Qed.

(** A request for a handler that validates first, whose raw arguments
    lack a field that the schema requires, is answered with an error
    result whose text names the field; the directory is left as it was and
    no call is issued. *)
Lemma missing_field_rejected_before_body (HANDLERS : HandlerTable P)
    (request : CallToolRequest) (h : Handler P) (schema : Zod.ObjectSchema)
    (field : string) (s : Zod.Schema) (w : World P) :
  JS.lookup (name request) (own HANDLERS) = Some h ->
  validates_first h schema ->
  In (field, s) schema ->
  Zod.requires_value s = true ->
  JS.lookup field match arguments request with
                  | Some args => args
                  | None => []
                  end = None ->
  exists message : string,
    callTool_startServer HANDLERS request w =
      (Returned (VResult (text_result ("Error: " ++ message) true)), w, [])
    /\ JS.includes message field = true.
Proof.
  intros Hown Hfirst Hin Hreq Hmiss.
  destruct (parse_missing_required schema _ field s Hin Hreq Hmiss) as [message [Hparse Hcite]].
  exists message; split; [|exact Hcite].
  rewrite (own_handler_is_called _ _ _ w Hown).
  unfold try_catch, bind, ret. rewrite (Hfirst _ w _ Hparse). reflexivity.
Qed.

End DispatcherProperties.

(** A request for an unknown tool and a request whose handler fails, on
    the demonstration table. *)
Lemma C1_dispatch_demo :
  callTool_startServer Demo.table (mkCallToolRequest "list_everything" None) 0 =
    (Returned (VResult (text_result "Error: Unknown tool: list_everything" true)), 0, [])
  /\ callTool_startServer Demo.table
       (mkCallToolRequest "get_user" (Some [ ("userId", Zod.JStr "u1") ])) 0 =
     (Returned (VResult (text_result "Error: boom" true)), 0, [ Call_getUser "u1" ]).
Proof.
  split.
  - apply (proj1 (C1_dispatch_converts_failures Demo.table
                    (mkCallToolRequest "list_everything" None) 0)).
    reflexivity.
  - apply (proj1 (proj2 (C1_dispatch_converts_failures Demo.table
                    (mkCallToolRequest "get_user" (Some [ ("userId", Zod.JStr "u1") ])) 0))
             (get_user Demo.failing_body) (ErrorObj "boom") 0 [ Call_getUser "u1" ]);
      reflexivity.
Defined.

(** The dispatcher of the second draft raises on an unknown tool. *)
Lemma C1_second_draft_raises :
  outcome (callTool_server Demo.table (mkCallToolRequest "list_everything" None) 0) =
    Raised (ErrorObj "Error executing tool list_everything: Unknown tool: list_everything").
Proof. reflexivity. Qed.

(** ** The registry of tools *)

Lemma lookup_In {A : Type} (key : string) (obj : list (string * A)) (v : A) :
  JS.lookup key obj = Some v -> In (key, v) obj.
Proof.
  induction obj as [|[k x] rest IH]; simpl; [discriminate|].
  destruct (String.eqb k key) eqn:E.
  - apply String.eqb_eq in E. intros [= ->]. left. now subst.
  - intros H. right. now apply IH.
Qed.

Section RegistryProperties.
Context {P : Platform}.
Variable is_email : string -> bool.
Variable rest_of : string -> list (string * Zod.JSON) -> M P JSValue.
Variable prototype : list (string * Property P).

(** The names that have a handler of their own in [HANDLERS] are the
    names that have a schema. *)
Lemma every_tool_has_its_handler (tool : string) :
  is_some (JS.lookup tool (own (Tools.HANDLERS is_email rest_of prototype)))
  = is_some (JS.lookup tool (Tools.schemas is_email)).
Proof.
  unfold Tools.HANDLERS, Tools.userHandlers, Tools.groupHandlers,
    Onboarding.onboardingHandlers, Tools.schemas.
  cbn [own JS.lookup app].
  repeat match goal with
         | |- context [String.eqb ?k tool] => destruct (String.eqb k tool); [reflexivity|]
         end.
  reflexivity.
Qed.

(** Every handler of [HANDLERS] validates its raw arguments, against the
    schema of its tool, before anything else. *)
Lemma handlers_validate_first (tool : string) (h : Handler P) :
  JS.lookup tool (own (Tools.HANDLERS is_email rest_of prototype)) = Some h ->
  exists schema : Zod.ObjectSchema,
    JS.lookup tool (Tools.schemas is_email) = Some schema
    /\ validates_first h schema.
Proof.
  intros Hown. apply lookup_In in Hown. simpl in Hown.
  repeat match type of Hown with
         | _ \/ _ => destruct Hown as [Hown|Hown]
         end;
    try contradiction;
    injection Hown as <- <-;
    (eexists; split; [reflexivity|]);
    first [ apply validated_validates_first | apply wrapped_validates_first ].
Qed.

(** A field that a tool definition lists as [required] is a field of the
    tool's schema that refuses [undefined]. *)
Lemma declared_required_is_required (tool : string) (required : list string)
    (field : string) :
  In (tool, required) Tools.TOOLS ->
  In field required ->
  exists (schema : Zod.ObjectSchema) (s : Zod.Schema),
    JS.lookup tool (Tools.schemas is_email) = Some schema
    /\ In (field, s) schema
    /\ Zod.requires_value s = true.
Proof.
  intros Htool Hfield. simpl in Htool.
  repeat match type of Htool with
         | _ \/ _ => destruct Htool as [Htool|Htool]
         end;
    try contradiction;
    injection Htool as <- <-;
    simpl in Hfield;
    repeat match type of Hfield with
           | _ \/ _ => destruct Hfield as [Hfield|Hfield]
           end;
    try contradiction;
    subst field;
    (eexists; eexists; split; [reflexivity|]; split; [|shelve]);
    simpl; eauto 8.
  Unshelve. all: reflexivity.
Qed.

(** C2.  A request for a tool of [TOOLS] whose raw arguments lack a field
    that the tool's input schema declares as required is answered by the
    dispatcher of [startServer] with an error result whose text names the
    field; the directory is left as it was and no call is issued, whatever
    the handlers do after their validation: the handler's first statement
    is the validation, and the dispatcher turns its failure into the error
    result. *)
Theorem C2_declared_required_field_enforced (request : CallToolRequest)
    (required : list string) (field : string) (w : World P) :
  In (name request, required) Tools.TOOLS ->
  In field required ->
  JS.lookup field match arguments request with
                  | Some args => args
                  | None => []
                  end = None ->
  exists message : string,
    callTool_startServer (Tools.HANDLERS is_email rest_of prototype) request w =
      (Returned (VResult (text_result ("Error: " ++ message) true)), w, [])
    /\ JS.includes message field = true.
Proof.
  intros Htool Hfield Hmiss.
  destruct (declared_required_is_required _ _ _ Htool Hfield)
    as [schema [s [Hschema [Hin Hreq]]]].
  destruct (JS.lookup (name request) (own (Tools.HANDLERS is_email rest_of prototype)))
    as [h|] eqn:Hown.
  - destruct (handlers_validate_first _ _ Hown) as [schema' [Hschema' Hfirst]].
    rewrite Hschema in Hschema'. injection Hschema' as <-.
    exact (missing_field_rejected_before_body _ request h schema field s w
             Hown Hfirst Hin Hreq Hmiss).
  - pose proof (every_tool_has_its_handler (name request)) as Hsame.
    rewrite Hown, Hschema in Hsame. discriminate.
Qed.

End RegistryProperties.

(** [get_user] without its [userId], and [assign_user_to_group] without
    arguments at all: refused, and the directory is not called. *)
Lemma C2_required_field_demo :
  (exists message : string,
     callTool_startServer Demo.table (mkCallToolRequest "get_user" (Some [])) 0 =
       (Returned (VResult (text_result ("Error: " ++ message) true)), 0, [])
     /\ JS.includes message "userId" = true)
  /\ (exists message : string,
        callTool_startServer Demo.table (mkCallToolRequest "assign_user_to_group" None) 0 =
          (Returned (VResult (text_result ("Error: " ++ message) true)), 0, [])
        /\ JS.includes message "groupId" = true).
Proof.
  split.
  - apply (C2_declared_required_field_enforced (fun v => JS.includes v "@")
             (fun _ => Demo.failing_body)
             [ ("toString", Fn (fun _ => ret (VOther "[object Object]"))) ]
             (mkCallToolRequest "get_user" (Some [])) [ "userId" ] "userId" 0).
    + left; reflexivity.
    + left; reflexivity.
    + reflexivity.
  - apply (C2_declared_required_field_enforced (fun v => JS.includes v "@")
             (fun _ => Demo.failing_body)
             [ ("toString", Fn (fun _ => ret (VOther "[object Object]"))) ]
             (mkCallToolRequest "assign_user_to_group" None)
             [ "groupId"; "userId" ] "groupId" 0).
    + simpl; tauto.
    + left; reflexivity.
    + reflexivity.
Defined.

(** A name that [HANDLERS] only inherits passes the [in] test of the first
    draft: the inherited function is called and its value returned. *)
Example inherited_name_is_dispatched :
  callTool_startServer Demo.table (mkCallToolRequest "toString" None) 0 =
    (Returned (VOther "[object Object]"), 0, []).
Proof. reflexivity. Qed.

(** ** Attribute search *)

Section SearchProperties.
Context {P : Platform}.
Import Search.

(** C3 (as amended).  When the formatted search fails, the calls that
    follow depend on the message of the failure: if it contains
    "operator is not supported", the free-text search is tried next and
    the plain listing of 200 users only if the free-text search fails
    too; for any other failure the plain listing of 200 users is tried at
    once and the free-text search is not tried at all. *)
Theorem C3_fallback_after_failed_formatted_search (a : Args) (w w1 : World P) (e : Thrown) :
  userApi_listUsers P (searchParams a) w = (Raised e, w1) ->
  calls (select_users a w) =
    Call_listUsers (searchParams a) ::
    (if JS.includes (errorText e) "operator is not supported" then
       Call_listUsers (freeTextParams a) ::
       match fst (userApi_listUsers P (freeTextParams a) w1) with
       | Returned _ => []
       | Raised _ => [ Call_listUsers basicParams ]
       end
     else [ Call_listUsers basicParams ]).
Proof.
  intros H1.
  unfold select_users, try_catch, bind, listUsers, request, ret, calls.
  rewrite H1. simpl.
  destruct (JS.includes (errorText e) "operator is not supported").
  - destruct (userApi_listUsers P (freeTextParams a) w1) as [[users|e2] w2]; simpl.
    + reflexivity.
    + destruct (userApi_listUsers P basicParams w2) as [[users|e3] w3]; reflexivity.
  - destruct (userApi_listUsers P basicParams w1) as [[users|e3] w3]; reflexivity.
Qed.

(** One iteration of either loop returns. *)
Lemma filter_candidate_returns (a : Args) (user : User.t) (m : list User.t) (w : World P) :
  exists m' w' c, filter_candidate a user m w = (Returned m', w', c).
Proof.
  unfold filter_candidate, try_catch, bind, getUser, request, ret.
  destruct (userApi_getUser P (User.id user) w) as [[[fullUser|]|e] w1]; simpl; eauto.
  destruct (User.profile fullUser); simpl; eauto.
  destruct (negb (includeInactive a) && negb (User.status fullUser =? "ACTIVE")); simpl; eauto.
Qed.

Lemma verify_candidate_returns (a : Args) (user : User.t) (m : list User.t) (w : World P) :
  exists r w' c, verify_candidate a user m w = (Returned r, w', c).
Proof.
  unfold verify_candidate, try_catch, bind, getUser, request, ret.
  destruct (userApi_getUser P (User.id user) w) as [[[fullUser|]|e] w1]; simpl; eauto.
  destruct (User.profile fullUser) as [profile|]; simpl; eauto.
  destruct (negb (includeInactive a) && negb (User.status fullUser =? "ACTIVE")); simpl; eauto.
  destruct (operator a); cbv beta iota zeta.
  all: try (destruct (JS.truthy_opt (JS.lookup (attribute a) profile)); simpl; eauto; fail).
  all: destruct (JS.lookup (attribute a) profile) as [v|]; [|simpl; eauto].
  all: match goal with |- context [isMatch ?o ?x ?y] => destruct (isMatch o x y) end.
  all: simpl; eauto.
Qed.

Lemma filter_loop_returns (a : Args) (candidateUsers m : list User.t) (w : World P) :
  exists r, outcome (filter_loop a candidateUsers m w) = Returned r.
Proof.
  unfold filter_loop.
  revert m w. induction candidateUsers as [|user rest IH]; intros m w; simpl.
  - eexists; reflexivity.
  - destruct (filter_candidate_returns a user m w) as [m' [w' [c E]]].
    unfold bind. rewrite E.
    destruct (IH m' w') as [r Hr]. unfold outcome in *.
    destruct (for_of (filter_candidate a) rest m' w') as [[o w2] c2]. simpl in *. eauto.
Qed.

Lemma verify_loop_returns (a : Args) (candidateUsers m : list User.t) (w : World P) :
  exists r, outcome (verify_loop a candidateUsers m w) = Returned r.
Proof.
  revert m w. induction candidateUsers as [|user rest IH]; intros m w; simpl.
  - eexists; reflexivity.
  - destruct (verify_candidate_returns a user m w) as [[m' stop] [w' [c E]]].
    unfold bind. rewrite E. destruct stop.
    + eexists; reflexivity.
    + destruct (IH m' w') as [r Hr]. unfold outcome in *.
      destruct (verify_loop a rest m' w') as [[o w2] c2]. simpl in *. eauto.
Qed.

(** C9.  A candidate whose full record cannot be fetched is skipped by
    both loops: the loop goes on with the remaining candidates from the
    state the directory is left in, with [matchingUsers] unchanged, and
    nothing but the call itself records the failure.  Neither loop raises,
    whatever the fetches do. *)
Theorem C9_failed_fetch_is_skipped (a : Args) (user : User.t) (rest matchingUsers : list User.t)
    (w w1 : World P) (e : Thrown) :
  userApi_getUser P (User.id user) w = (Raised e, w1) ->
  (filter_loop a (user :: rest) matchingUsers w =
     after_calls [ Call_getUser (User.id user) ] (filter_loop a rest matchingUsers w1))
  /\ (verify_loop a (user :: rest) matchingUsers w =
        after_calls [ Call_getUser (User.id user) ] (verify_loop a rest matchingUsers w1))
  /\ (exists r, outcome (filter_loop a (user :: rest) matchingUsers w) = Returned r)
  /\ (exists r, outcome (verify_loop a (user :: rest) matchingUsers w) = Returned r).
Proof.
  intros Hfetch. repeat split.
  - unfold filter_loop. simpl.
    unfold bind, filter_candidate, try_catch, bind, getUser, request, ret.
    rewrite Hfetch. simpl.
    destruct (for_of (filter_candidate a) rest matchingUsers w1) as [[r w2] c]. reflexivity.
  - simpl. unfold bind, verify_candidate, try_catch, bind, getUser, request, ret.
    rewrite Hfetch. simpl.
    destruct (verify_loop a rest matchingUsers w1) as [[r w2] c]. reflexivity.
  - apply filter_loop_returns.
  - apply verify_loop_returns.
Qed.


End SearchProperties.

(** A refused operator leads to the free-text search. *)
Lemma C3_unsupported_operator_demo :
  calls (Search.select_users (P := Demo.platform)
           (Demo.search_args "manager" "bob" Search.op_eq 5) 0) =
    [ Call_listUsers (Search.searchParams (Demo.search_args "manager" "bob" Search.op_eq 5));
      Call_listUsers (Search.freeTextParams (Demo.search_args "manager" "bob" Search.op_eq 5)) ].
Proof.
  exact (C3_fallback_after_failed_formatted_search (P := Demo.platform)
           (Demo.search_args "manager" "bob" Search.op_eq 5) 0 0
           (ErrorObj "Invalid search criteria: the operator is not supported.") eq_refl).
Defined.

(** A formatted search that fails with a server error is followed by the
    plain listing of 200 users; the free-text search is never tried. *)
Lemma C3_other_failure_skips_free_text :
  fst (userApi_listUsers Demo.platform
         (Search.searchParams (Demo.search_args "department" "Engineering" Search.op_eq 5)) 0) =
    Raised (ErrorObj "Internal Server Error")
  /\ calls (Search.select_users (P := Demo.platform)
              (Demo.search_args "department" "Engineering" Search.op_eq 5) 0) =
     [ Call_listUsers
         (Search.searchParams (Demo.search_args "department" "Engineering" Search.op_eq 5));
       Call_listUsers Search.basicParams ].
Proof. split; reflexivity. Qed.

(** C4 (the code departs from the claim).  With the operator [pr] and a
    limit of 1, the verification loop keeps all three users that have the
    attribute; with the operator [co] and the same limit it stops after
    the first match. *)
Theorem C4_present_operator_ignores_limit :
  outcome (Search.verify_loop (P := Demo.platform)
             (Demo.search_args "department" "any" Search.op_pr 1) Demo.users [] 0) =
    Returned [ Demo.alice; Demo.bob; Demo.carol ]
  /\ calls (Search.verify_loop (P := Demo.platform)
              (Demo.search_args "department" "any" Search.op_pr 1) Demo.users [] 0) =
     [ Call_getUser "u1"; Call_getUser "u2"; Call_getUser "u3" ]
  /\ outcome (Search.verify_loop (P := Demo.platform)
                (Demo.search_args "department" "e" Search.op_co 1) Demo.users [] 0) =
     Returned [ Demo.alice ]
  /\ calls (Search.verify_loop (P := Demo.platform)
              (Demo.search_args "department" "e" Search.op_co 1) Demo.users [] 0) =
     [ Call_getUser "u1" ].
Proof. repeat split; reflexivity. Qed.

(** The same search through the handler: the response counts three users
    for a limit of 1. *)
Example present_operator_response :
  exists t : string,
    outcome (Search.find_users_by_attribute (P := Demo.platform)
               (Some (Zod.JObj [ ("attribute", Zod.JStr "department");
                                 ("value", Zod.JStr "any");
                                 ("operator", Zod.JStr "pr");
                                 ("limit", Zod.JNum 1) ])) 0) =
      Returned (VResult (text_result t false))
    /\ JS.includes t "Total found: 3 users" = true.
Proof. eexists; split; vm_compute; reflexivity. Qed.

(** ** Masking *)

Lemma lower_ascii_idempotent (c : ascii) :
  JS.lower_ascii (JS.lower_ascii c) = JS.lower_ascii c.
Proof. destruct c as [[] [] [] [] [] [] [] []]; reflexivity. Qed.

Lemma toLowerCase_idempotent (s : string) :
  JS.toLowerCase (JS.toLowerCase s) = JS.toLowerCase s.
Proof.
  induction s as [|c s IH]; simpl; [reflexivity|].
  now rewrite lower_ascii_idempotent, IH.
Qed.

(** A string that changes under [toLowerCase] is never the lower-case
    form of an attribute name. *)
Lemma toLowerCase_never (attribute x : string) :
  JS.toLowerCase x <> x -> String.eqb (JS.toLowerCase attribute) x = false.
Proof.
  intros Hx. apply String.eqb_neq. intros E. apply Hx.
  rewrite <- E. apply toLowerCase_idempotent.
Qed.

(** Only the entries of [piiAttributes] that are written in lower case
    can be found by [isPIIAttribute]. *)
Lemma isPIIAttribute_reach (attribute : string) :
  Search.isPIIAttribute attribute =
    JS.array_includes [ "email"; "login"; "manager" ] (JS.toLowerCase attribute).
Proof.
  assert (Hcamel : forall x, In x [ "firstName"; "lastName"; "displayName"; "nickName";
                                    "mobilePhone"; "primaryPhone"; "streetAddress";
                                    "secondEmail"; "employeeNumber"; "managerId" ] ->
                             String.eqb (JS.toLowerCase attribute) x = false).
  { intros x Hx. apply toLowerCase_never. intros E.
    simpl in Hx. repeat (destruct Hx as [<-|Hx]; [vm_compute in E; discriminate E|]).
    contradiction. }
  unfold Search.isPIIAttribute, Search.piiAttributes, JS.array_includes. simpl.
  repeat match goal with
         | |- context [String.eqb (JS.toLowerCase attribute) ?x] =>
             rewrite (Hcamel x) by (simpl; tauto)
         end.
  simpl. now rewrite !orb_false_r.
Qed.

Lemma length_repeat_star (n : nat) : String.length (JS.repeat "*" n) = n.
Proof. induction n; simpl; congruence. Qed.

(** [maskValue] itself: three stars for a value of at most three
    characters; otherwise the first character, a star for every interior
    character, and the last character. *)
Lemma maskValue_short (value : string) :
  String.length value <= 3 -> Search.maskValue value = "***".
Proof.
  intros H. unfold Search.maskValue, JS.length.
  now rewrite (proj2 (Nat.leb_le _ _) H).
Qed.

Lemma maskValue_long (first last : ascii) (interior : string) :
  2 <= String.length interior ->
  Search.maskValue (String first (interior ++ String last EmptyString)) =
    String first (JS.repeat "*" (String.length interior) ++ String last EmptyString).
Proof.
  intros H. unfold Search.maskValue, JS.length, JS.charAt.
  assert (Hlen : String.length (String first (interior ++ String last EmptyString))
                 = S (S (String.length interior))).
  { assert (Hsnoc : forall s, String.length (s ++ String last EmptyString)
                              = S (String.length s)).
    { intros s. induction s as [|c r IH]; simpl; [reflexivity | now rewrite IH]. }
    simpl. now rewrite Hsnoc. }
  rewrite Hlen.
  destruct (Nat.leb (S (S (String.length interior))) 3) eqn:E.
  - apply Nat.leb_le in E. lia.
  - replace (S (S (String.length interior)) - 2) with (String.length interior) by lia.
    replace (S (S (String.length interior)) - 1) with (S (String.length interior)) by lia.
    simpl. f_equal.
    assert (Hget : forall s, String.get (String.length s) (s ++ String last EmptyString)
                             = Some last).
    { intros s. induction s as [|c r IH]; simpl; [reflexivity | exact IH]. }
    rewrite Hget. reflexivity.
Qed.

(** C5 (the code departs from the claim).  [firstName] is one of the
    attributes of the fixed set, yet [isPIIAttribute] does not recognise
    it (the name is lower-cased before it is looked up among names
    written in camel case), so the value is echoed as it is; the same
    holds for [mobilePhone].  For [email] the value is masked, and
    [maskValue] masks as the claim says. *)
Theorem C5_camel_case_attribute_not_masked :
  In "firstName" Search.piiAttributes
  /\ Search.isPIIAttribute "firstName" = false
  /\ Search.displayValue "firstName" "alice" = "alice"
  /\ Search.displayValue "mobilePhone" "5551234" = "5551234"
  /\ Search.displayValue "email" "alice" = "a***e"
  /\ Search.maskValue "alice" = "a***e"
  /\ Search.maskValue "ab" = "***".
Proof. repeat split; try reflexivity. right; right; left; reflexivity. Qed.

(** The candidate [ghost] cannot be fetched: both loops go on to [alice]. *)
Lemma C9_ghost_is_skipped :
  (Search.filter_loop (P := Demo.platform) (Demo.search_args "department" "Engineering"
       Search.op_eq 5) [ Demo.ghost; Demo.alice ] [] 0 =
     after_calls [ Call_getUser "ghost" ]
       (Search.filter_loop (P := Demo.platform)
          (Demo.search_args "department" "Engineering" Search.op_eq 5) [ Demo.alice ] [] 0))
  /\ Search.filter_loop (P := Demo.platform) (Demo.search_args "department" "Engineering"
       Search.op_eq 5) [ Demo.ghost; Demo.alice ] [] 0 =
     (Returned [ Demo.alice ], 0, [ Call_getUser "ghost"; Call_getUser "u1" ])
  /\ Search.verify_loop (P := Demo.platform) (Demo.search_args "department" "Engineering"
       Search.op_eq 5) [ Demo.ghost; Demo.alice ] [] 0 =
     (Returned [ Demo.alice ], 0, [ Call_getUser "ghost"; Call_getUser "u1" ]).
Proof.
  split; [|split].
  - exact (proj1 (C9_failed_fetch_is_skipped (P := Demo.platform)
                    (Demo.search_args "department" "Engineering" Search.op_eq 5)
                    Demo.ghost [ Demo.alice ] [] 0 0 (ErrorObj "Not found") eq_refl)).
  - reflexivity.
  - reflexivity.
Defined.

(** ** Asynchronous code and loops *)

Section Async.
Context {P : Platform}.

Lemma after_calls_nil {A : Type} (x : Outcome A * World P * list Call) :
  after_calls [] x = x.
Proof. destruct x as [[r w] c]. reflexivity. Qed.


Lemma outcome_after_calls {A : Type} (c : list Call) (x : Outcome A * World P * list Call) :
  outcome (after_calls c x) = outcome x.
Proof. destruct x as [[r w] c']. reflexivity. Qed.

Lemma calls_after_calls {A : Type} (c : list Call) (x : Outcome A * World P * list Call) :
  calls (after_calls c x) = (c ++ calls x)%list.
Proof. destruct x as [[r w] c']. reflexivity. Qed.

Lemma bind_returned {A B : Type} (m : M P A) (k : A -> M P B) (w w1 : World P) (a : A)
    (c1 : list Call) :
  m w = (Returned a, w1, c1) -> bind m k w = after_calls c1 (k a w1).
Proof. intros E. unfold bind. rewrite E. reflexivity. Qed.

Lemma bind_raised {A B : Type} (m : M P A) (k : A -> M P B) (w w1 : World P) (e : Thrown)
    (c1 : list Call) :
  m w = (Raised e, w1, c1) -> bind m k w = (Raised e, w1, c1).
Proof. intros E. unfold bind. rewrite E. reflexivity. Qed.

Lemma try_catch_returned {A : Type} (m : M P A) (h : Thrown -> M P A) (w w1 : World P) (a : A)
    (c1 : list Call) :
  m w = (Returned a, w1, c1) -> try_catch m h w = (Returned a, w1, c1).
Proof. intros E. unfold try_catch. rewrite E. reflexivity. Qed.

Lemma try_catch_raised {A : Type} (m : M P A) (h : Thrown -> M P A) (w w1 : World P)
    (e : Thrown) (c1 : list Call) :
  m w = (Raised e, w1, c1) -> try_catch m h w = after_calls c1 (h e w1).
Proof. intros E. unfold try_catch. rewrite E. reflexivity. Qed.

Lemma fetched_app (c1 c2 : list Call) : fetched (c1 ++ c2) = (fetched c1 ++ fetched c2)%list.
Proof.
  induction c1 as [|c c1 IH]; simpl; [reflexivity|].
  destruct c; simpl; now rewrite ?IH.
Qed.

(** A loop over [l1 ++ l2] is the loop over [l1] followed by the loop
    over [l2]. *)
Lemma for_of_app {A T : Type} (body : A -> T -> M P T) (l1 l2 : list A) (s s1 : T)
    (w w1 : World P) (c1 : list Call) :
  for_of body l1 s w = (Returned s1, w1, c1) ->
  for_of body (l1 ++ l2) s w = after_calls c1 (for_of body l2 s1 w1).
Proof.
  revert s w c1. induction l1 as [|x l1 IH]; intros s w c1 E; simpl in *.
  - unfold ret in E. inversion E; subst. now rewrite after_calls_nil.
  - unfold bind in *. destruct (body x s w) as [[[s'|e] w'] c'] eqn:Eb; [|discriminate].
    destruct (for_of body l1 s' w') as [[r2 w2] c2] eqn:E1.
    inversion E; subst.
    rewrite (IH s' w' c2 E1).
    destruct (for_of body l2 s1 w1) as [[r3 w3] c3]. simpl. now rewrite app_assoc.
Qed.

(** A loop whose body always returns always returns. *)
Lemma for_of_returns {A T : Type} (body : A -> T -> M P T) :
  (forall x s w, exists s' w' c, body x s w = (Returned s', w', c)) ->
  forall l s w, exists s' w' c, for_of body l s w = (Returned s', w', c).
Proof.
  intros Hbody l. induction l as [|x l IH]; intros s w; simpl.
  - unfold ret. eauto.
  - destruct (Hbody x s w) as [s' [w' [c E]]].
    rewrite (bind_returned _ _ _ _ _ _ E).
    destruct (IH s' w') as [s2 [w2 [c2 E2]]]. rewrite E2. simpl. eauto.
Qed.

(** A property of the state that every iteration establishes from itself
    holds at the end of the loop. *)
Lemma for_of_preserves {A T : Type} (body : A -> T -> M P T) (I : T -> Prop) :
  (forall x s w s' w' c, body x s w = (Returned s', w', c) -> I s -> I s') ->
  forall l s w s' w' c, for_of body l s w = (Returned s', w', c) -> I s -> I s'.
Proof.
  intros Hbody l. induction l as [|x l IH]; intros s w s' w' c E Hs; simpl in E.
  - unfold ret in E. inversion E; subst. exact Hs.
  - unfold bind in E. destruct (body x s w) as [[[s1|e] w1] c1] eqn:Eb; [|discriminate].
    destruct (for_of body l s1 w1) as [[r2 w2] c2] eqn:E1.
    inversion E; subst. eapply IH; [exact E1|]. eapply Hbody; eauto.
Qed.

(** A measure that every iteration increases by one has grown by the
    number of items at the end of the loop. *)
Lemma for_of_counts {A T : Type} (body : A -> T -> M P T) (mu : T -> nat) :
  (forall x s w s' w' c, body x s w = (Returned s', w', c) -> mu s' = S (mu s)) ->
  forall l s w s' w' c,
    for_of body l s w = (Returned s', w', c) -> mu s' = mu s + List.length l.
Proof.
  intros Hbody l. induction l as [|x l IH]; intros s w s' w' c E; simpl in E.
  - unfold ret in E. inversion E; subst. simpl. lia.
  - unfold bind in E. destruct (body x s w) as [[[s1|e] w1] c1] eqn:Eb; [|discriminate].
    destruct (for_of body l s1 w1) as [[r2 w2] c2] eqn:E1.
    inversion E; subst. rewrite (IH _ _ _ _ _ E1), (Hbody _ _ _ _ _ _ Eb). simpl. lia.
Qed.

(** The calls of a loop are calls of its iterations. *)
Lemma for_of_calls {A T : Type} (body : A -> T -> M P T) (Q : A -> Call -> Prop) :
  (forall x s w c, In c (calls (body x s w)) -> Q x c) ->
  forall l s w c, In c (calls (for_of body l s w)) -> exists x, In x l /\ Q x c.
Proof.
  intros Hbody l. induction l as [|x l IH]; intros s w c Hc; simpl in Hc.
  - contradiction.
  - unfold bind in Hc. specialize (Hbody x s w).
    destruct (body x s w) as [[[s1|e] w1] c1] eqn:Eb.
    + specialize (IH s1 w1 c).
      destruct (for_of body l s1 w1) as [[r2 w2] c2]. unfold calls in *. simpl in *.
      apply in_app_or in Hc. destruct Hc as [Hc|Hc].
      * exists x; split; [now left | now apply Hbody].
      * destruct (IH Hc) as [y [Hy HQ]]. exists y; split; [now right | exact HQ].
    + unfold calls in *. simpl in *. exists x; split; [now left | now apply Hbody].
Qed.

(** A loop whose iterations each return after fetching their own item
    fetches the items, in order. *)
Lemma for_of_fetched {T : Type} (body : string -> T -> M P T) :
  (forall x s w, exists s' w' c, body x s w = (Returned s', w', c) /\ fetched c = [x]) ->
  forall l s w, fetched (calls (for_of body l s w)) = l.
Proof.
  intros Hbody l. induction l as [|x l IH]; intros s w; simpl.
  - reflexivity.
  - destruct (Hbody x s w) as [s' [w' [c [E Hf]]]].
    rewrite (bind_returned _ _ _ _ _ _ E), calls_after_calls, fetched_app, Hf, IH.
    reflexivity.
Qed.

End Async.

(** ** Onboarding: the import loop *)

Section ImportProperties.
Context {P : Platform}.
Import Onboarding.

Lemma import_row_missing (a : ImportArgs.t) (userData : Row) (results : ImportResults.t)
    (w : World P) :
  lacks_required userData = true ->
  import_row a userData results w =
    (Returned (push_import_failure results
                 {| ImportFailure.email := JS.or_else (JS.lookup "email" userData) "Missing email";
                    ImportFailure.reason := missing_required_fields |}), w, []).
Proof. intros H. unfold import_row, try_catch. rewrite H. reflexivity. Qed.

Lemma import_row_raised (a : ImportArgs.t) (userData : Row) (results : ImportResults.t)
    (w w1 : World P) (e : Thrown) (c : list Call) :
  lacks_required userData = false ->
  create_and_assign a userData w = (Raised e, w1, c) ->
  import_row a userData results w =
    (Returned (push_import_failure results
                 {| ImportFailure.email := JS.or_else (JS.lookup "email" userData) "Unknown";
                    ImportFailure.reason := errorText e |}), w1, c).
Proof.
  intros H E. unfold import_row, try_catch, bind. rewrite H, E. simpl.
  now rewrite app_nil_r.
Qed.

Lemma import_row_created (a : ImportArgs.t) (userData : Row) (results : ImportResults.t)
    (w w1 : World P) (created : Created.t) (c : list Call) :
  lacks_required userData = false ->
  create_and_assign a userData w = (Returned created, w1, c) ->
  import_row a userData results w = (Returned (push_created results created), w1, c).
Proof.
  intros H E. unfold import_row, try_catch, bind. rewrite H, E. simpl.
  now rewrite app_nil_r.
Qed.

(** One row: the iteration returns, with one more entry in [results] and
    every earlier failure still there. *)
Lemma import_row_returns (a : ImportArgs.t) (userData : Row) (results : ImportResults.t)
    (w : World P) :
  exists results' w' c,
    import_row a userData results w = (Returned results', w', c)
    /\ List.length (ImportResults.success results') + List.length (ImportResults.failed results')
       = S (List.length (ImportResults.success results)
            + List.length (ImportResults.failed results))
    /\ (forall x, In x (ImportResults.failed results) -> In x (ImportResults.failed results')).
Proof.
  destruct (lacks_required userData) eqn:H.
  - rewrite (import_row_missing a userData results w H).
    do 3 eexists; split; [reflexivity|]. simpl. rewrite length_app. simpl.
    split; [lia | intros x Hx; apply in_or_app; now left].
  - destruct (create_and_assign a userData w) as [[[created|e] w1] c] eqn:E.
    + rewrite (import_row_created a userData results w w1 created c H E).
      do 3 eexists; split; [reflexivity|]. simpl. rewrite length_app. simpl.
      split; [lia | auto].
    + rewrite (import_row_raised a userData results w w1 e c H E).
      do 3 eexists; split; [reflexivity|]. simpl. rewrite length_app. simpl.
      split; [lia | intros x Hx; apply in_or_app; now left].
Qed.

Lemma import_rows_returns (a : ImportArgs.t) (users : list Row) (results : ImportResults.t)
    (w : World P) :
  exists results' w' c,
    import_rows a users results w = (Returned results', w', c)
    /\ List.length (ImportResults.success results') + List.length (ImportResults.failed results')
       = List.length (ImportResults.success results)
         + List.length (ImportResults.failed results) + List.length users
    /\ (forall x, In x (ImportResults.failed results) -> In x (ImportResults.failed results')).
Proof.
  unfold import_rows.
  assert (Htotal : forall x s (w0 : World P),
             exists s' w' c, import_row a x s w0 = (Returned s', w', c)).
  { intros x s w0. destruct (import_row_returns a x s w0) as [s' [w' [c [E _]]]]. eauto. }
  destruct (for_of_returns (import_row a) Htotal users results w) as [results' [w' [c E]]].
  exists results', w', c. split; [exact E|]. split.
  - apply (for_of_counts (import_row a)
             (fun r => List.length (ImportResults.success r)
                       + List.length (ImportResults.failed r))) with (w := w) (w' := w') (c := c);
      [|exact E].
    intros x s w0 s' w0' c0 E0.
    destruct (import_row_returns a x s w0) as [s2 [w2 [c2 [E2 [Hn _]]]]].
    rewrite E0 in E2. inversion E2; subst. exact Hn.
  - intros x Hx.
    apply (for_of_preserves (import_row a) (fun r => In x (ImportResults.failed r)))
      with (l := users) (s := results) (w := w) (w' := w') (c := c); [|exact E|exact Hx].
    intros y s w0 s' w0' c0 E0 Hs.
    destruct (import_row_returns a y s w0) as [s2 [w2 [c2 [E2 [_ Hkeep]]]]].
    rewrite E0 in E2. inversion E2; subst. now apply Hkeep.
Qed.


End ImportProperties.


(** The outcome of the import of the demonstration data. *)
Example import_demo_results :
  outcome (Onboarding.import_rows (P := Demo.platform)
             (Onboarding.ImportArgs.mk Demo.csv true true []) Demo.rows
             (Onboarding.ImportResults.mk [] []) 0) =
    Returned
      (Onboarding.ImportResults.mk
         [ Onboarding.Created.mk "new-0" "ann@example.com" "ACTIVE";
           Onboarding.Created.mk "new-1" "dee@example.com" "ACTIVE" ]
         [ Onboarding.ImportFailure.mk "ben@example.com"
             "Missing required fields (email, firstName, or lastName)";
           Onboarding.ImportFailure.mk "cy@example.com" "login already exists" ]).
Proof. reflexivity. Qed.

(** A default group that cannot be assigned fails the row it is assigned
    for, after the user has been created, and the next row is processed. *)
Example import_demo_default_group_failure :
  Onboarding.import_rows (P := Demo.platform)
    (Onboarding.ImportArgs.mk Demo.csv false true [ "bad-group" ])
    [ nth 0 Demo.rows []; nth 1 Demo.rows [] ]
    (Onboarding.ImportResults.mk [] []) 0 =
  (Returned
     (Onboarding.ImportResults.mk []
        [ Onboarding.ImportFailure.mk "ann@example.com" "Group not found";
          Onboarding.ImportFailure.mk "ben@example.com"
            "Missing required fields (email, firstName, or lastName)" ]),
   1,
   [ Call_createUser (Onboarding.newUser (nth 0 Demo.rows []));
     Call_assignUserToGroup "bad-group" "new-0" ]).
Proof. reflexivity. Qed.

(** ** Onboarding: provisioning *)

Section ProvisionProperties.
Context {P : Platform}.
Import Onboarding.

(** One application: the grant is attempted once, and one sub-result is
    added whether it succeeds or fails. *)
Lemma grant_adds_one (userId appId : string) (applications : list AppResult.t)
    (hasFailure : bool) (w : World P) :
  exists sub w',
    grant userId appId (applications, hasFailure) w =
      (Returned ((applications ++ [sub])%list, hasFailure || failed_grant sub), w',
       [ Call_assignUserToApplication appId userId ])
    /\ AppResult.appId sub = appId
    /\ sub_result_ok sub.
Proof.
  unfold grant, try_catch, bind, assignUserToApplication, request, ret.
  destruct (applicationApi_assignUserToApplication P appId userId w) as [[[]|e] w']; simpl.
  - exists (AppResult.mk appId "assigned" None), w'.
    rewrite orb_false_r. split; [reflexivity|]. split; [reflexivity|].
    left; split; reflexivity.
  - exists (AppResult.mk appId "failed" (Some (errorText e))), w'.
    rewrite orb_true_r. split; [reflexivity|]. split; [reflexivity|].
    right; split; [reflexivity | eexists; reflexivity].
Qed.

(** The inner loop: every application is attempted once, in order, and
    every attempt leaves its sub-result. *)
Lemma grant_loop_attempts_all (userId : string) (applicationIds : list string)
    (applications : list AppResult.t) (hasFailure : bool) (w : World P) :
  exists subs w',
    for_of (grant userId) applicationIds (applications, hasFailure) w =
      (Returned ((applications ++ subs)%list, hasFailure || existsb failed_grant subs), w',
       grant_calls userId applicationIds)
    /\ map AppResult.appId subs = applicationIds
    /\ Forall sub_result_ok subs.
Proof.
  revert applications hasFailure w.
  induction applicationIds as [|appId rest IH]; intros applications hasFailure w; simpl.
  - exists [], w. rewrite app_nil_r, orb_false_r. repeat split. constructor.
  - destruct (grant_adds_one userId appId applications hasFailure w)
      as [sub [w1 [E [Hid Hok]]]].
    rewrite (bind_returned _ _ _ _ _ _ E).
    destruct (IH (applications ++ [sub])%list (hasFailure || failed_grant sub) w1)
      as [subs [w2 [E2 [Hids Hoks]]]].
    rewrite E2. exists (sub :: subs), w2. simpl.
    rewrite <- app_assoc, orb_assoc. simpl.
    split; [reflexivity|]. split; [now rewrite Hid, Hids | now constructor].
Qed.

Lemma provision_user_fetched (a : ProvisionArgs.t) (userId : string)
    (results : ProvisionResults.t) (w w1 : World P) (user : User.t) (profile : Profile) :
  userApi_getUser P userId w = (Returned (Some user), w1) ->
  User.profile user = Some profile ->
  exists subs w2,
    provision_user a userId results w =
      (Returned
         (if existsb failed_grant subs
          then push_provision_failure results
                 (Provisioned.mk userId (JS.lookup "email" profile) None (Some subs))
          else push_provisioned results
                 (Provisioned.mk userId (JS.lookup "email" profile) None (Some subs))),
       w2, Call_getUser userId :: grant_calls userId (ProvisionArgs.applicationIds a))
    /\ map AppResult.appId subs = ProvisionArgs.applicationIds a
    /\ Forall sub_result_ok subs.
Proof.
  intros Hfetch Hprofile.
  destruct (grant_loop_attempts_all userId (ProvisionArgs.applicationIds a) [] false w1)
    as [subs [w2 [E [Hids Hoks]]]].
  exists subs, w2. split; [|split; assumption].
  unfold provision_user, try_catch, bind, getUser, request, grant_all.
  rewrite Hfetch, Hprofile, E. simpl.
  destruct (existsb failed_grant subs); simpl; now rewrite app_nil_r.
Qed.

Lemma provision_user_fetch_raised (a : ProvisionArgs.t) (userId : string)
    (results : ProvisionResults.t) (w w1 : World P) (e : Thrown) :
  userApi_getUser P userId w = (Raised e, w1) ->
  provision_user a userId results w =
    (Returned (push_provision_failure results
                 (Provisioned.mk userId None (Some (errorText e)) (Some []))),
     w1, [ Call_getUser userId ]).
Proof.
  intros Hfetch. unfold provision_user, try_catch, bind, getUser, request.
  rewrite Hfetch. reflexivity.
Qed.

Lemma provision_user_unavailable (a : ProvisionArgs.t) (userId : string)
    (results : ProvisionResults.t) (w w1 : World P) (user : option User.t) :
  userApi_getUser P userId w = (Returned user, w1) ->
  match user with Some u => User.profile u | None => None end = None ->
  provision_user a userId results w =
    (Returned (push_provision_failure results
                 (Provisioned.mk userId None (Some profile_unavailable) None)),
     w1, [ Call_getUser userId ]).
Proof.
  intros Hfetch Hnone. unfold provision_user, try_catch, bind, getUser, request.
  rewrite Hfetch. destruct user as [u|]; simpl; [rewrite Hnone|]; reflexivity.
Qed.

(** One user: the iteration returns with one more entry, after fetching
    the user, and all its calls are about the user. *)
Lemma provision_user_returns (a : ProvisionArgs.t) (userId : string)
    (results : ProvisionResults.t) (w : World P) :
  exists results' w' c,
    provision_user a userId results w = (Returned results', w', c)
    /\ List.length (ProvisionResults.success results')
       + List.length (ProvisionResults.failed results')
       = S (List.length (ProvisionResults.success results)
            + List.length (ProvisionResults.failed results))
    /\ fetched c = [ userId ]
    /\ (forall x, In x c -> call_user x = Some userId).
Proof.
  assert (Hgrants : forall ids, fetched (grant_calls userId ids) = []
                                /\ forall x, In x (grant_calls userId ids) ->
                                             call_user x = Some userId).
  { intros ids. induction ids as [|i ids [IH1 IH2]]; simpl; [split; [reflexivity|tauto]|].
    split; [exact IH1|]. intros x [<-|Hx]; [reflexivity | now apply IH2]. }
  destruct (userApi_getUser P userId w) as [[user|e] w1] eqn:Hfetch.
  - destruct (match user with Some u => User.profile u | None => None end) as [profile|] eqn:Hp.
    + destruct user as [u|]; [|discriminate].
      destruct (provision_user_fetched a userId results w w1 u profile Hfetch Hp)
        as [subs [w2 [E _]]].
      rewrite E. do 3 eexists; split; [reflexivity|].
      destruct (Hgrants (ProvisionArgs.applicationIds a)) as [Hf Hu].
      split; [|split].
      * destruct (existsb failed_grant subs); simpl; rewrite length_app; simpl; lia.
      * simpl. now rewrite Hf.
      * intros x [<-|Hx]; [reflexivity | now apply Hu].
    + rewrite (provision_user_unavailable a userId results w w1 user Hfetch Hp).
      do 3 eexists; split; [reflexivity|]. simpl. rewrite length_app. simpl.
      split; [lia|]. split; [reflexivity|]. intros x [<-|[]]; reflexivity.
  - rewrite (provision_user_fetch_raised a userId results w w1 e Hfetch).
    do 3 eexists; split; [reflexivity|]. simpl. rewrite length_app. simpl.
    split; [lia|]. split; [reflexivity|]. intros x [<-|[]]; reflexivity.
Qed.

Lemma provision_user_total (a : ProvisionArgs.t) (userId : string)
    (results : ProvisionResults.t) (w : World P) :
  exists results' w' c, provision_user a userId results w = (Returned results', w', c).
Proof.
  destruct (provision_user_returns a userId results w) as [r [w' [c [E _]]]]. eauto.
Qed.

Lemma provision_users_returns (a : ProvisionArgs.t) (userIds : list string)
    (results : ProvisionResults.t) (w : World P) :
  exists results' w' c,
    provision_users a userIds results w = (Returned results', w', c)
    /\ List.length (ProvisionResults.success results')
       + List.length (ProvisionResults.failed results')
       = List.length (ProvisionResults.success results)
         + List.length (ProvisionResults.failed results) + List.length userIds
    /\ fetched c = userIds
    /\ (forall x, In x c -> exists u, call_user x = Some u /\ In u userIds).
Proof.
  unfold provision_users.
  destruct (for_of_returns (provision_user a) (provision_user_total a) userIds results w)
    as [results' [w' [c E]]].
  exists results', w', c. split; [exact E|]. split; [|split].
  - apply (for_of_counts (provision_user a)
             (fun r => List.length (ProvisionResults.success r)
                       + List.length (ProvisionResults.failed r)))
      with (w := w) (w' := w') (c := c); [|exact E].
    intros x s w0 s' w0' c0 E0.
    destruct (provision_user_returns a x s w0) as [s2 [w2 [c2 [E2 [Hn _]]]]].
    rewrite E0 in E2. inversion E2; subst. exact Hn.
  - change c with (calls (Returned results', w', c)). rewrite <- E.
    apply for_of_fetched. intros x s w0.
    destruct (provision_user_returns a x s w0) as [s2 [w2 [c2 [E2 [_ [Hf _]]]]]]. eauto.
  - intros x Hx. change c with (calls (Returned results', w', c)) in Hx. rewrite <- E in Hx.
    destruct (for_of_calls (P := P) (provision_user a) (fun u c0 => call_user c0 = Some u))
      with (l := userIds) (s := results) (w := w) (c := x) as [u [Hu Hc]]; [|exact Hx|eauto].
    intros u s w0 c0 Hc0.
    destruct (provision_user_returns a u s w0) as [s2 [w2 [c2 [E2 [_ [_ Hall]]]]]].
    rewrite E2 in Hc0. now apply Hall.
Qed.


End ProvisionProperties.



Example provisioning_demo_results :
  outcome (Onboarding.provision_users (P := Demo.platform)
             (Onboarding.ProvisionArgs.mk [ "u1" ] [ "app1"; "bad-app" ]) [ "u1" ]
             (Onboarding.ProvisionResults.mk [] []) 0) =
    Returned
      (Onboarding.ProvisionResults.mk []
         [ Onboarding.Provisioned.mk "u1" (Some "alice@example.com") None
             (Some [ Onboarding.AppResult.mk "app1" "assigned" None;
                     Onboarding.AppResult.mk "bad-app" "failed"
                       (Some "Application not found") ]) ]).
Proof. reflexivity. Qed.

(** ** Onboarding: the arguments handed from stage to stage *)

Lemma strings_of_strings (l : list string) :
  Onboarding.strings_of (map Zod.JStr l) = l.
Proof. induction l as [|x l IH]; simpl; [reflexivity | now rewrite IH]. Qed.

Lemma string_members_of_strings (inner : list (string * string)) :
  Onboarding.string_members_of (map (fun '(k, g) => (k, Zod.JStr g)) inner) = inner.
Proof. induction inner as [|[k g] inner IH]; simpl; [reflexivity | now rewrite IH]. Qed.

Lemma mapping_of_mapping (m : Onboarding.Mapping) :
  Onboarding.mapping_of
    (map (fun '(k, inner) =>
            (k, Zod.JObj (map (fun '(k', g) => (k', Zod.JStr g)) inner))) m) = m.
Proof.
  induction m as [|[k inner] m IH]; simpl; [reflexivity|].
  now rewrite string_members_of_strings, IH.
Qed.

(** An array of strings against [z.array(z.string())], with or without
    [.min(1, ..)]: either an issue is found, or the array is returned as
    it is; it is returned when no string is empty. *)
Lemma parse_items_strings (minLen : option (nat * string)) (p : list Zod.PathSeg) (i : nat)
    (l : list string) :
  (fst (Zod.parse_items (Zod.parse_value (Zod.ZString minLen)) p i (map Zod.JStr l)) = [] ->
   snd (Zod.parse_items (Zod.parse_value (Zod.ZString minLen)) p i (map Zod.JStr l))
   = map Zod.JStr l)
  /\ ((forall n msg, minLen = Some (n, msg) -> n = 1 /\ forallb JS.truthy l = true) ->
      fst (Zod.parse_items (Zod.parse_value (Zod.ZString minLen)) p i (map Zod.JStr l)) = []).
Proof.
  set (f := Zod.parse_value (Zod.ZString minLen)).
  assert (Hf : forall q x,
             f q (Some (Zod.JStr x)) =
             match minLen with
             | Some (n, msg) =>
                 if Nat.ltb (String.length x) n
                 then ([Zod.mkIssue "too_small" q msg], None)
                 else ([], Some (Zod.JStr x))
             | None => ([], Some (Zod.JStr x))
             end) by reflexivity.
  clearbody f.
  revert i. induction l as [|x l IH]; intros i; simpl; [split; reflexivity|].
  rewrite Hf. destruct (IH (S i)) as [IH1 IH2].
  destruct (Zod.parse_items f p (S i) (map Zod.JStr l)) as [issues2 vs].
  simpl in IH1, IH2.
  destruct minLen as [[n msg]|].
  - destruct (Nat.ltb (String.length x) n) eqn:En; simpl.
    + split; [discriminate|]. intros H. destruct (H n msg eq_refl) as [-> Hall].
      apply andb_true_iff in Hall. destruct Hall as [Hx _].
      destruct x; [discriminate | simpl in En; discriminate].
    + split.
      * intros H. now rewrite (IH1 H).
      * intros H. apply IH2. intros n' msg' Heq. destruct (H n' msg' Heq) as [-> Hall].
        split; [reflexivity|]. now apply andb_true_iff in Hall.
  - simpl. split.
    + intros H. now rewrite (IH1 H).
    + intros _. apply IH2. intros n msg Heq; discriminate.
Qed.

(** A record all of whose members are accepted as they are is returned
    as it is. *)
Lemma parse_members_accepted (f : list Zod.PathSeg -> option Zod.JSON -> list Zod.Issue * option Zod.JSON)
    (p : list Zod.PathSeg) (members : list (string * Zod.JSON)) :
  (forall q k x, In (k, x) members -> f q (Some x) = ([], Some x)) ->
  Zod.parse_members f p members = ([], members).
Proof.
  induction members as [|[k x] members IH]; intros H; simpl; [reflexivity|].
  rewrite (H _ k x (or_introl eq_refl)), IH; [reflexivity|].
  intros q k' x' Hin. apply (H q k'). now right.
Qed.

Lemma parse_value_record (value : Zod.Schema) (p : list Zod.PathSeg)
    (members : list (string * Zod.JSON)) :
  Zod.parse_value (Zod.ZRecord value) p (Some (Zod.JObj members)) =
    let '(issues, vs) := Zod.parse_members (Zod.parse_value value) p members in
    (issues, Some (Zod.JObj vs)).
Proof. reflexivity. Qed.

Lemma parse_members_strings (p : list Zod.PathSeg) (inner : list (string * string)) :
  Zod.parse_members (Zod.parse_value (Zod.ZString None)) p
    (map (fun '(k, g) => (k, Zod.JStr g)) inner)
  = ([], map (fun '(k, g) => (k, Zod.JStr g)) inner).
Proof.
  apply parse_members_accepted. intros q k x Hin.
  apply in_map_iff in Hin. destruct Hin as [[k' g] [Heq _]]. inversion Heq; subst.
  reflexivity.
Qed.

Lemma parse_members_mapping (p : list Zod.PathSeg) (m : Onboarding.Mapping) :
  Zod.parse_members (Zod.parse_value (Zod.ZRecord (Zod.ZString None))) p
    (map (fun '(k, inner) =>
            (k, Zod.JObj (map (fun '(k', g) => (k', Zod.JStr g)) inner))) m)
  = ([], map (fun '(k, inner) =>
                (k, Zod.JObj (map (fun '(k', g) => (k', Zod.JStr g)) inner))) m).
Proof.
  apply parse_members_accepted. intros q k x Hin.
  apply in_map_iff in Hin. destruct Hin as [[k' inner] [Heq _]]. inversion Heq; subst.
  rewrite parse_value_record, parse_members_strings. reflexivity.
Qed.

Section StageArguments.
Import Onboarding.

(** The arguments the workflow builds for stage 2 are refused, or they are
    destructured into the ids and the mapping they were built from; they
    are accepted when no id is empty. *)
Lemma parse_assign_parameters (a : WorkflowArgs.t) (ids : list string) :
  ((exists e, Zod.parse onboardingSchemas_assignUsersToGroups
                (Some (assign_parameters a ids)) = Raised e)
   \/ exists v, Zod.parse onboardingSchemas_assignUsersToGroups
                  (Some (assign_parameters a ids)) = Returned v
                /\ destructure_assign v = AssignArgs.mk ids (WorkflowArgs.groupMappings a))
  /\ (forallb JS.truthy ids = true ->
      exists v, Zod.parse onboardingSchemas_assignUsersToGroups
                  (Some (assign_parameters a ids)) = Returned v
                /\ destructure_assign v = AssignArgs.mk ids (WorkflowArgs.groupMappings a)).
Proof.
  unfold Zod.parse, Zod.parse_object, assign_parameters, onboardingSchemas_assignUsersToGroups,
    strings, mapping.
  simpl.
  destruct (parse_items_strings (Some (1, "User ID is required")) [Zod.Key "userIds"] 0 ids)
    as [Hsame Hvalid].
  destruct (Zod.parse_items _ _ 0 (map Zod.JStr ids)) as [issues vs] eqn:E. simpl in *.
  rewrite parse_members_mapping. simpl.
  assert (Hok : issues = [] ->
                exists v, (let (l, v0) := ((issues ++ [])%list,
                             [("userIds", Zod.JArr vs);
                              ("attributeMapping",
                               Zod.JObj (map (fun '(k, inner) =>
                                  (k, Zod.JObj (map (fun '(k', g) => (k', Zod.JStr g)) inner)))
                                  (WorkflowArgs.groupMappings a)))]) in
                           match l with
                           | [] => Returned v0
                           | _ :: _ => Raised (ErrorObj (Zod.errorMessage l))
                           end) = Returned v
                          /\ destructure_assign v
                             = AssignArgs.mk ids (WorkflowArgs.groupMappings a)).
  { intros ->. rewrite (Hsame eq_refl). simpl. eexists; split; [reflexivity|].
    unfold destructure_assign, get_strings, get_mapping. simpl.
    now rewrite strings_of_strings, mapping_of_mapping. }
  split.
  - destruct issues as [|i issues]; [right; now apply Hok | left; eexists; reflexivity].
  - intros Hall. apply Hok. apply Hvalid. intros n msg Heq. inversion Heq; subst. now split.
Qed.

(** The same for stage 3; they are accepted when no id and no application
    id is empty. *)
Lemma parse_provision_parameters (a : WorkflowArgs.t) (ids : list string) :
  ((exists e, Zod.parse onboardingSchemas_provisionApplications
                (Some (provision_parameters a ids)) = Raised e)
   \/ exists v, Zod.parse onboardingSchemas_provisionApplications
                  (Some (provision_parameters a ids)) = Returned v
                /\ destructure_provision v
                   = ProvisionArgs.mk ids (WorkflowArgs.applicationIds a))
  /\ (forallb JS.truthy ids = true ->
      forallb JS.truthy (WorkflowArgs.applicationIds a) = true ->
      exists v, Zod.parse onboardingSchemas_provisionApplications
                  (Some (provision_parameters a ids)) = Returned v
                /\ destructure_provision v
                   = ProvisionArgs.mk ids (WorkflowArgs.applicationIds a)).
Proof.
  unfold Zod.parse, Zod.parse_object, provision_parameters,
    onboardingSchemas_provisionApplications, strings.
  simpl.
  destruct (parse_items_strings (Some (1, "User ID is required")) [Zod.Key "userIds"] 0 ids)
    as [Hsame Hvalid].
  destruct (parse_items_strings (Some (1, "Application ID is required"))
              [Zod.Key "applicationIds"] 0 (WorkflowArgs.applicationIds a))
    as [Hsame' Hvalid'].
  destruct (Zod.parse_items _ _ 0 (map Zod.JStr ids)) as [issues vs] eqn:E.
  destruct (Zod.parse_items _ _ 0 (map Zod.JStr (WorkflowArgs.applicationIds a)))
    as [issues' vs'] eqn:E'.
  simpl in *.
  assert (Hok : issues = [] -> issues' = [] ->
                exists v, (let (l, v0) := ((issues ++ issues' ++ [])%list,
                             [("userIds", Zod.JArr vs); ("applicationIds", Zod.JArr vs')]) in
                           match l with
                           | [] => Returned v0
                           | _ :: _ => Raised (ErrorObj (Zod.errorMessage l))
                           end) = Returned v
                          /\ destructure_provision v
                             = ProvisionArgs.mk ids (WorkflowArgs.applicationIds a)).
  { intros -> ->. rewrite (Hsame eq_refl), (Hsame' eq_refl). simpl.
    eexists; split; [reflexivity|].
    unfold destructure_provision, get_strings. simpl.
    now rewrite !strings_of_strings. }
  split.
  - destruct issues as [|i issues]; [|left; eexists; reflexivity].
    destruct issues' as [|i' issues']; [right; now apply Hok | left; eexists; reflexivity].
  - intros Hall Hall'. apply Hok.
    + apply Hvalid. intros n msg Heq. inversion Heq; subst. now split.
    + apply Hvalid'. intros n msg Heq. inversion Heq; subst. now split.
Qed.

End StageArguments.

(** ** Onboarding: group assignment and the workflow *)

Section WorkflowProperties.
Context {P : Platform}.
Import Onboarding.

Lemma getOktaClient_configured (w : World P) :
  configured P = true -> getOktaClient w = (Returned tt, w, []).
Proof.
  unfold configured, getOktaClient. intros H. apply andb_true_iff in H.
  destruct H as [-> ->]. reflexivity.
Qed.

Lemma getOktaClient_unconfigured (w : World P) :
  configured P = false -> exists e, getOktaClient w = (Raised e, w, []).
Proof.
  unfold configured, getOktaClient. intros H.
  destruct (JS.truthy_opt (OKTA_ORG_URL P)); simpl in *; [|eexists; reflexivity].
  rewrite H. simpl. eexists; reflexivity.
Qed.

(** The calls of the loop over the groups of one user are assignments of
    that user. *)
Lemma assign_groups_calls (userId : string) (groups assignedGroups : list string)
    (w : World P) :
  fetched (calls (assign_groups groups userId assignedGroups w)) = []
  /\ forall x, In x (calls (assign_groups groups userId assignedGroups w)) ->
               call_user x = Some userId.
Proof.
  unfold assign_groups. revert assignedGroups w.
  induction groups as [|groupId rest IH]; intros assignedGroups w.
  - split; [reflexivity | intros x []].
  - assert (Hstep :
      (exists w1,
         (done <- assignUserToGroup groupId userId ;;
          ret (assignedGroups ++ [groupId])%list) w =
         (Returned (assignedGroups ++ [groupId])%list, w1,
          [ Call_assignUserToGroup groupId userId ]))
      \/ (exists e w1,
            (done <- assignUserToGroup groupId userId ;;
             ret (assignedGroups ++ [groupId])%list) w =
            (Raised e, w1, [ Call_assignUserToGroup groupId userId ]))).
    { unfold bind, assignUserToGroup, request, ret.
      destruct (groupApi_assignUserToGroup P groupId userId w) as [[[]|e] w1]; simpl; eauto. }
    simpl. destruct Hstep as [[w1 E]|[e [w1 E]]].
    + rewrite (bind_returned _ _ _ _ _ _ E), calls_after_calls, fetched_app.
      destruct (IH (assignedGroups ++ [groupId])%list w1) as [IH1 IH2].
      split; [now rewrite IH1|].
      intros x Hx. apply in_app_or in Hx. destruct Hx as [[<-|[]]|Hx];
        [reflexivity | now apply IH2].
    + rewrite (bind_raised _ _ _ _ _ _ E). unfold calls. simpl.
      split; [reflexivity|]. intros x [<-|[]]. reflexivity.
Qed.

(** One user of stage 2: the iteration returns, fetches the user once,
    and all its calls are about the user. *)
Lemma assign_user_returns (a : AssignArgs.t) (userId : string) (results : AssignResults.t)
    (w : World P) :
  exists results' w' c,
    assign_user a userId results w = (Returned results', w', c)
    /\ fetched c = [ userId ]
    /\ (forall x, In x c -> call_user x = Some userId).
Proof.
  unfold assign_user, try_catch, bind, getUser, request.
  destruct (userApi_getUser P userId w) as [[[user|]|e] w1]; simpl;
    try (do 3 eexists; split; [reflexivity|]; split; [reflexivity|];
         intros x [<-|[]]; reflexivity).
  destruct (User.profile user) as [profile|]; simpl;
    try (do 3 eexists; split; [reflexivity|]; split; [reflexivity|];
         intros x [<-|[]]; reflexivity).
  destruct (groupsToAssign profile (AssignArgs.attributeMapping a) []) as [|g groups] eqn:Eg;
    simpl;
    try (do 3 eexists; split; [reflexivity|]; split; [reflexivity|];
         intros x [<-|[]]; reflexivity).
  destruct (assign_groups_calls userId (g :: groups) [] w1) as [Hf Hu].
  destruct (assign_groups (g :: groups) userId [] w1) as [[[assigned|e] w2] c2];
    unfold calls in *; simpl in *.
  - do 3 eexists; split; [reflexivity|]. rewrite !app_nil_r. simpl.
    split; [now rewrite Hf|]. intros x [<-|Hx]; [reflexivity | now apply Hu].
  - do 3 eexists; split; [reflexivity|]. rewrite !app_nil_r. simpl.
    split; [now rewrite Hf|]. intros x [<-|Hx]; [reflexivity | now apply Hu].
Qed.

Lemma assign_users_returns (a : AssignArgs.t) (userIds : list string)
    (results : AssignResults.t) (w : World P) :
  exists results' w' c,
    assign_users a userIds results w = (Returned results', w', c)
    /\ fetched c = userIds
    /\ (forall x, In x c -> exists u, call_user x = Some u /\ In u userIds).
Proof.
  unfold assign_users.
  assert (Htotal : forall x s (w0 : World P),
             exists s' w' c, assign_user a x s w0 = (Returned s', w', c)).
  { intros x s w0. destruct (assign_user_returns a x s w0) as [s' [w' [c [E _]]]]. eauto. }
  destruct (for_of_returns (assign_user a) Htotal userIds results w) as [results' [w' [c E]]].
  exists results', w', c. split; [exact E|]. split.
  - change c with (calls (Returned results', w', c)). rewrite <- E.
    apply for_of_fetched. intros x s w0.
    destruct (assign_user_returns a x s w0) as [s2 [w2 [c2 [E2 [Hf _]]]]]. eauto.
  - intros x Hx. change c with (calls (Returned results', w', c)) in Hx. rewrite <- E in Hx.
    destruct (for_of_calls (P := P) (assign_user a) (fun u c0 => call_user c0 = Some u))
      with (l := userIds) (s := results) (w := w) (c := x) as [u [Hu Hc]]; [|exact Hx|eauto].
    intros u s w0 c0 Hc0.
    destruct (assign_user_returns a u s w0) as [s2 [w2 [c2 [E2 [_ Hall]]]]].
    rewrite E2 in Hc0. now apply Hall.
Qed.

(** Stage 2 on validated arguments: it returns; all its calls are about
    the users it is given; when the client is configured it fetches each of
    them once, in order, and returns its results as [data]. *)
Lemma assign_body_calls (a : AssignArgs.t) (w : World P) :
  exists r w' c,
    assign_users_to_groups_body a w = (Returned r, w', c)
    /\ (forall x, In x c -> exists u, call_user x = Some u /\ In u (AssignArgs.userIds a))
    /\ (configured P = true -> fetched c = AssignArgs.userIds a /\ ToolResult.data r <> None).
Proof.
  unfold assign_users_to_groups_body.
  destruct (configured P) eqn:Hc.
  - destruct (assign_users_returns a (AssignArgs.userIds a) (AssignResults.mk [] []) w)
      as [results [w' [c [E [Hf Hu]]]]].
    unfold try_catch.
    rewrite (bind_returned _ _ _ _ _ _ (getOktaClient_configured w Hc)), after_calls_nil.
    rewrite (bind_returned _ _ _ _ _ _ E).
    unfold ret. simpl. rewrite app_nil_r.
    do 3 eexists; split; [reflexivity|]. split; [exact Hu|].
    intros _. split; [exact Hf | discriminate].
  - destruct (getOktaClient_unconfigured w Hc) as [e He].
    rewrite (try_catch_raised _ _ w w e [] (bind_raised _ _ _ _ _ _ He)).
    rewrite after_calls_nil. unfold ret.
    do 3 eexists; split; [reflexivity|]. split; [intros x []|discriminate].
Qed.

(** The same for stage 3; here the summary may fail on an entry without
    sub-results, in which case the results are not returned. *)
Lemma provision_body_calls (a : ProvisionArgs.t) (w : World P) :
  exists r w' c,
    provision_applications_body a w = (Returned r, w', c)
    /\ (forall x, In x c -> exists u, call_user x = Some u /\ In u (ProvisionArgs.userIds a))
    /\ (configured P = true -> fetched c = ProvisionArgs.userIds a).
Proof.
  unfold provision_applications_body.
  destruct (configured P) eqn:Hc.
  - destruct (provision_users_returns a (ProvisionArgs.userIds a) (ProvisionResults.mk [] []) w)
      as [results [w' [c [E [_ [Hf Hu]]]]]].
    unfold try_catch.
    rewrite (bind_returned _ _ _ _ _ _ (getOktaClient_configured w Hc)), after_calls_nil.
    rewrite (bind_returned _ _ _ _ _ _ E).
    unfold bind, lift, ret.
    destruct (provision_summary a results) as [summary|e]; simpl;
      rewrite ?app_nil_r;
      (do 3 eexists; split; [reflexivity|]; split; [exact Hu | intros _; exact Hf]).
  - destruct (getOktaClient_unconfigured w Hc) as [e He].
    rewrite (try_catch_raised _ _ w w e [] (bind_raised _ _ _ _ _ _ He)).
    rewrite after_calls_nil. unfold ret.
    do 3 eexists; split; [reflexivity|]. split; [intros x []|discriminate].
Qed.

(** Stage 2 as the workflow calls it, for the ids [ids]: all its calls are
    about these ids; when the client is configured and no id is empty, it
    returns its results after fetching each of them once, in order. *)
Lemma assign_stage_calls (a : WorkflowArgs.t) (ids : list string) (w : World P) :
  (forall x, In x (calls (assign_users_to_groups (Some (assign_parameters a ids)) w)) ->
             exists u, call_user x = Some u /\ In u ids)
  /\ (configured P = true -> forallb JS.truthy ids = true ->
      exists r w' c,
        assign_users_to_groups (Some (assign_parameters a ids)) w = (Returned r, w', c)
        /\ fetched c = ids /\ ToolResult.data r <> None).
Proof.
  unfold assign_users_to_groups.
  destruct (parse_assign_parameters a ids) as [Hparse Hvalid].
  destruct (assign_body_calls (AssignArgs.mk ids (WorkflowArgs.groupMappings a)) w)
    as [r [w' [c [E [Hu Hf]]]]].
  split.
  - destruct Hparse as [[e He]|[v [Hv Hd]]].
    + rewrite (bind_raised (lift _) _ w w e []) by (unfold lift; now rewrite He).
      intros x [].
    + rewrite (bind_returned (lift _) _ w w v []) by (unfold lift; now rewrite Hv).
      rewrite after_calls_nil, Hd, E. exact Hu.
  - intros Hc Hall. destruct (Hvalid Hall) as [v [Hv Hd]].
    rewrite (bind_returned (lift _) _ w w v []) by (unfold lift; now rewrite Hv).
    rewrite after_calls_nil, Hd, E. destruct (Hf Hc) as [Hf1 Hf2].
    do 3 eexists; split; [reflexivity|]. now split.
Qed.

Lemma provision_stage_calls (a : WorkflowArgs.t) (ids : list string) (w : World P) :
  (forall x, In x (calls (provision_applications (Some (provision_parameters a ids)) w)) ->
             exists u, call_user x = Some u /\ In u ids)
  /\ (configured P = true -> forallb JS.truthy ids = true ->
      forallb JS.truthy (WorkflowArgs.applicationIds a) = true ->
      exists r w' c,
        provision_applications (Some (provision_parameters a ids)) w = (Returned r, w', c)
        /\ fetched c = ids).
Proof.
  unfold provision_applications.
  destruct (parse_provision_parameters a ids) as [Hparse Hvalid].
  destruct (provision_body_calls (ProvisionArgs.mk ids (WorkflowArgs.applicationIds a)) w)
    as [r [w' [c [E [Hu Hf]]]]].
  split.
  - destruct Hparse as [[e He]|[v [Hv Hd]]].
    + rewrite (bind_raised (lift _) _ w w e []) by (unfold lift; now rewrite He).
      intros x [].
    + rewrite (bind_returned (lift _) _ w w v []) by (unfold lift; now rewrite Hv).
      rewrite after_calls_nil, Hd, E. exact Hu.
  - intros Hc Hall Hall'. destruct (Hvalid Hall Hall') as [v [Hv Hd]].
    rewrite (bind_returned (lift _) _ w w v []) by (unfold lift; now rewrite Hv).
    rewrite after_calls_nil, Hd, E.
    do 3 eexists; split; [reflexivity|]. now apply Hf.
Qed.

(** The calls of a sequence and of a guarded block. *)
Lemma calls_bind {A B : Type} (m : M P A) (k : A -> M P B) (w : World P) :
  calls (bind m k w) =
    (calls (m w) ++ match outcome (m w) with
                    | Returned x => calls (k x (final (m w)))
                    | Raised _ => []
                    end)%list.
Proof.
  unfold bind, calls, outcome, final. destruct (m w) as [[[x|e] w1] c1]; simpl.
  - destruct (k x w1) as [[r w2] c2]. reflexivity.
  - now rewrite app_nil_r.
Qed.

Lemma calls_try_catch {A : Type} (m : M P A) (h : Thrown -> M P A) (w : World P) :
  calls (try_catch m h w) =
    (calls (m w) ++ match outcome (m w) with
                    | Returned _ => []
                    | Raised e => calls (h e (final (m w)))
                    end)%list.
Proof.
  unfold try_catch, calls, outcome, final. destruct (m w) as [[[x|e] w1] c1]; simpl.
  - now rewrite app_nil_r.
  - destruct (h e w1) as [[r w2] c2]. reflexivity.
Qed.

(** The stages the workflow runs after the import, as computations of the
    [data] they return. *)
Lemma after_import_calls (a : WorkflowArgs.t) (d : ImportResults.t) (w : World P) :
  calls (after_import a d w) =
    (calls ((if Nat.ltb 0 (List.length (WorkflowArgs.groupMappings a)) then
               r <- assign_users_to_groups (Some (assign_parameters a (createdUserIds d))) ;;
               ret (ToolResult.data r)
             else ret (Some (AssignResults.mk [] []))) w)
     ++ match outcome ((if Nat.ltb 0 (List.length (WorkflowArgs.groupMappings a)) then
                          r <- assign_users_to_groups
                                 (Some (assign_parameters a (createdUserIds d))) ;;
                          ret (ToolResult.data r)
                        else ret (Some (AssignResults.mk [] []))) w) with
        | Returned _ =>
            calls ((if Nat.ltb 0 (List.length (WorkflowArgs.applicationIds a)) then
                      r <- provision_applications
                             (Some (provision_parameters a (createdUserIds d))) ;;
                      ret (ToolResult.data r)
                    else ret (Some (ProvisionResults.mk [] [])))
                     (final ((if Nat.ltb 0 (List.length (WorkflowArgs.groupMappings a)) then
                                r <- assign_users_to_groups
                                       (Some (assign_parameters a (createdUserIds d))) ;;
                                ret (ToolResult.data r)
                              else ret (Some (AssignResults.mk [] []))) w)))
        | Raised _ => []
        end)%list.
Proof.
  unfold after_import. rewrite calls_bind. f_equal.
  destruct (outcome _) as [g|e]; [|reflexivity].
  rewrite calls_bind.
  match goal with |- (?c ++ ?t)%list = _ => assert (Hnil : t = []); [|now rewrite Hnil, app_nil_r] end.
  destruct (outcome _) as [ap|e]; [|reflexivity].
  destruct g, ap; reflexivity.
Qed.

Lemma calls_then_data {D : Type} (m : M P (ToolResult.t D)) (w : World P) :
  calls ((r <- m ;; ret (ToolResult.data r)) w) = calls (m w).
Proof.
  rewrite calls_bind. destruct (outcome (m w)); simpl; now rewrite app_nil_r.
Qed.

Lemma outcome_then_data {D : Type} (m : M P (ToolResult.t D)) (w w1 : World P)
    (r : ToolResult.t D) (c : list Call) :
  m w = (Returned r, w1, c) ->
  (r' <- m ;; ret (ToolResult.data r')) w = (Returned (ToolResult.data r), w1, c).
Proof.
  intros E. rewrite (bind_returned _ _ _ _ _ _ E). unfold ret. simpl. now rewrite app_nil_r.
Qed.

(** Every call issued after the import is about a user the import
    created. *)
Lemma after_import_about_created (a : WorkflowArgs.t) (d : ImportResults.t) (w : World P) :
  forall x, In x (calls (after_import a d w)) ->
            exists u, call_user x = Some u /\ In u (createdUserIds d).
Proof.
  intros x Hx. rewrite after_import_calls in Hx. apply in_app_or in Hx.
  destruct Hx as [Hx|Hx].
  - destruct (Nat.ltb 0 (List.length (WorkflowArgs.groupMappings a))).
    + rewrite calls_then_data in Hx.
      now apply (proj1 (assign_stage_calls a (createdUserIds d) w)).
    + destruct Hx.
  - destruct (outcome _) as [g|e]; [|destruct Hx].
    destruct (Nat.ltb 0 (List.length (WorkflowArgs.applicationIds a))).
    + rewrite calls_then_data in Hx.
      now apply (proj1 (provision_stage_calls a (createdUserIds d) _)) in Hx.
    + destruct Hx.
Qed.

(** When the client is configured and no id is empty, each configured
    stage fetches every created user once, in the order of creation. *)
Lemma after_import_fetches_created (a : WorkflowArgs.t) (d : ImportResults.t) (w : World P) :
  configured P = true ->
  forallb JS.truthy (createdUserIds d) = true ->
  forallb JS.truthy (WorkflowArgs.applicationIds a) = true ->
  fetched (calls (after_import a d w)) =
    ((if Nat.ltb 0 (List.length (WorkflowArgs.groupMappings a))
      then createdUserIds d else [])
     ++ (if Nat.ltb 0 (List.length (WorkflowArgs.applicationIds a))
         then createdUserIds d else []))%list.
Proof.
  intros Hc Hids Happs. rewrite after_import_calls, fetched_app.
  assert (H2 : exists g w2 c2,
             (if Nat.ltb 0 (List.length (WorkflowArgs.groupMappings a)) then
                r <- assign_users_to_groups (Some (assign_parameters a (createdUserIds d))) ;;
                ret (ToolResult.data r)
              else ret (Some (AssignResults.mk [] []))) w = (Returned g, w2, c2)
             /\ fetched c2 = if Nat.ltb 0 (List.length (WorkflowArgs.groupMappings a))
                             then createdUserIds d else []).
  { destruct (Nat.ltb 0 (List.length (WorkflowArgs.groupMappings a))).
    - destruct (proj2 (assign_stage_calls a (createdUserIds d) w) Hc Hids)
        as [r [w2 [c2 [E [Hf _]]]]].
      rewrite (outcome_then_data _ _ _ _ _ E). eauto.
    - unfold ret. eauto. }
  destruct H2 as [g [w2 [c2 [E2 Hf2]]]]. rewrite E2. unfold calls at 1, outcome, final. simpl.
  rewrite Hf2. f_equal.
  destruct (Nat.ltb 0 (List.length (WorkflowArgs.applicationIds a))).
  - destruct (proj2 (provision_stage_calls a (createdUserIds d) w2) Hc Hids Happs)
      as [r [w3 [c3 [E Hf]]]].
    rewrite (outcome_then_data _ _ _ _ _ E). exact Hf.
  - reflexivity.
Qed.

Lemma import_data_configured (parameters : option Zod.JSON) (w w1 : World P)
    (r : ToolResult.t ImportResults.t) (c : list Call) (d : ImportResults.t) :
  bulk_user_import parameters w = (Returned r, w1, c) ->
  ToolResult.data r = Some d ->
  configured P = true.
Proof.
  unfold bulk_user_import, bind, lift.
  destruct (Zod.parse onboardingSchemas_bulkUserImport parameters) as [v|e]; [|discriminate].
  destruct (configured P) eqn:Hc; [reflexivity|].
  destruct (getOktaClient_unconfigured w Hc) as [e He].
  unfold bulk_user_import_body.
  rewrite (try_catch_raised _ _ w w e [] (bind_raised _ _ _ _ _ _ He)).
  unfold ret. simpl. intros E Hd. inversion E; subst. discriminate.
Qed.

(** The workflow after an import that returned: the early return when
    nothing was created, the later stages otherwise. *)
Lemma workflow_after_import (a : WorkflowArgs.t) (w0 w1 : World P)
    (r1 : ToolResult.t ImportResults.t) (c1 : list Call) :
  bulk_user_import (Some (import_parameters a)) w0 = (Returned r1, w1, c1) ->
  (created_keys r1 = [] ->
   run_onboarding_workflow_body a w0 =
     (Returned (ToolResult.mk (text_only no_users_created) false
                  (Some (OnlyImport (ToolResult.data r1)))), w1, c1))
  /\ (forall d, ToolResult.data r1 = Some d -> created_keys r1 <> [] ->
      run_onboarding_workflow_body a w0 =
        after_calls c1
          (try_catch (after_import a d)
             (fun error =>
                ret (ToolResult.mk
                       (text_only ("Failed to complete onboarding workflow: "
                                   ++ errorText error)) true None)) w1)).
Proof.
  intros E. unfold run_onboarding_workflow_body, created_keys, createdUserIds. split.
  - intros Hnone. unfold try_catch. rewrite (bind_returned _ _ _ _ _ _ E).
    destruct (ToolResult.data r1) as [d|]; simpl.
    + destruct (ImportResults.success d); [|discriminate].
      unfold ret. simpl. now rewrite app_nil_r.
    + unfold ret. simpl. now rewrite app_nil_r.
  - intros d Hd Hsome. rewrite Hd in Hsome.
    unfold try_catch. rewrite (bind_returned _ _ _ _ _ _ E), Hd.
    destruct (ImportResults.success d) as [|x l] eqn:Es; [now elim Hsome|].
    destruct (after_import a d w1) as [[[r|e] w2] c2]; simpl; [reflexivity|].
    now rewrite app_assoc.
Qed.

(** C6.  After an import that returned [importResults]: if it created no
    user, the workflow returns at once, saying that no users were
    created, and issues no call beyond those of the import.  Otherwise
    every call issued after the import is about a user the import
    created; and, when no created id and no application id is empty,
    stage 2 (if a mapping is given) and stage 3 (if applications are
    given) each fetch exactly the created users, once each and in order. *)
Theorem C6_downstream_keys_are_created_keys (a : WorkflowArgs.t) (w0 w1 : World P)
    (importResults : ToolResult.t ImportResults.t) (c1 : list Call) :
  bulk_user_import (Some (import_parameters a)) w0 = (Returned importResults, w1, c1) ->
  (created_keys importResults = [] ->
   run_onboarding_workflow_body a w0 =
     (Returned (ToolResult.mk (text_only no_users_created) false
                  (Some (OnlyImport (ToolResult.data importResults)))), w1, c1))
  /\ exists c23,
       calls (run_onboarding_workflow_body a w0) = (c1 ++ c23)%list
       /\ (forall x, In x c23 ->
                     exists u, call_user x = Some u /\ In u (created_keys importResults))
       /\ (forallb JS.truthy (created_keys importResults) = true ->
           forallb JS.truthy (WorkflowArgs.applicationIds a) = true ->
           fetched c23 =
             ((if Nat.ltb 0 (List.length (WorkflowArgs.groupMappings a))
               then created_keys importResults else [])
              ++ (if Nat.ltb 0 (List.length (WorkflowArgs.applicationIds a))
                  then created_keys importResults else []))%list).
Proof.
  intros E. destruct (workflow_after_import a w0 w1 importResults c1 E) as [Hearly Hlater].
  split; [exact Hearly|].
  destruct (created_keys importResults) as [|k ks] eqn:Ek.
  - exists []. rewrite (Hearly eq_refl). unfold calls. simpl.
    split; [now rewrite app_nil_r|]. split; [intros x []|].
    intros _ _. now destruct (Nat.ltb _ _), (Nat.ltb _ _).
  - destruct (ToolResult.data importResults) as [d|] eqn:Hd;
      [|unfold created_keys in Ek; rewrite Hd in Ek; discriminate].
    assert (Hkeys : created_keys importResults = createdUserIds d)
      by (unfold created_keys; now rewrite Hd).
    exists (calls (after_import a d w1)).
    rewrite (Hlater d eq_refl) by discriminate.
    rewrite calls_after_calls, calls_try_catch.
    assert (Hh : match outcome (after_import a d w1) with
                 | Returned _ => []
                 | Raised e =>
                     calls (ret (P := P)
                              (ToolResult.mk (D := WorkflowData)
                                 (text_only ("Failed to complete onboarding workflow: "
                                             ++ errorText e)) true None)
                              (final (after_import a d w1)))
                 end = []) by (destruct (outcome (after_import a d w1)); reflexivity).
    rewrite Hh, app_nil_r. split; [reflexivity|].
    rewrite <- Ek, Hkeys. split.
    + apply after_import_about_created.
    + intros Hids Happs. apply after_import_fetches_created; [|exact Hids|exact Happs].
      exact (import_data_configured _ _ _ _ _ _ E Hd).
Qed.

(** The report the later stages compile, when they return one. *)
Lemma after_import_compiled (a : WorkflowArgs.t) (d : ImportResults.t) (w w' : World P)
    (r : ToolResult.t WorkflowData) (c : list Call) :
  after_import a d w = (Returned r, w', c) ->
  exists workflow,
    r = ToolResult.mk (text_only (workflow_summary a workflow)) false (Some (Compiled workflow))
    /\ (Nat.ltb 0 (List.length (WorkflowArgs.groupMappings a)) = false ->
        Workflow.groupAssignment workflow = AssignResults.mk [] [])
    /\ (Nat.ltb 0 (List.length (WorkflowArgs.applicationIds a)) = false ->
        Workflow.applicationProvisioning workflow = ProvisionResults.mk [] []).
Proof.
  unfold after_import.
  match goal with
  | |- bind ?m ?k w = _ -> _ =>
      destruct (m w) as [[[g|e] w2] c2] eqn:E2;
      [ rewrite (bind_returned m k w w2 g c2 E2)
      | rewrite (bind_raised m k w w2 e c2 E2); discriminate ]
  end.
  cbv beta.
  match goal with
  | |- after_calls _ (bind ?m ?k w2) = _ -> _ =>
      destruct (m w2) as [[[ap|e] w3] c3] eqn:E3;
      [ rewrite (bind_returned m k w2 w3 ap c3 E3)
      | rewrite (bind_raised m k w2 w3 e c3 E3); discriminate ]
  end.
  cbv beta.
  destruct g as [g|]; [|discriminate]. destruct ap as [ap|]; [|discriminate].
  unfold ret. simpl. intros E. inversion E; subst.
  eexists; split; [reflexivity|]. simpl. split.
  - intros H. rewrite H in E2. unfold ret in E2. now inversion E2.
  - intros H. rewrite H in E3. unfold ret in E3. now inversion E3.
Qed.

Lemma summary_marks_unmapped (a : WorkflowArgs.t) (workflow : Workflow.t) :
  Nat.ltb 0 (List.length (WorkflowArgs.groupMappings a)) = false ->
  JS.includes (workflow_summary a workflow) "• Group Assignment: Not configured" = true.
Proof.
  intros H. unfold workflow_summary. cbv zeta. rewrite H. cbv iota.
  repeat first [ solve [ apply includes_app_l; apply includes_self ] | apply includes_app_r ].
Qed.

Lemma summary_marks_unprovisioned (a : WorkflowArgs.t) (workflow : Workflow.t) :
  Nat.ltb 0 (List.length (WorkflowArgs.applicationIds a)) = false ->
  JS.includes (workflow_summary a workflow) "• Application Provisioning: Not configured" = true.
Proof.
  intros H. unfold workflow_summary. cbv zeta. rewrite H. cbv iota.
  repeat first [ solve [ apply includes_app_l; apply includes_self ] | apply includes_app_r ].
Qed.

Lemma ltb_length_nil {A : Type} (l : list A) : l = [] -> Nat.ltb 0 (List.length l) = false.
Proof. intros ->. reflexivity. Qed.

(** C10.  After an import that created at least one user: with an empty
    mapping the workflow issues, beyond the calls of the import, only the
    calls of stage 3 (none if no application is given); with an empty
    application list, only the calls of stage 2 (none if the mapping is
    empty); and a compiled report carries empty success and failure lists
    for a stage that is not configured, and its text says
    "Not configured" for that stage.  With neither configured the
    workflow compiles its report without any further call. *)
Theorem C10_unconfigured_stage_is_skipped (a : WorkflowArgs.t) (w0 w1 : World P)
    (importResults : ToolResult.t ImportResults.t) (d : ImportResults.t) (c1 : list Call) :
  bulk_user_import (Some (import_parameters a)) w0 = (Returned importResults, w1, c1) ->
  ToolResult.data importResults = Some d ->
  ImportResults.success d <> [] ->
  (WorkflowArgs.groupMappings a = [] ->
   calls (run_onboarding_workflow_body a w0) =
     (c1 ++ if Nat.ltb 0 (List.length (WorkflowArgs.applicationIds a))
            then calls (provision_applications
                          (Some (provision_parameters a (createdUserIds d))) w1)
            else [])%list)
  /\ (WorkflowArgs.applicationIds a = [] ->
      calls (run_onboarding_workflow_body a w0) =
        (c1 ++ if Nat.ltb 0 (List.length (WorkflowArgs.groupMappings a))
               then calls (assign_users_to_groups
                             (Some (assign_parameters a (createdUserIds d))) w1)
               else [])%list)
  /\ (forall t workflow,
        outcome (run_onboarding_workflow_body a w0) =
          Returned (ToolResult.mk (text_only t) false (Some (Compiled workflow))) ->
        (WorkflowArgs.groupMappings a = [] ->
         Workflow.groupAssignment workflow = AssignResults.mk [] []
         /\ JS.includes t "• Group Assignment: Not configured" = true)
        /\ (WorkflowArgs.applicationIds a = [] ->
            Workflow.applicationProvisioning workflow = ProvisionResults.mk [] []
            /\ JS.includes t "• Application Provisioning: Not configured" = true))
  /\ (WorkflowArgs.groupMappings a = [] -> WorkflowArgs.applicationIds a = [] ->
      exists workflow,
        run_onboarding_workflow_body a w0 =
          (Returned (ToolResult.mk (text_only (workflow_summary a workflow)) false
                       (Some (Compiled workflow))), w1, c1)
        /\ Workflow.groupAssignment workflow = AssignResults.mk [] []
        /\ Workflow.applicationProvisioning workflow = ProvisionResults.mk [] []).
Proof.
  intros E Hd Hsome.
  assert (Hkeys : created_keys importResults <> []).
  { unfold created_keys, createdUserIds. rewrite Hd.
    destruct (ImportResults.success d); [now elim Hsome | discriminate]. }
  pose proof (proj2 (workflow_after_import a w0 w1 importResults c1 E) d Hd Hkeys) as Hrun.
  assert (Hcalls : calls (run_onboarding_workflow_body a w0)
                   = (c1 ++ calls (after_import a d w1))%list).
  { rewrite Hrun, calls_after_calls, calls_try_catch.
    destruct (outcome (after_import a d w1)); simpl; now rewrite app_nil_r. }
  split; [|split; [|split]].
  - intros Hnil. rewrite Hcalls, after_import_calls, (ltb_length_nil _ Hnil). f_equal.
    unfold ret at 1 2 3. unfold calls at 1, outcome, final. simpl.
    destruct (Nat.ltb 0 (List.length (WorkflowArgs.applicationIds a))).
    + apply calls_then_data.
    + reflexivity.
  - intros Hnil. rewrite Hcalls, after_import_calls, (ltb_length_nil _ Hnil). f_equal.
    destruct (Nat.ltb 0 (List.length (WorkflowArgs.groupMappings a))).
    + rewrite calls_then_data.
      destruct (outcome _); simpl; now rewrite app_nil_r.
    + reflexivity.
  - intros t workflow H. rewrite Hrun, outcome_after_calls in H.
    unfold outcome, try_catch in H.
    destruct (after_import a d w1) as [[[r|e] w2] c2] eqn:Ea; simpl in H; [|discriminate].
    destruct (after_import_compiled a d w1 w2 r c2 Ea) as [wf [Hr [Hg Hp]]].
    rewrite Hr in H. inversion H; subst. split; intros Hnil; split.
    + now apply Hg, ltb_length_nil.
    + now apply summary_marks_unmapped, ltb_length_nil.
    + now apply Hp, ltb_length_nil.
    + now apply summary_marks_unprovisioned, ltb_length_nil.
  - intros Hg Hp. rewrite Hrun. unfold after_import, try_catch.
    rewrite (ltb_length_nil _ Hg), (ltb_length_nil _ Hp).
    unfold bind, ret. simpl. rewrite app_nil_r.
    eexists; split; [reflexivity|]. split; reflexivity.
Qed.

End WorkflowProperties.

(** The workflow on the demonstration data, with a mapping and an
    application: the import creates [new-0] and [new-1], and each of the two
    later stages fetches exactly these two users. *)
Lemma C6_workflow_demo :
  exists c23,
    calls (Onboarding.run_onboarding_workflow_body (P := Demo.platform)
             (Demo.workflow_args [ ("department", [ ("Engineering", "G1") ]) ] [ "app1" ]) 0)
    = (calls (Onboarding.bulk_user_import (P := Demo.platform)
                (Some (Onboarding.import_parameters
                         (Demo.workflow_args [ ("department", [ ("Engineering", "G1") ]) ]
                            [ "app1" ]))) 0) ++ c23)%list
    /\ (forall x, In x c23 ->
                  exists u, call_user x = Some u /\ In u [ "new-0"; "new-1" ])
    /\ fetched c23 = [ "new-0"; "new-1"; "new-0"; "new-1" ].
Proof.
  destruct (proj2 (C6_downstream_keys_are_created_keys (P := Demo.platform)
                     (Demo.workflow_args [ ("department", [ ("Engineering", "G1") ]) ]
                        [ "app1" ])
                     0 2 _ _ eq_refl)) as [c23 [Hcalls [Habout Hfetched]]].
  exists c23. split; [exact Hcalls|]. split; [exact Habout|].
  exact (Hfetched eq_refl eq_refl).
Defined.

(** The workflow on data without rows: nothing is created, and the
    workflow returns at once. *)
Example workflow_demo_nothing_created :
  Onboarding.run_onboarding_workflow_body (P := Demo.platform)
    (Onboarding.WorkflowArgs.mk "email,firstName,lastName" true []
       [ ("department", [ ("Engineering", "G1") ]) ] [ "app1" ] true) 0
  = (Returned
       (Onboarding.ToolResult.mk
          (Onboarding.text_only
             "No users were successfully created during the onboarding workflow.")
          false (Some (Onboarding.OnlyImport None))), 0, []).
Proof. reflexivity. Qed.

(** The workflow on the demonstration data, with neither a mapping nor an
    application: the report is compiled without a call beyond those of
    the import. *)
Lemma C10_workflow_demo :
  exists workflow,
    Onboarding.run_onboarding_workflow_body (P := Demo.platform) (Demo.workflow_args [] []) 0
    = (Returned
         (Onboarding.ToolResult.mk
            (Onboarding.text_only
               (Onboarding.workflow_summary (Demo.workflow_args [] []) workflow))
            false (Some (Onboarding.Compiled workflow))),
       2,
       calls (Onboarding.bulk_user_import (P := Demo.platform)
                (Some (Onboarding.import_parameters (Demo.workflow_args [] []))) 0))
    /\ Onboarding.Workflow.groupAssignment workflow = Onboarding.AssignResults.mk [] []
    /\ Onboarding.Workflow.applicationProvisioning workflow
       = Onboarding.ProvisionResults.mk [] [].
Proof.
  refine (proj2 (proj2 (proj2
            (C10_unconfigured_stage_is_skipped (P := Demo.platform)
               (Demo.workflow_args [] []) 0 2 _ _ _ eq_refl eq_refl _))) eq_refl eq_refl).
  discriminate.
Defined.

Example workflow_demo_not_configured :
  exists t workflow,
    outcome (Onboarding.run_onboarding_workflow_body (P := Demo.platform)
               (Demo.workflow_args [] []) 0)
    = Returned (Onboarding.ToolResult.mk (Onboarding.text_only t) false
                  (Some (Onboarding.Compiled workflow)))
    /\ JS.includes t "• Group Assignment: Not configured" = true
    /\ JS.includes t "• Application Provisioning: Not configured" = true.
Proof. do 2 eexists. split; [reflexivity|]. split; vm_compute; reflexivity. Qed.

(* ================================================================== *)
(** * Part III: further properties of the modelled code                *)
(* ================================================================== *)

(** ** Masking *)

Lemma string_snoc (r : string) :
  r <> EmptyString -> exists interior last, r = interior ++ String last EmptyString.
Proof.
  induction r as [|c r IH]; intros H; [now elim H|].
  destruct r as [|d r'].
  - exists EmptyString, c. reflexivity.
  - destruct IH as [interior [last E]]; [discriminate|].
    exists (String c interior), last. simpl. now rewrite <- E.
Qed.

Lemma length_snoc (s : string) (last : ascii) :
  String.length (s ++ String last EmptyString) = S (String.length s).
Proof. induction s as [|c r IH]; simpl; [reflexivity | now rewrite IH]. Qed.

Lemma get_snoc (s : string) (last : ascii) :
  String.get (String.length s) (s ++ String last EmptyString) = Some last.
Proof. induction s as [|c r IH]; simpl; [reflexivity | exact IH]. Qed.

Lemma get_repeat_star (n i : nat) :
  i < n -> String.get i (JS.repeat "*" n) = Some "*"%char.
Proof.
  revert i. induction n as [|n IH]; intros i H; [lia|].
  destruct i as [|i]; simpl; [reflexivity|]. apply IH. lia.
Qed.

(** X1.  [maskValue] gives three stars for a value of at most three
    characters.  For a longer value the result has the length of the
    value, shows its first and its last character, and has a star at
    every other position. *)
Theorem maskValue_keeps_length_and_ends (value : string) :
  (String.length value <= 3 -> Search.maskValue value = "***")
  /\ (3 < String.length value ->
      String.length (Search.maskValue value) = String.length value
      /\ String.get 0 (Search.maskValue value) = String.get 0 value
      /\ String.get (String.length value - 1) (Search.maskValue value)
         = String.get (String.length value - 1) value
      /\ forall i : nat,
           0 < i < String.length value - 1 ->
           String.get i (Search.maskValue value) = Some "*"%char).
Proof.
  split; [apply maskValue_short|].
  intros Hlen.
  destruct value as [|first r]; [simpl in Hlen; lia|].
  destruct (string_snoc r) as [interior [last E]].
  { intros ->. simpl in Hlen. lia. }
  subst r. simpl in Hlen. rewrite length_snoc in Hlen.
  rewrite maskValue_long by lia.
  cbn [String.length]. rewrite !length_snoc, length_repeat_star.
  replace (S (S (String.length interior)) - 1) with (S (String.length interior)) by lia.
  cbn [String.get].
  repeat split.
  - rewrite <- (length_repeat_star (String.length interior)) at 1.
    now rewrite !get_snoc.
  - intros i [Hi Hlt]. destruct i as [|i]; [lia|].
    rewrite <- append_correct1 by (rewrite length_repeat_star; lia).
    apply get_repeat_star. lia.
Qed.

(** X2.  [isPIIAttribute] recognises an attribute exactly when its
    lower-case form is [email], [login] or [manager]: the attribute is
    lower-cased before it is looked up, and these are the only names of
    the list that are written in lower case. *)
Theorem isPIIAttribute_recognises_three_names (attribute : string) :
  Search.isPIIAttribute attribute = true <->
  (JS.toLowerCase attribute = "email"
   \/ JS.toLowerCase attribute = "login"
   \/ JS.toLowerCase attribute = "manager").
Proof.
  rewrite isPIIAttribute_reach. unfold JS.array_includes. cbn [existsb].
  rewrite !orb_true_iff, !String.eqb_eq. intuition discriminate.
Qed.

(** ** The two candidate loops of the attribute search *)

Section SearchLoops.
Context {P : Platform}.
Import Search.

(** One iteration of the loop over the results of the formatted search:
    the candidate is fetched, and it is either left out or the fetched
    record, which has a profile and passes the status filter, is pushed. *)
Lemma filter_candidate_step (a : Args) (user : User.t) (m : list User.t) (w : World P) :
  exists m' w',
    filter_candidate a user m w = (Returned m', w', [ Call_getUser (User.id user) ])
    /\ (m' = m
        \/ exists fullUser,
             fst (userApi_getUser P (User.id user) w) = Returned (Some fullUser)
             /\ User.profile fullUser <> None
             /\ passes_status_filter a fullUser = true
             /\ m' = (m ++ [fullUser])%list).
Proof.
  unfold filter_candidate, try_catch, bind, getUser, request, ret, passes_status_filter.
  destruct (userApi_getUser P (User.id user) w) as [[[fullUser|]|e] w1]; simpl; eauto.
  destruct (User.profile fullUser) as [profile|] eqn:Ep; simpl; eauto.
  destruct (includeInactive a); simpl.
  - do 2 eexists; split; [reflexivity|]. right. exists fullUser.
    rewrite Ep. repeat split; congruence.
  - destruct (User.status fullUser =? "ACTIVE") eqn:Es; simpl; eauto.
    do 2 eexists; split; [reflexivity|]. right. exists fullUser.
    rewrite Ep. repeat split; congruence.
Qed.

(** One iteration of the verification loop: the same, and the record
    pushed meets the search criterion. *)
Lemma verify_candidate_step (a : Args) (user : User.t) (m : list User.t) (w : World P) :
  exists m' stop w',
    verify_candidate a user m w = (Returned (m', stop), w', [ Call_getUser (User.id user) ])
    /\ (m' = m
        \/ exists fullUser,
             fst (userApi_getUser P (User.id user) w) = Returned (Some fullUser)
             /\ User.profile fullUser <> None
             /\ passes_status_filter a fullUser = true
             /\ meets_criterion a fullUser = true
             /\ m' = (m ++ [fullUser])%list)
    /\ (stop = true -> limit_or_50 (limit a) <= List.length m').
Proof.
  unfold verify_candidate, try_catch, bind, getUser, request, ret.
  destruct (userApi_getUser P (User.id user) w) as [[[fullUser|]|e] w1]; simpl;
    try (do 3 eexists; split; [reflexivity|]; split; [now left | discriminate]).
  destruct (User.profile fullUser) as [profile|] eqn:Ep; simpl;
    try (do 3 eexists; split; [reflexivity|]; split; [now left | discriminate]).
  assert (Hstatus : negb (includeInactive a) && negb (User.status fullUser =? "ACTIVE") = false ->
                    passes_status_filter a fullUser = true).
  { unfold passes_status_filter.
    destruct (includeInactive a), (User.status fullUser =? "ACTIVE"); simpl; congruence. }
  destruct (negb (includeInactive a) && negb (User.status fullUser =? "ACTIVE")) eqn:Ef;
    simpl; [do 3 eexists; split; [reflexivity|]; split; [now left | discriminate]|].
  specialize (Hstatus eq_refl).
  assert (Hprofile : User.profile fullUser <> None) by congruence.
  destruct (operator a) eqn:Eop; cbv beta iota zeta.
  all: try (destruct (JS.truthy_opt (JS.lookup (attribute a) profile)) eqn:Et; simpl;
            [ do 3 eexists; split; [reflexivity|]; split; [|discriminate];
              right; exists fullUser; repeat split; try assumption;
              unfold meets_criterion, profile_get; now rewrite Eop, Ep
            | do 3 eexists; split; [reflexivity|]; split; [now left | discriminate] ]; fail).
  all: destruct (JS.lookup (attribute a) profile) as [v|] eqn:El;
    [|simpl; do 3 eexists; split; [reflexivity|]; split; [now left | discriminate]].
  all: match goal with
       | |- context [isMatch ?o ?x ?y] =>
           destruct (isMatch o x y) eqn:Em; simpl;
           [ | do 3 eexists; split; [reflexivity|]; split; [now left | discriminate] ]
       end.
  all: do 3 eexists; split; [reflexivity|]; split;
    [ right; exists fullUser; repeat split; try assumption;
      unfold meets_criterion, profile_get; now rewrite Eop, Ep, El
    | intros Hs; now apply Nat.leb_le in Hs ].
Qed.


(** The loop over the results of the formatted search: every candidate
    is fetched, and what is pushed keeps an invariant that pushing a
    fetched record with a profile that passes the status filter keeps. *)
Lemma filter_loop_run (a : Args) (I : list User.t -> Prop) :
  (forall m u, I m -> User.profile u <> None -> passes_status_filter a u = true ->
               I (m ++ [u])%list) ->
  forall (candidateUsers m : list User.t) (w : World P),
    I m ->
    exists r w',
      filter_loop a candidateUsers m w = (Returned r, w', candidate_fetches candidateUsers)
      /\ I r.
Proof.
  intros Hpush. unfold filter_loop.
  induction candidateUsers as [|user rest IH]; intros m w Hm; simpl.
  - unfold ret. eauto.
  - destruct (filter_candidate_step a user m w) as [m' [w' [E Hm']]].
    assert (HI : I m').
    { destruct Hm' as [->|[u [_ [Hp [Hs ->]]]]]; [exact Hm | now apply Hpush]. }
    destruct (IH m' w' HI) as [r [w2 [Er Hr]]].
    exists r, w2. split; [|exact Hr].
    unfold bind. rewrite E, Er. reflexivity.
Qed.

(** The verification loop: the candidates are fetched in order up to the
    one the loop stops at, and the loop stops before the last candidate
    only when the limit is reached. *)
Lemma verify_loop_run (a : Args) (I : list User.t -> Prop) :
  (forall m u, I m -> User.profile u <> None -> passes_status_filter a u = true ->
               meets_criterion a u = true -> I (m ++ [u])%list) ->
  forall (candidateUsers m : list User.t) (w : World P),
    I m ->
    exists r w' n,
      verify_loop a candidateUsers m w
      = (Returned r, w', candidate_fetches (firstn n candidateUsers))
      /\ I r
      /\ n <= List.length candidateUsers
      /\ (n < List.length candidateUsers -> limit_or_50 (limit a) <= List.length r).
Proof.
  intros Hpush.
  induction candidateUsers as [|user rest IH]; intros m w Hm; simpl.
  - exists m, w, 0. unfold ret. simpl. repeat split; [exact Hm | lia | lia].
  - destruct (verify_candidate_step a user m w) as [m' [stop [w' [E [Hm' Hstop]]]]].
    assert (HI : I m').
    { destruct Hm' as [->|[u [_ [Hp [Hs [Hc ->]]]]]]; [exact Hm | now apply Hpush]. }
    unfold bind. rewrite E. destruct stop.
    + exists m', w', 1. unfold ret. simpl.
      repeat split; [exact HI | lia | intros _; now apply Hstop].
    + destruct (IH m' w' HI) as [r [w2 [n [Er [Hr [Hn Hearly]]]]]].
      exists r, w2, (S n). rewrite Er. simpl.
      repeat split; [exact Hr | lia | intros H; apply Hearly; lia].
Qed.

(** X3.  Both candidate loops return, and every user they collect has a
    profile and, unless inactive users were asked for, the status
    [ACTIVE]. *)
Theorem inactive_users_are_left_out (a : Args) (candidateUsers : list User.t) (w : World P) :
  (exists r,
     outcome (filter_loop a candidateUsers [] w) = Returned r
     /\ Forall (fun u => User.profile u <> None
                         /\ (includeInactive a = false -> User.status u = "ACTIVE")) r)
  /\ (exists r,
        outcome (verify_loop a candidateUsers [] w) = Returned r
        /\ Forall (fun u => User.profile u <> None
                            /\ (includeInactive a = false -> User.status u = "ACTIVE")) r).
Proof.
  assert (Hstatus : forall u, passes_status_filter a u = true ->
                              includeInactive a = false -> User.status u = "ACTIVE").
  { unfold passes_status_filter. intros u H E. rewrite E in H. simpl in H.
    now apply String.eqb_eq. }
  split.
  - destruct (filter_loop_run a
                (Forall (fun u => User.profile u <> None
                                  /\ (includeInactive a = false -> User.status u = "ACTIVE"))))
      with (candidateUsers := candidateUsers) (m := @nil User.t) (w := w)
      as [r [w' [E Hr]]].
    + intros m u Hm Hp Hs. apply Forall_app. split; [exact Hm|].
      constructor; [|constructor]. split; [exact Hp | now apply Hstatus].
    + constructor.
    + exists r. rewrite E. split; [reflexivity | exact Hr].
  - destruct (verify_loop_run a
                (Forall (fun u => User.profile u <> None
                                  /\ (includeInactive a = false -> User.status u = "ACTIVE"))))
      with (candidateUsers := candidateUsers) (m := @nil User.t) (w := w)
      as [r [w' [n [E [Hr _]]]]].
    + intros m u Hm Hp Hs _. apply Forall_app. split; [exact Hm|].
      constructor; [|constructor]. split; [exact Hp | now apply Hstatus].
    + constructor.
    + exists r. rewrite E. split; [reflexivity | exact Hr].
Qed.


(** X5.  The loop over the results of the formatted search fetches every
    candidate once, in order.  The verification loop fetches the
    candidates in order up to the one it stops at, and it stops before
    the last candidate only when the number of users collected has
    reached the limit.  Neither loop issues any other call. *)
Theorem candidates_are_fetched_in_order (a : Args) (candidateUsers : list User.t)
    (w : World P) :
  calls (filter_loop a candidateUsers [] w) = candidate_fetches candidateUsers
  /\ exists (r : list User.t) (n : nat),
       outcome (verify_loop a candidateUsers [] w) = Returned r
       /\ calls (verify_loop a candidateUsers [] w)
          = candidate_fetches (firstn n candidateUsers)
       /\ n <= List.length candidateUsers
       /\ (n < List.length candidateUsers -> limit_or_50 (limit a) <= List.length r).
Proof.
  split.
  - destruct (filter_loop_run a (fun _ => True))
      with (candidateUsers := candidateUsers) (m := @nil User.t) (w := w)
      as [r [w' [E _]]]; [trivial | trivial |].
    rewrite E. reflexivity.
  - destruct (verify_loop_run a (fun _ => True))
      with (candidateUsers := candidateUsers) (m := @nil User.t) (w := w)
      as [r [w' [n [E [_ [Hn Hearly]]]]]]; [trivial | trivial |].
    exists r, n. rewrite E. repeat split; assumption.
Qed.


End SearchLoops.


(** ** The comparison of the verification pass *)

Lemma substring_all (s : string) : String.substring 0 (String.length s) s = s.
Proof. induction s as [|c s IH]; simpl; [reflexivity | now rewrite IH]. Qed.

Lemma prefix_self (s : string) : String.prefix s s = true.
Proof. apply String.prefix_correct, substring_all. Qed.

Lemma endsWith_self (s : string) : JS.endsWith s s = true.
Proof.
  unfold JS.endsWith. rewrite Nat.leb_refl, Nat.sub_diag, substring_all.
  apply String.eqb_refl.
Qed.

Lemma substring_includes (n : nat) (s t : string) :
  String.substring n (String.length t) s = t -> JS.includes s t = true.
Proof.
  revert s. induction n as [|n IH]; intros s H.
  - apply includes_prefix. now apply String.prefix_correct.
  - destruct s as [|c s].
    + simpl in H. subst t. reflexivity.
    + change (JS.includes (String c s) t) with (String.prefix t (String c s) || JS.includes s t).
      rewrite (IH s H). apply orb_true_r.
Qed.

(** X7.  The comparison of the verification pass ignores the case of
    both the attribute value and the search value.  A pair that matches
    under [eq] matches under [sw] and [ew], and a pair that matches under
    [sw] or [ew] matches under [co]; nothing matches under [pr], which
    the loop decides before the comparison. *)
Theorem isMatch_ignores_case (o : Search.Operator) (attributeValue value : string) :
  Search.isMatch o (JS.toLowerCase attributeValue) value = Search.isMatch o attributeValue value
  /\ Search.isMatch o attributeValue (JS.toLowerCase value)
     = Search.isMatch o attributeValue value
  /\ (Search.isMatch Search.op_eq attributeValue value = true ->
      Search.isMatch Search.op_sw attributeValue value = true
      /\ Search.isMatch Search.op_ew attributeValue value = true)
  /\ (Search.isMatch Search.op_sw attributeValue value = true
      \/ Search.isMatch Search.op_ew attributeValue value = true ->
      Search.isMatch Search.op_co attributeValue value = true)
  /\ Search.isMatch Search.op_pr attributeValue value = false.
Proof.
  unfold Search.isMatch. rewrite !toLowerCase_idempotent.
  repeat split.
  - apply String.eqb_eq in H. rewrite H. apply prefix_self.
  - apply String.eqb_eq in H. rewrite H. apply endsWith_self.
  - intros [H|H].
    + now apply includes_prefix.
    + unfold JS.endsWith in H. apply andb_true_iff in H. destruct H as [_ H].
      apply String.eqb_eq in H. now apply substring_includes in H.
Qed.

(** ** The arguments of the attribute search *)

(** An issue found on a field of the schema is an issue of the object. *)
Lemma parse_fields_issue (shape : Zod.ObjectSchema) (members : list (string * Zod.JSON))
    (field : string) (s : Zod.Schema) (i : Zod.Issue) :
  In (field, s) shape ->
  In i (fst (Zod.parse_value s [Zod.Key field] (JS.lookup field members))) ->
  In i (fst (Zod.parse_fields shape members)).
Proof.
  intros Hin Hi. induction shape as [|[k s'] shape IH]; [contradiction|].
  simpl.
  destruct (Zod.parse_value s' [Zod.Key k] (JS.lookup k members)) as [issues1 v] eqn:E1.
  destruct (Zod.parse_fields shape members) as [issues2 vs] eqn:E2. simpl.
  apply in_or_app. destruct Hin as [Heq|Hin].
  - inversion Heq; subst k s'. rewrite E1 in Hi. now left.
  - right. now apply IH.
Qed.

(** An object with an issue at a field is refused, and the message of the
    error names the field. *)
Lemma parse_refuses_issue (shape : Zod.ObjectSchema) (members : list (string * Zod.JSON))
    (field : string) (s : Zod.Schema) (i : Zod.Issue) :
  In (field, s) shape ->
  In i (fst (Zod.parse_value s [Zod.Key field] (JS.lookup field members))) ->
  Zod.path i = [Zod.Key field] ->
  exists message,
    Zod.parse shape (Some (Zod.JObj members)) = Raised (ErrorObj message)
    /\ JS.includes message field = true.
Proof.
  intros Hin Hi Hp.
  pose proof (parse_fields_issue shape members field s i Hin Hi) as Hissue.
  unfold Zod.parse, Zod.parse_object.
  destruct (Zod.parse_fields shape members) as [issues v]. simpl in Hissue.
  destruct issues as [|i0 issues]; [contradiction|].
  eexists; split; [reflexivity|].
  apply errorMessage_cites with (i := i); [exact Hissue|].
  rewrite Hp. left; reflexivity.
Qed.

Section SearchArguments.
Context {P : Platform}.
Import Search.

(** X8.  A request that gives only a non-empty [attribute] and a
    non-empty [value] is a search with the operator [eq], a limit of 50,
    and inactive users left out. *)
Theorem search_defaults (members : list (string * Zod.JSON)) (attribute value : string)
    (w : World P) :
  JS.lookup "attribute" members = Some (Zod.JStr attribute) ->
  JS.lookup "value" members = Some (Zod.JStr value) ->
  attribute <> EmptyString ->
  value <> EmptyString ->
  JS.lookup "operator" members = None ->
  JS.lookup "limit" members = None ->
  JS.lookup "includeInactive" members = None ->
  find_users_by_attribute (Some (Zod.JObj members)) w
  = find_users_by_attribute_body (mkArgs attribute value op_eq 50 false) w.
Proof.
  intros Ha Hv Hna Hnv Ho Hl Hi.
  assert (Hparse : Zod.parse userSchemas_getUserByAttribute (Some (Zod.JObj members))
                   = Returned [ ("attribute", Zod.JStr attribute);
                                ("value", Zod.JStr value);
                                ("operator", Zod.JStr "eq");
                                ("limit", Zod.JNum 50%Z);
                                ("includeInactive", Zod.JBool false) ]).
  { unfold Zod.parse, Zod.parse_object, userSchemas_getUserByAttribute.
    cbn [Zod.parse_fields]. rewrite Ha, Hv, Ho, Hl, Hi.
    destruct attribute as [|c1 r1]; [now elim Hna|].
    destruct value as [|c2 r2]; [now elim Hnv|].
    reflexivity. }
  unfold find_users_by_attribute, validated, bind, lift. rewrite Hparse.
  change (destructure [ ("attribute", Zod.JStr attribute);
                        ("value", Zod.JStr value);
                        ("operator", Zod.JStr "eq");
                        ("limit", Zod.JNum 50%Z);
                        ("includeInactive", Zod.JBool false) ])
    with (mkArgs attribute value op_eq 50 false).
  destruct (find_users_by_attribute_body (mkArgs attribute value op_eq 50 false) w)
    as [[r w'] c].
  reflexivity.
Qed.

(** X9.  A request whose [limit] is a number below 1 or above 200, or
    whose [operator] is a string that is none of the five operators, is
    refused before anything else is done: the handler raises the
    validator's error, whose message names the field, and the directory
    is not called. *)
Theorem search_refuses_limit_and_operator (members : list (string * Zod.JSON))
    (w : World P) :
  (forall n : Z,
     JS.lookup "limit" members = Some (Zod.JNum n) ->
     (n < 1 \/ 200 < n)%Z ->
     exists message,
       find_users_by_attribute (Some (Zod.JObj members)) w = (Raised (ErrorObj message), w, [])
       /\ JS.includes message "limit" = true)
  /\ (forall o : string,
        JS.lookup "operator" members = Some (Zod.JStr o) ->
        JS.array_includes [ "eq"; "sw"; "ew"; "co"; "pr" ] o = false ->
        exists message,
          find_users_by_attribute (Some (Zod.JObj members)) w
          = (Raised (ErrorObj message), w, [])
          /\ JS.includes message "operator" = true).
Proof.
  split.
  - intros n Hl Hn.
    assert (Hissue : exists i,
              In i (fst (Zod.parse_value
                           (Zod.ZDefault (Zod.ZOptional (Zod.ZNumber (Some 1%Z) (Some 200%Z)))
                              (Zod.JNum 50%Z))
                           [Zod.Key "limit"] (JS.lookup "limit" members)))
              /\ Zod.path i = [Zod.Key "limit"]).
    { rewrite Hl. cbn [Zod.parse_value].
      destruct Hn as [Hn|Hn].
      - rewrite (proj2 (Z.ltb_lt n 1) Hn). eexists; split; [left; reflexivity | reflexivity].
      - rewrite (proj2 (Z.ltb_lt 200 n) Hn), (proj2 (Z.ltb_ge n 1)) by lia.
        eexists; split; [left; reflexivity | reflexivity]. }
    destruct Hissue as [i [Hi Hp]].
    destruct (parse_refuses_issue userSchemas_getUserByAttribute members "limit"
                (Zod.ZDefault (Zod.ZOptional (Zod.ZNumber (Some 1%Z) (Some 200%Z)))
                   (Zod.JNum 50%Z)) i)
      as [message [Hparse Hcite]]; [simpl; tauto | exact Hi | exact Hp |].
    exists message. split; [|exact Hcite].
    unfold find_users_by_attribute, validated, bind, lift. rewrite Hparse. reflexivity.
  - intros o Ho Hn.
    assert (Hissue : exists i,
              In i (fst (Zod.parse_value
                           (Zod.ZDefault
                              (Zod.ZOptional (Zod.ZEnum [ "eq"; "sw"; "ew"; "co"; "pr" ]))
                              (Zod.JStr "eq"))
                           [Zod.Key "operator"] (JS.lookup "operator" members)))
              /\ Zod.path i = [Zod.Key "operator"]).
    { rewrite Ho. cbn [Zod.parse_value]. rewrite Hn.
      eexists; split; [left; reflexivity | reflexivity]. }
    destruct Hissue as [i [Hi Hp]].
    destruct (parse_refuses_issue userSchemas_getUserByAttribute members "operator"
                (Zod.ZDefault (Zod.ZOptional (Zod.ZEnum [ "eq"; "sw"; "ew"; "co"; "pr" ]))
                   (Zod.JStr "eq")) i)
      as [message [Hparse Hcite]]; [simpl; tauto | exact Hi | exact Hp |].
    exists message. split; [|exact Hcite].
    unfold find_users_by_attribute, validated, bind, lift. rewrite Hparse. reflexivity.
Qed.

End SearchArguments.

(** A search for the users of a department, with no other argument. *)
Lemma search_defaults_demo :
  Search.find_users_by_attribute (P := Demo.platform)
    (Some (Zod.JObj [ ("attribute", Zod.JStr "department");
                      ("value", Zod.JStr "Engineering") ])) 0
  = Search.find_users_by_attribute_body (P := Demo.platform)
      (Search.mkArgs "department" "Engineering" Search.op_eq 50 false) 0.
Proof.
  apply (search_defaults (P := Demo.platform)
           [ ("attribute", Zod.JStr "department"); ("value", Zod.JStr "Engineering") ]
           "department" "Engineering" 0);
    try reflexivity; discriminate.
Defined.

(** ** The attribute search as a whole *)

Section SearchHandler.
Context {P : Platform}.
Import Search.

Lemma getOktaClient_ready (w : World P) :
  configured P = true -> getOktaClient w = (Returned tt, w, []).
Proof.
  unfold configured, getOktaClient. intros H. apply andb_true_iff in H.
  destruct H as [H1 H2]. rewrite H1, H2. reflexivity.
Qed.

(** X10.  With the two environment variables set, the search answers
    with an error exactly when the listing that selects the candidates
    raises, and the text is then ["Search failed: "] followed by the
    message.  When the directory returns no collection the answer is the
    text ["No users data returned from Okta."], without error.
    Otherwise the answer is the report on the users collected, without
    error, and the calls that follow the listing are the fetches of the
    candidates that have an id, in order, up to the candidate the loop
    stops at: a fetch that fails never fails the search. *)
Theorem search_fails_only_with_the_listing (a : Args) (w : World P) :
  configured P = true ->
  match select_users a w with
  | (Raised e, w1, c1) =>
      find_users_by_attribute_body a w
      = (Returned (VResult (text_result ("Search failed: " ++ errorText e) true)), w1, c1)
  | (Returned (None, _), w1, c1) =>
      find_users_by_attribute_body a w
      = (Returned (VResult (text_result "No users data returned from Okta." false)), w1, c1)
  | (Returned (Some users, searchMethod), w1, c1) =>
      exists (matchingUsers : list User.t) (w2 : World P) (n : nat),
        find_users_by_attribute_body a w
        = (Returned
             (VResult (text_result (response_text (P := P) a searchMethod matchingUsers) false)),
           w2,
           (c1 ++ candidate_fetches
                    (firstn n (filter (fun user => JS.truthy (User.id user)) users)))%list)
  end.
Proof.
  intros Hc. unfold find_users_by_attribute_body, try_catch, bind.
  rewrite (getOktaClient_ready w Hc).
  destruct (select_users a w) as [[[[[users|] searchMethod]|e] w1] c1] eqn:Es; simpl.
  - set (candidateUsers := filter (fun user => JS.truthy (User.id user)) users).
    destruct (String.eqb searchMethod formatted_search).
    + destruct (filter_loop_run (P := P) a (fun _ => True))
        with (candidateUsers := candidateUsers) (m := @nil User.t) (w := w1)
        as [r [w2 [E _]]]; [trivial | trivial |].
      exists r, w2, (List.length candidateUsers).
      rewrite E, firstn_all. unfold ret. simpl. now rewrite app_nil_r.
    + destruct (verify_loop_run (P := P) a (fun _ => True))
        with (candidateUsers := candidateUsers) (m := @nil User.t) (w := w1)
        as [r [w2 [n [E _]]]]; [trivial | trivial |].
      exists r, w2, n.
      rewrite E. unfold ret. simpl. now rewrite app_nil_r.
  - unfold ret. simpl. now rewrite app_nil_r.
  - unfold ret. now rewrite app_nil_r.
Qed.

End SearchHandler.

(** The search on the demonstration directory, whose formatted search on
    [department] fails with a server error: the plain listing of 200
    users serves the search. *)
Lemma search_demo :
  exists (matchingUsers : list User.t) (w2 : nat) (n : nat),
    Search.find_users_by_attribute_body (P := Demo.platform)
      (Demo.search_args "department" "Engineering" Search.op_eq 5) 0
    = (Returned
         (VResult
            (text_result
               (Search.response_text (P := Demo.platform)
                  (Demo.search_args "department" "Engineering" Search.op_eq 5)
                  Search.client_side_filtering matchingUsers) false)),
       w2,
       ([ Call_listUsers
            (Search.searchParams (Demo.search_args "department" "Engineering" Search.op_eq 5));
          Call_listUsers Search.basicParams ]
        ++ candidate_fetches
             (firstn n (filter (fun user => JS.truthy (User.id user)) Demo.users)))%list).
Proof.
  exact (search_fails_only_with_the_listing (P := Demo.platform)
           (Demo.search_args "department" "Engineering" Search.op_eq 5) 0 eq_refl).
Defined.

(** ** The dispatcher and names the handler table inherits *)

Section InheritedNames.
Context {P : Platform}.

(** X11.  The dispatcher of [startServer] tests [toolName in HANDLERS],
    which also holds for a name the table only inherits.  For such a name
    the inherited function is called with the arguments of the request,
    and what it returns is returned as the result of the tool; when the
    inherited value is not a function the answer is the error result
    ["Error: HANDLERS[toolName] is not a function"].  In neither case is
    the name reported as an unknown tool. *)
Theorem inherited_names_are_dispatched (HANDLERS : HandlerTable P)
    (request : CallToolRequest) (w : World P) :
  JS.lookup (name request) (own HANDLERS) = None ->
  (forall (f : Handler P) (v : JSValue) (w1 : World P) (c : list Call),
     JS.lookup (name request) (inherited HANDLERS) = Some (Fn f) ->
     f (Some (Zod.JObj match arguments request with
                       | Some args => args
                       | None => []
                       end)) w = (Returned v, w1, c) ->
     callTool_startServer HANDLERS request w = (Returned v, w1, c))
  /\ (JS.lookup (name request) (inherited HANDLERS) = Some NotFn ->
      callTool_startServer HANDLERS request w
      = (Returned (VResult (text_result "Error: HANDLERS[toolName] is not a function" true)),
         w, []))
  /\ (JS.lookup (name request) (inherited HANDLERS) = None ->
      callTool_startServer HANDLERS request w
      = (Returned (VResult (text_result ("Error: Unknown tool: " ++ name request) true)),
         w, [])).
Proof.
  intros Hown. repeat split.
  - intros f v w1 c Hin Hf.
    unfold callTool_startServer, has_property, get_property, call_property, try_catch, bind, ret.
    rewrite Hown, Hin. simpl. rewrite Hf. now rewrite app_nil_r.
  - intros Hin.
    unfold callTool_startServer, has_property, get_property, call_property, try_catch, bind,
      throw, ret.
    rewrite Hown, Hin. reflexivity.
  - intros Hin.
    unfold callTool_startServer, has_property, get_property, call_property, try_catch, bind,
      throw, ret.
    rewrite Hown, Hin. reflexivity.
Qed.

End InheritedNames.

(** [toString] on the demonstration table, which inherits it. *)
Lemma inherited_toString_demo :
  callTool_startServer Demo.table (mkCallToolRequest "toString" None) 0
  = (Returned (VOther "[object Object]"), 0, []).
Proof.
  apply (proj1 (inherited_names_are_dispatched Demo.table
                  (mkCallToolRequest "toString" None) 0 eq_refl)
           (fun _ => ret (VOther "[object Object]")) (VOther "[object Object]") 0 []);
    reflexivity.
Defined.

(** ** The registry *)

Section Registry.
Context {P : Platform}.
Variable is_email : string -> bool.
Variable rest_of : string -> list (string * Zod.JSON) -> M P JSValue.
Variable prototype : list (string * Property P).

(** X12.  The tools that the server lists and the handlers it dispatches
    to go by the same names: a name has a handler of its own in
    [HANDLERS] exactly when [TOOLS] lists a tool of that name, and no two
    tools of [TOOLS] share a name. *)
Theorem listed_tools_are_the_dispatched_tools (tool : string) :
  (In tool (map fst Tools.TOOLS)
   <-> is_some (JS.lookup tool (own (Tools.HANDLERS is_email rest_of prototype))) = true)
  /\ NoDup (map fst Tools.TOOLS).
Proof.
  split; [split|].
  - intros Hin. simpl in Hin.
    repeat match type of Hin with
           | _ \/ _ => destruct Hin as [Hin|Hin]
           end;
      try contradiction; subst tool; reflexivity.
  - unfold Tools.HANDLERS, Tools.userHandlers, Tools.groupHandlers,
      Onboarding.onboardingHandlers.
    cbn [own JS.lookup app].
    repeat match goal with
           | |- context [String.eqb ?k tool] =>
               destruct (String.eqb k tool) eqn:E;
               [ apply String.eqb_eq in E; subst tool; intros _; simpl; tauto | clear E ]
           end.
    discriminate.
  - simpl.
    repeat (constructor; [simpl; intuition discriminate|]).
    constructor.
Qed.

End Registry.

(** ** Onboarding: the groups a mapping gives a user *)







(** ** Onboarding: the assignment of one user *)

Section AssignmentProperties.
Context {P : Platform}.
Import Onboarding.

(** The calls that assign a user to groups, in order: all of them, or
    those up to the first that fails. *)
Lemma assign_groups_run (userId : string) (groups assignedGroups : list string) (w : World P) :
  exists (n : nat) (o : Outcome (list string)) (w' : World P),
    assign_groups groups userId assignedGroups w
    = (o, w', map (fun groupId => Call_assignUserToGroup groupId userId) (firstn n groups))
    /\ n <= List.length groups
    /\ ((n = List.length groups /\ o = Returned (assignedGroups ++ groups)%list)
        \/ exists e : Thrown, 0 < n /\ o = Raised e).
Proof.
  unfold assign_groups.
  revert assignedGroups w. induction groups as [|g rest IH]; intros acc w.
  - exists 0, (Returned acc), w. simpl. unfold ret.
    repeat split; [lia|]. left. now rewrite app_nil_r.
  - cbn [for_of].
    destruct (groupApi_assignUserToGroup P g userId w) as [[[]|e] w1] eqn:Eg.
    + assert (E1 : (done <- assignUserToGroup g userId ;; ret (acc ++ [g])%list) w
                   = (Returned (acc ++ [g])%list, w1, [ Call_assignUserToGroup g userId ])).
      { unfold bind, assignUserToGroup, request, ret. rewrite Eg. reflexivity. }
      rewrite (bind_returned _ _ _ _ _ _ E1).
      destruct (IH (acc ++ [g])%list w1) as [n [o [w' [E [Hn Ho]]]]].
      exists (S n), o, w'. rewrite E. simpl.
      split; [reflexivity|]. split; [lia|].
      destruct Ho as [[-> ->]|[e [Hpos ->]]].
      * left. split; [reflexivity|]. now rewrite <- app_assoc.
      * right. exists e. split; [lia | reflexivity].
    + assert (E1 : (done <- assignUserToGroup g userId ;; ret (acc ++ [g])%list) w
                   = (Raised e, w1, [ Call_assignUserToGroup g userId ])).
      { unfold bind, assignUserToGroup, request, ret. rewrite Eg. reflexivity. }
      rewrite (bind_raised _ _ _ _ _ _ E1).
      exists 1, (Raised e), w1. simpl.
      split; [reflexivity|]. split; [lia|]. right. exists e. split; [lia | reflexivity].
Qed.

(** The run of [assign_user] for a user whose record is fetched with a
    profile. *)
Lemma assign_user_fetched (a : AssignArgs.t) (userId : string)
    (results : AssignResults.t) (w w1 : World P) (user : User.t) (profile : Profile) :
  userApi_getUser P userId w = (Returned (Some user), w1) ->
  User.profile user = Some profile ->
  exists (n : nat) (results' : AssignResults.t) (w' : World P),
    assign_user a userId results w
    = (Returned results', w',
       Call_getUser userId
       :: map (fun groupId => Call_assignUserToGroup groupId userId)
            (firstn n (groupsToAssign profile (AssignArgs.attributeMapping a) [])))
    /\ n <= List.length (groupsToAssign profile (AssignArgs.attributeMapping a) [])
    /\ ((n = List.length (groupsToAssign profile (AssignArgs.attributeMapping a) [])
         /\ results'
            = push_assigned results
                match groupsToAssign profile (AssignArgs.attributeMapping a) [] with
                | [] =>
                    Assigned.mk (Some userId) None (JS.lookup "email" profile) []
                      (Some "No group mappings matched user attributes")
                | groups =>
                    Assigned.mk None (Some userId) (JS.lookup "email" profile) groups None
                end)
        \/ exists e : Thrown,
             0 < n
             /\ results'
                = push_assign_failure results
                    (AssignFailure.mk None (Some userId) (errorText e))).
Proof.
  intros Hfetch Hprofile.
  assert (Hget : getUser userId w = (Returned (Some user), w1, [ Call_getUser userId ])).
  { unfold getUser, request. rewrite Hfetch. reflexivity. }
  unfold assign_user.
  destruct (groupsToAssign profile (AssignArgs.attributeMapping a) []) as [|g groups] eqn:Eg.
  - exists 0. do 2 eexists.
    erewrite try_catch_returned;
      [| rewrite (bind_returned _ _ _ _ _ _ Hget); rewrite Hprofile, Eg; reflexivity ].
    simpl. repeat split; [lia|]. now left.
  - destruct (assign_groups_run userId (g :: groups) [] w1) as [n [o [w' [E [Hn Ho]]]]].
    exists n.
    destruct Ho as [[-> ->]|[e [Hpos ->]]]; do 2 eexists.
    + erewrite try_catch_returned;
        [| rewrite (bind_returned _ _ _ _ _ _ Hget); rewrite Hprofile, Eg;
           rewrite (bind_returned _ _ _ _ _ _ E); reflexivity ].
      simpl. rewrite app_nil_r. split; [reflexivity|]. split; [exact Hn|]. left. now split.
    + erewrite try_catch_raised;
        [| rewrite (bind_returned _ _ _ _ _ _ Hget); rewrite Hprofile, Eg;
           rewrite (bind_raised _ _ _ _ _ _ E); reflexivity ].
      simpl. rewrite app_nil_r. split; [reflexivity|]. split; [exact Hn|].
      right. exists e. now split.
Qed.


(** Whatever happens to a user, one entry is added to the results. *)
Lemma assign_user_adds_one (a : AssignArgs.t) (userId : string) (results : AssignResults.t)
    (w : World P) (results' : AssignResults.t) (w' : World P) (c : list Call) :
  assign_user a userId results w = (Returned results', w', c) ->
  List.length (AssignResults.success results') + List.length (AssignResults.failed results')
  = S (List.length (AssignResults.success results)
       + List.length (AssignResults.failed results)).
Proof.
  destruct (userApi_getUser P userId w) as [[[user|]|e] w1] eqn:Hfetch.
  - destruct (User.profile user) as [profile|] eqn:Hprofile.
    + destruct (assign_user_fetched a userId results w w1 user profile Hfetch Hprofile)
        as [n [r [w2 [E [_ Hr]]]]].
      rewrite E. intros H. inversion H; subst.
      destruct Hr as [[_ ->]|[e [_ ->]]]; simpl; rewrite length_app; simpl; lia.
    + unfold assign_user, try_catch, bind, getUser, request, ret.
      rewrite Hfetch. simpl. rewrite Hprofile. simpl.
      intros H. inversion H; subst. simpl. rewrite length_app. simpl. lia.
  - unfold assign_user, try_catch, bind, getUser, request, ret.
    rewrite Hfetch. simpl.
    intros H. inversion H; subst. simpl. rewrite length_app. simpl. lia.
  - unfold assign_user, try_catch, bind, getUser, request, ret.
    rewrite Hfetch. simpl.
    intros H. inversion H; subst. simpl. rewrite length_app. simpl. lia.
Qed.

(** X15.  With the two environment variables set, [assign_users_to_groups]
    answers without error, whatever the directory does: every user id
    given yields exactly one entry, among the successes or among the
    failures, the users are fetched once each in the order given, and
    every call issued is about one of them. *)
Theorem every_user_gets_one_assignment_entry (a : AssignArgs.t) (w : World P) :
  configured P = true ->
  exists (results : AssignResults.t) (w' : World P) (c : list Call),
    assign_users_to_groups_body a w
    = (Returned
         (ToolResult.mk (text_only (assign_summary (AssignArgs.userIds a) results)) false
            (Some results)), w', c)
    /\ List.length (AssignResults.success results) + List.length (AssignResults.failed results)
       = List.length (AssignArgs.userIds a)
    /\ fetched c = AssignArgs.userIds a
    /\ (forall x, In x c -> exists u, call_user x = Some u /\ In u (AssignArgs.userIds a)).
Proof.
  intros Hc.
  destruct (assign_users_returns a (AssignArgs.userIds a) (AssignResults.mk [] []) w)
    as [results [w' [c [E [Hf Habout]]]]].
  exists results, w', c.
  split; [|split; [|split; [exact Hf | exact Habout]]].
  - unfold assign_users_to_groups_body.
    erewrite try_catch_returned; [reflexivity|].
    rewrite (bind_returned _ _ _ _ _ _ (getOktaClient_ready w Hc)).
    rewrite (bind_returned _ _ _ _ _ _ E). unfold ret. simpl. now rewrite app_nil_r.
  - unfold assign_users in E.
    apply (for_of_counts (assign_user a)
             (fun r => List.length (AssignResults.success r)
                       + List.length (AssignResults.failed r))) in E.
    + exact E.
    + intros x s0 w0 s' w0' c0. apply assign_user_adds_one.
Qed.

End AssignmentProperties.


(** The group assignment of three users of the demonstration directory,
    one of whom cannot be fetched. *)
Lemma assignment_entries_demo :
  exists (results : Onboarding.AssignResults.t) (w' : nat) (c : list Call),
    Onboarding.assign_users_to_groups_body (P := Demo.platform)
      (Onboarding.AssignArgs.mk [ "u1"; "ghost"; "u3" ]
         [ ("department", [ ("Engineering", "G1") ]) ]) 0
    = (Returned
         (Onboarding.ToolResult.mk
            (Onboarding.text_only
               (Onboarding.assign_summary [ "u1"; "ghost"; "u3" ] results))
            false (Some results)), w', c)
    /\ List.length (Onboarding.AssignResults.success results)
       + List.length (Onboarding.AssignResults.failed results) = 3
    /\ fetched c = [ "u1"; "ghost"; "u3" ]
    /\ (forall x, In x c ->
                  exists u, call_user x = Some u /\ In u [ "u1"; "ghost"; "u3" ]).
Proof.
  exact (every_user_gets_one_assignment_entry (P := Demo.platform)
           (Onboarding.AssignArgs.mk [ "u1"; "ghost"; "u3" ]
              [ ("department", [ ("Engineering", "G1") ]) ]) 0 eq_refl).
Defined.

(** ** Onboarding: the import as a whole *)

Section ImportAnswer.
Context {P : Platform}.
Import Onboarding.

Lemma for_of_calls_within {A T : Type} (body : A -> T -> M P T) (Q : Call -> Prop)
    (l : list A) :
  (forall x s w c, In x l -> In c (calls (body x s w)) -> Q c) ->
  forall s w c, In c (calls (for_of body l s w)) -> Q c.
Proof.
  induction l as [|x l IH]; intros H s0 w c; simpl.
  - unfold ret, calls. simpl. contradiction.
  - rewrite calls_bind, in_app_iff. intros [Hc|Hc].
    + apply (H x s0 w c); [now left | exact Hc].
    + destruct (outcome (body x s0 w)) as [s1|e]; [|contradiction].
      apply (IH (fun y s2 w2 c2 Hy => H y s2 w2 c2 (or_intror Hy)) _ _ _ Hc).
Qed.

Lemma assign_default_groups_calls (defaultGroups : list string) (userId : string)
    (w : World P) (c : Call) :
  In c (calls (assign_default_groups defaultGroups userId w)) ->
  exists groupId, In groupId defaultGroups /\ c = Call_assignUserToGroup groupId userId.
Proof.
  unfold assign_default_groups. intros H.
  apply (for_of_calls (fun groupId (_ : unit) => assignUserToGroup groupId userId)
           (fun groupId c => c = Call_assignUserToGroup groupId userId)) in H.
  - destruct H as [groupId [Hin ->]]. now exists groupId.
  - intros x s0 w0 c0. unfold assignUserToGroup, request, calls.
    destruct (groupApi_assignUserToGroup P x userId w0). simpl. intuition.
Qed.

Lemma create_and_assign_calls (a : ImportArgs.t) (users : list Row) (userData : Row)
    (w : World P) (c : Call) :
  In userData users ->
  lacks_required userData = false ->
  In c (calls (create_and_assign a userData w)) ->
  import_call a users c.
Proof.
  intros Hin Hreq. unfold create_and_assign.
  rewrite calls_bind. rewrite in_app_iff. intros [H|H].
  - unfold createUser, request, calls in H.
    destruct (userApi_createUser P (newUser userData) w). simpl in H.
    destruct H as [<-|[]]. simpl. now exists userData.
  - destruct (outcome (createUser (newUser userData) w)) as [createdUser|e]; [|contradiction].
    rewrite calls_bind, in_app_iff in H. destruct H as [H|H].
    + destruct (ImportArgs.activateUsers a) eqn:Ea; [|contradiction].
      destruct (JS.truthy (User.id createdUser)); [|contradiction].
      unfold activateUser, request, calls in H. simpl in H.
      match type of H with
      | context [userApi_activateUser P ?u ?b ?w0] =>
          destruct (userApi_activateUser P u b w0)
      end.
      simpl in H. destruct H as [<-|[]]. simpl. now split.
    + match type of H with
      | In c match ?o with _ => _ end => destruct o as [activated|e]; [|contradiction]
      end.
      rewrite calls_bind, in_app_iff in H. destruct H as [H|H].
      * match type of H with
        | In c (calls ((if ?b then _ else _) _)) => destruct b; [|contradiction]
        end.
        apply assign_default_groups_calls in H. destruct H as [groupId [Hg ->]]. exact Hg.
      * match type of H with
        | In c match ?o with _ => _ end => destruct o; contradiction
        end.
Qed.

Lemma import_row_calls (a : ImportArgs.t) (users : list Row) (userData : Row)
    (results : ImportResults.t) (w : World P) (c : Call) :
  In userData users ->
  In c (calls (import_row a userData results w)) ->
  import_call a users c.
Proof.
  intros Hin. unfold import_row. rewrite calls_try_catch.
  destruct (lacks_required userData) eqn:Hreq.
  - unfold ret, calls, outcome. simpl. contradiction.
  - rewrite in_app_iff. intros [H|H].
    + rewrite calls_bind, in_app_iff in H. destruct H as [H|H].
      * now apply (create_and_assign_calls a users userData w c Hin Hreq).
      * destruct (outcome (create_and_assign a userData w)); contradiction.
    + match type of H with
      | In c match ?o with _ => _ end => destruct o; contradiction
      end.
Qed.

(** X16.  With the two environment variables set, the answer of
    [bulk_user_import].  Data without rows is answered with the error
    ["No valid users found in CSV data."], without any call.  Otherwise
    the answer is the summary, without error, with one entry per row
    among the successes and the failures; and the only calls issued are
    the creation of the user of a row that has its required columns, an
    activation (only when activation is asked for, with the [sendEmail]
    given) and the assignment to a default group: the import never
    fetches or lists users, and never touches an application. *)
Theorem import_answer (a : ImportArgs.t) (w : World P) :
  configured P = true ->
  match Papa_parse P (ImportArgs.csvData a) with
  | [] =>
      bulk_user_import_body a w
      = (Returned (ToolResult.mk (text_only "No valid users found in CSV data.") true None),
         w, [])
  | users =>
      exists (results : ImportResults.t) (w' : World P) (c : list Call),
        bulk_user_import_body a w
        = (Returned
             (ToolResult.mk (text_only (import_summary users results)) false (Some results)),
           w', c)
        /\ List.length (ImportResults.success results)
           + List.length (ImportResults.failed results) = List.length users
        /\ forall x : Call, In x c -> import_call a users x
  end.
Proof.
  intros Hc. unfold bulk_user_import_body.
  destruct (Papa_parse P (ImportArgs.csvData a)) as [|row rows] eqn:Ep.
  - erewrite try_catch_returned; [reflexivity|].
    rewrite (bind_returned _ _ _ _ _ _ (getOktaClient_ready w Hc)). reflexivity.
  - destruct (import_rows_returns a (row :: rows) (ImportResults.mk [] []) w)
      as [results [w' [c [E [Hcount _]]]]].
    exists results, w', c. split; [|split].
    + erewrite try_catch_returned; [reflexivity|].
      rewrite (bind_returned _ _ _ _ _ _ (getOktaClient_ready w Hc)).
      rewrite (bind_returned _ _ _ _ _ _ E). unfold ret. simpl. now rewrite app_nil_r.
    + exact Hcount.
    + intros x Hx.
      assert (Hcalls : In x (calls (import_rows a (row :: rows) (ImportResults.mk [] []) w)))
        by (rewrite E; exact Hx).
      unfold import_rows in Hcalls.
      apply (for_of_calls_within (import_row a) (import_call a (row :: rows)) (row :: rows))
        with (s := ImportResults.mk [] []) (w := w); [|exact Hcalls].
      intros userData s0 w0 c0 Hin. now apply import_row_calls.
Qed.

End ImportAnswer.

(** The import of the demonstration data. *)
Lemma import_answer_demo :
  exists (results : Onboarding.ImportResults.t) (w' : nat) (c : list Call),
    Onboarding.bulk_user_import_body (P := Demo.platform)
      (Onboarding.ImportArgs.mk Demo.csv true true [ "G0" ]) 0
    = (Returned
         (Onboarding.ToolResult.mk
            (Onboarding.text_only (Onboarding.import_summary Demo.rows results))
            false (Some results)), w', c)
    /\ List.length (Onboarding.ImportResults.success results)
       + List.length (Onboarding.ImportResults.failed results) = 4
    /\ forall x : Call,
         In x c ->
         import_call (Onboarding.ImportArgs.mk Demo.csv true true [ "G0" ]) Demo.rows x.
Proof.
  exact (import_answer (P := Demo.platform)
           (Onboarding.ImportArgs.mk Demo.csv true true [ "G0" ]) 0 eq_refl).
Defined.

Section ImportFailures.
Context {P : Platform}.
Import Onboarding.

(** X17.  The import does not undo a creation.  When the user of a row
    is created and the activation that follows fails, the row is
    recorded among the failures with the message of the activation,
    the user stays created, and nothing more is done for the row: the
    calls are the creation and the activation. *)
Theorem failed_activation_leaves_the_user_created (a : ImportArgs.t) (userData : Row)
    (results : ImportResults.t) (w w1 w2 : World P) (createdUser : User.t) (e : Thrown) :
  lacks_required userData = false ->
  userApi_createUser P (newUser userData) w = (Returned createdUser, w1) ->
  ImportArgs.activateUsers a = true ->
  JS.truthy (User.id createdUser) = true ->
  userApi_activateUser P (User.id createdUser) (ImportArgs.sendEmail a) w1 = (Raised e, w2) ->
  import_row a userData results w
  = (Returned
       (push_import_failure results
          {| ImportFailure.email := JS.or_else (JS.lookup "email" userData) "Unknown";
             ImportFailure.reason := errorText e |}),
     w2,
     [ Call_createUser (newUser userData);
       Call_activateUser (User.id createdUser) (ImportArgs.sendEmail a) ]).
Proof.
  intros Hreq Hcreate Hact Hid Hfail.
  apply import_row_raised; [exact Hreq|].
  unfold create_and_assign, bind, createUser, activateUser, request.
  rewrite Hcreate, Hact, Hid. simpl. rewrite Hfail. reflexivity.
Qed.

End ImportFailures.

(** The first row of the demonstration data, on the directory that
    activates no user. *)
Lemma failed_activation_demo :
  Onboarding.import_row (P := Outage.platform)
    (Onboarding.ImportArgs.mk Demo.csv true true []) (nth 0 Demo.rows [])
    (Onboarding.ImportResults.mk [] []) 0
  = (Returned
       (Onboarding.push_import_failure (Onboarding.ImportResults.mk [] [])
          (Onboarding.ImportFailure.mk "ann@example.com" "Activation is not allowed")),
     1,
     [ Call_createUser (Onboarding.newUser (nth 0 Demo.rows []));
       Call_activateUser "new-0" true ]).
Proof.
  exact (failed_activation_leaves_the_user_created (P := Outage.platform)
           (Onboarding.ImportArgs.mk Demo.csv true true []) (nth 0 Demo.rows [])
           (Onboarding.ImportResults.mk [] []) 0 1 1
           (User.mk "new-0" "STAGED" (Some (Onboarding.newUser (nth 0 Demo.rows []))) None)
           (ErrorObj "Activation is not allowed")
           eq_refl eq_refl eq_refl eq_refl eq_refl).
Defined.

(** ** Onboarding: the report of the provisioning *)

Section ProvisioningReport.
Context {P : Platform}.
Import Onboarding.

Lemma failed_lines_raises (i : nat) (failed : list Provisioned.t) (x : Provisioned.t) :
  In x failed ->
  Provisioned.applications x = None ->
  failed_lines i failed
  = Raised (ErrorObj "Cannot read properties of undefined (reading 'filter')").
Proof.
  revert i. induction failed as [|user rest IH]; intros i Hin Hx; [contradiction|].
  simpl. destruct Hin as [->|Hin].
  - now rewrite Hx.
  - destruct (Provisioned.applications user); [|reflexivity].
    now rewrite (IH (S i) Hin Hx).
Qed.

Lemma provision_user_keeps_failed (a : ProvisionArgs.t) (userId : string)
    (results results' : ProvisionResults.t) (w w' : World P) (c : list Call)
    (x : Provisioned.t) :
  provision_user a userId results w = (Returned results', w', c) ->
  In x (ProvisionResults.failed results) ->
  In x (ProvisionResults.failed results').
Proof.
  intros E Hin.
  destruct (userApi_getUser P userId w) as [[user|e] w1] eqn:Hfetch.
  - destruct (match user with Some u => User.profile u | None => None end) eqn:Hprofile.
    + destruct user as [user|]; [|discriminate].
      destruct (provision_user_fetched a userId results w w1 user p Hfetch Hprofile)
        as [subs [w2 [E' _]]].
      rewrite E' in E. inversion E; subst.
      destruct (existsb failed_grant subs); simpl; [|exact Hin].
      apply in_or_app. now left.
    + rewrite (provision_user_unavailable a userId results w w1 user Hfetch Hprofile) in E.
      inversion E; subst. simpl. apply in_or_app. now left.
  - rewrite (provision_user_fetch_raised a userId results w w1 e Hfetch) in E.
    inversion E; subst. simpl. apply in_or_app. now left.
Qed.

(** X18.  A user whose record comes back without a profile (or does not
    come back) fails the report of the provisioning as a whole: the
    entry recorded for the user has no [applications], the summary reads
    [user.applications.filter] on every failed entry, and the handler
    answers with the error
    ["Failed to provision applications: Cannot read properties of
    undefined (reading 'filter')"] and no data, although every user was
    processed. *)
Theorem unavailable_user_fails_the_provisioning_report (a : ProvisionArgs.t)
    (before rest : list string) (userId : string) (w w1 w2 : World P)
    (results1 : ProvisionResults.t) (c1 : list Call) (user : option User.t) :
  configured P = true ->
  ProvisionArgs.userIds a = (before ++ userId :: rest)%list ->
  provision_users a before (ProvisionResults.mk [] []) w = (Returned results1, w1, c1) ->
  userApi_getUser P userId w1 = (Returned user, w2) ->
  match user with Some u => User.profile u | None => None end = None ->
  exists (w' : World P) (c : list Call),
    provision_applications_body a w
    = (Returned
         (ToolResult.mk
            (text_only
               "Failed to provision applications: Cannot read properties of undefined (reading 'filter')")
            true None), w', c)
    /\ fetched c = ProvisionArgs.userIds a.
Proof.
  intros Hc Hids Hbefore Hfetch Hprofile.
  destruct (provision_users_returns a (ProvisionArgs.userIds a) (ProvisionResults.mk [] []) w)
    as [results [w' [c [E [_ [Hf _]]]]]].
  exists w', c. split; [|exact Hf].
  assert (Hin : In (Provisioned.mk userId None (Some profile_unavailable) None)
                   (ProvisionResults.failed results)).
  { pose proof E as E0. rewrite Hids in E0. unfold provision_users in E0, Hbefore.
    rewrite (for_of_app _ _ _ _ _ _ _ _ Hbefore) in E0. cbn [for_of] in E0.
    rewrite (bind_returned _ _ _ _ _ _
               (provision_user_unavailable a userId results1 w1 w2 user Hfetch Hprofile))
      in E0.
    destruct (for_of (provision_user a) rest
                (push_provision_failure results1
                   (Provisioned.mk userId None (Some profile_unavailable) None)) w2)
      as [[o w3] c3] eqn:Erest.
    simpl in E0. inversion E0; subst o.
    apply (for_of_preserves (provision_user a)
             (fun r => In (Provisioned.mk userId None (Some profile_unavailable) None)
                          (ProvisionResults.failed r))) in Erest.
    - exact Erest.
    - intros x s0 w0 s' w0' c0 Hstep H0.
      now apply (provision_user_keeps_failed a x s0 s' w0 w0' c0).
    - simpl. apply in_or_app. right. now left. }
  assert (Hsummary : provision_summary a results
                     = Raised (ErrorObj "Cannot read properties of undefined (reading 'filter')")).
  { unfold provision_summary.
    destruct (ProvisionResults.failed results) as [|y l] eqn:Ef; [contradiction|].
    cbv zeta. cbn [List.length Nat.ltb Nat.leb].
    now rewrite (failed_lines_raises 0 (y :: l) _ Hin eq_refl). }
  unfold provision_applications_body.
  erewrite try_catch_raised;
    [| rewrite (bind_returned _ _ _ _ _ _ (getOktaClient_ready w Hc));
       rewrite (bind_returned _ _ _ _ _ _ E);
       unfold lift, bind; rewrite Hsummary; reflexivity ].
  unfold ret. simpl. now rewrite !app_nil_r.
Qed.

End ProvisioningReport.

(** The provisioning of [u1] and of [stub], whose record has no profile. *)
Lemma provisioning_report_demo :
  exists (w' : nat) (c : list Call),
    Onboarding.provision_applications_body (P := Outage.platform)
      (Onboarding.ProvisionArgs.mk [ "u1"; "stub" ] [ "app1" ]) 0
    = (Returned
         (Onboarding.ToolResult.mk
            (Onboarding.text_only
               "Failed to provision applications: Cannot read properties of undefined (reading 'filter')")
            true None), w', c)
    /\ fetched c = [ "u1"; "stub" ].
Proof.
  apply (unavailable_user_fails_the_provisioning_report (P := Outage.platform)
           (Onboarding.ProvisionArgs.mk [ "u1"; "stub" ] [ "app1" ])
           [ "u1" ] [] "stub" 0 0 0
           (Onboarding.ProvisionResults.mk
              [ Onboarding.Provisioned.mk "u1" (Some "alice@example.com") None
                  (Some [ Onboarding.AppResult.mk "app1" "assigned" None ]) ] [])
           [ Call_getUser "u1"; Call_assignUserToApplication "app1" "u1" ]
           (Some (User.mk "stub" "ACTIVE" None None)));
    reflexivity.
Defined.

(** ** Onboarding: the workflow and the import it starts *)

Section WorkflowImport.
Context {P : Platform}.
Import Onboarding.

(** The arguments the workflow builds for the import are accepted when
    the data is not empty, and they are destructured into what they were
    built from. *)
Lemma parse_import_parameters (a : WorkflowArgs.t) :
  WorkflowArgs.csvData a <> EmptyString ->
  exists v,
    Zod.parse onboardingSchemas_bulkUserImport (Some (import_parameters a)) = Returned v
    /\ destructure_import v
       = ImportArgs.mk (WorkflowArgs.csvData a) (WorkflowArgs.activateUsers a)
           (WorkflowArgs.sendWelcomeEmail a) (WorkflowArgs.defaultGroups a).
Proof.
  intros Hcsv.
  unfold Zod.parse, Zod.parse_object, import_parameters, onboardingSchemas_bulkUserImport,
    strings.
  simpl.
  destruct (WorkflowArgs.csvData a) as [|c0 r0] eqn:Ecsv; [now elim Hcsv|].
  simpl.
  destruct (parse_items_strings None [Zod.Key "defaultGroups"] 0 (WorkflowArgs.defaultGroups a))
    as [Hsame Hvalid].
  destruct (Zod.parse_items _ _ 0 (map Zod.JStr (WorkflowArgs.defaultGroups a)))
    as [issues vs] eqn:E.
  simpl in *.
  rewrite Hvalid in * by (intros n msg Heq; discriminate).
  rewrite (Hsame eq_refl). simpl.
  eexists; split; [reflexivity|].
  unfold destructure_import, get_string, get_bool, get_strings. simpl.
  now rewrite strings_of_strings.
Qed.

(** The import the workflow starts is the import of its own arguments. *)
Lemma workflow_import (a : WorkflowArgs.t) (w : World P) :
  WorkflowArgs.csvData a <> EmptyString ->
  bulk_user_import (Some (import_parameters a)) w
  = bulk_user_import_body
      (ImportArgs.mk (WorkflowArgs.csvData a) (WorkflowArgs.activateUsers a)
         (WorkflowArgs.sendWelcomeEmail a) (WorkflowArgs.defaultGroups a)) w.
Proof.
  intros Hcsv. destruct (parse_import_parameters a Hcsv) as [v [Hparse Hv]].
  unfold bulk_user_import, bind, lift. rewrite Hparse, Hv.
  destruct (bulk_user_import_body _ w) as [[r w'] c]. reflexivity.
Qed.

(** X19.  The workflow does not report a failed import as a failure.
    When an environment variable is missing, the import it starts
    answers with an error and no data, and the workflow answers, without
    error, that no users were successfully created; the same answer is
    given when the data has no rows.  No directory call is issued in
    either case. *)
Theorem workflow_hides_a_failed_import (a : WorkflowArgs.t) (w : World P) :
  WorkflowArgs.csvData a <> EmptyString ->
  configured P = false \/ Papa_parse P (WorkflowArgs.csvData a) = [] ->
  exists t : string,
    bulk_user_import (Some (import_parameters a)) w
    = (Returned (ToolResult.mk (text_only t) true None), w, [])
    /\ run_onboarding_workflow_body a w
       = (Returned
            (ToolResult.mk (text_only no_users_created) false (Some (OnlyImport None))),
          w, []).
Proof.
  intros Hcsv Hwhy.
  assert (Himport : exists t : string,
            bulk_user_import (Some (import_parameters a)) w
            = (Returned (ToolResult.mk (text_only t) true None), w, [])).
  { rewrite (workflow_import a w Hcsv). unfold bulk_user_import_body.
    destruct (configured P) eqn:Hc.
    - destruct Hwhy as [Hwhy|Hrows]; [discriminate|].
      eexists. erewrite try_catch_returned; [reflexivity|].
      rewrite (bind_returned _ _ _ _ _ _ (getOktaClient_ready w Hc)).
      cbn [ImportArgs.csvData]. rewrite Hrows. reflexivity.
    - destruct (getOktaClient_unconfigured w Hc) as [e He].
      eexists. erewrite try_catch_raised; [|rewrite (bind_raised _ _ _ _ _ _ He); reflexivity].
      reflexivity. }
  destruct Himport as [t Himport]. exists t. split; [exact Himport|].
  exact (proj1 (workflow_after_import a w w _ [] Himport) eq_refl).
Qed.

End WorkflowImport.

(** The workflow on the demonstration data, from a process whose
    environment lacks [OKTA_ORG_URL]. *)
Lemma workflow_offline_demo :
  exists t : string,
    Onboarding.bulk_user_import (P := Outage.offline)
      (Some (Onboarding.import_parameters (Demo.workflow_args [] [ "app1" ]))) 0
    = (Returned (Onboarding.ToolResult.mk (Onboarding.text_only t) true None), 0, [])
    /\ Onboarding.run_onboarding_workflow_body (P := Outage.offline)
         (Demo.workflow_args [] [ "app1" ]) 0
       = (Returned
            (Onboarding.ToolResult.mk (Onboarding.text_only Onboarding.no_users_created)
               false (Some (Onboarding.OnlyImport None))), 0, []).
Proof.
  apply (workflow_hides_a_failed_import (P := Outage.offline)
           (Demo.workflow_args [] [ "app1" ]) 0).
  - discriminate.
  - left. reflexivity.
Defined.

(** ** Onboarding: the summary of the group assignment *)

Lemma includes_cons (c : ascii) (s t : string) :
  JS.includes s t = true -> JS.includes (String c s) t = true.
Proof.
  intros H.
  change (JS.includes (String c s) t) with (String.prefix t (String c s) || JS.includes s t).
  rewrite H. apply orb_true_r.
Qed.

Lemma In_mapi_from {A B : Type} (f : nat -> A -> B) (k : nat) (l : list A) (x : A) :
  In x l -> exists i, In (f i x) (JS.mapi_from f k l).
Proof.
  revert k. induction l as [|y l IH]; intros k Hin; [contradiction|].
  destruct Hin as [->|Hin].
  - exists k. now left.
  - destruct (IH (S k) Hin) as [i Hi]. exists i. now right.
Qed.

Section AssignmentSummary.
Context {P : Platform}.
Import Onboarding.

(** X20.  A user whose fetch (or whose assignment to a group) raises is
    recorded under the member [id], while the summary prints the member
    [userId] of every failed entry: the line of such a user reads
    ["User ID: undefined - "] followed by the message, and does not name
    the user. *)
Theorem raised_failure_is_listed_without_its_user (a : AssignArgs.t) (userId : string)
    (results : AssignResults.t) (w w1 : World P) (e : Thrown) :
  userApi_getUser P userId w = (Raised e, w1) ->
  exists results' : AssignResults.t,
    assign_user a userId results w = (Returned results', w1, [ Call_getUser userId ])
    /\ In (AssignFailure.mk None (Some userId) (errorText e)) (AssignResults.failed results')
    /\ forall userIds : list string,
         JS.includes (assign_summary userIds results')
           ("User ID: undefined - " ++ errorText e) = true.
Proof.
  intros Hfetch.
  exists (push_assign_failure results (AssignFailure.mk None (Some userId) (errorText e))).
  split; [|split].
  - unfold assign_user, try_catch, bind, getUser, request, ret. rewrite Hfetch. reflexivity.
  - simpl. apply in_or_app. right. now left.
  - intros userIds. unfold assign_summary.
    set (failed := AssignResults.failed
                     (push_assign_failure results
                        (AssignFailure.mk None (Some userId) (errorText e)))).
    assert (Hin : In (AssignFailure.mk None (Some userId) (errorText e)) failed).
    { unfold failed. simpl. apply in_or_app. right. now left. }
    assert (Hpos : Nat.ltb 0 (List.length failed) = true).
    { destruct failed; [contradiction | reflexivity]. }
    rewrite Hpos.
    do 16 apply includes_app_r.
    destruct (In_mapi_from
                (fun i user =>
                   JS.of_nat (i + 1) ++ ". User ID: " ++ JS.show_opt (AssignFailure.userId user)
                   ++ " - " ++ AssignFailure.reason user) 0 failed _ Hin) as [i Hi].
    apply includes_join with (x := JS.of_nat (i + 1) ++ ". User ID: "
                                   ++ JS.show_opt None ++ " - " ++ errorText e);
      [exact Hi|].
    apply includes_app_r. cbn [JS.show_opt String.append].
    do 2 apply includes_cons. exact (includes_self _).
Qed.

End AssignmentSummary.

(** The user [ghost] of the demonstration directory, whose fetch fails. *)
Lemma raised_failure_demo :
  exists results' : Onboarding.AssignResults.t,
    Onboarding.assign_user (P := Demo.platform)
      (Onboarding.AssignArgs.mk [ "ghost" ] [ ("department", [ ("Engineering", "G1") ]) ])
      "ghost" (Onboarding.AssignResults.mk [] []) 0
    = (Returned results', 0, [ Call_getUser "ghost" ])
    /\ In (Onboarding.AssignFailure.mk None (Some "ghost") "Not found")
          (Onboarding.AssignResults.failed results')
    /\ forall userIds : list string,
         JS.includes (Onboarding.assign_summary userIds results')
           "User ID: undefined - Not found" = true.
Proof.
  exact (raised_failure_is_listed_without_its_user (P := Demo.platform)
           (Onboarding.AssignArgs.mk [ "ghost" ] [ ("department", [ ("Engineering", "G1") ]) ])
           "ghost" (Onboarding.AssignResults.mk [] []) 0 0 (ErrorObj "Not found") eq_refl).
Defined.

(** ** Onboarding: the numbers of the workflow report *)

Section WorkflowReport.
Context {P : Platform}.
Import Onboarding.

(** The data of a stage, when it has some, holds one entry per user. *)
Lemma import_body_data (a : ImportArgs.t) (w w' : World P)
    (r : ToolResult.t ImportResults.t) (c : list Call) (d : ImportResults.t) :
  bulk_user_import_body a w = (Returned r, w', c) ->
  ToolResult.data r = Some d ->
  List.length (ImportResults.success d) + List.length (ImportResults.failed d)
  = List.length (Papa_parse P (ImportArgs.csvData a)).
Proof.
  unfold bulk_user_import_body.
  destruct (configured P) eqn:Hc.
  - destruct (Papa_parse P (ImportArgs.csvData a)) as [|row rows] eqn:Ep.
    + erewrite try_catch_returned;
        [| rewrite (bind_returned _ _ _ _ _ _ (getOktaClient_ready w Hc)); reflexivity ].
      intros E Hd. inversion E; subst. discriminate.
    + destruct (import_rows_returns a (row :: rows) (ImportResults.mk [] []) w)
        as [results [w1 [c1 [E1 [Hcount _]]]]].
      erewrite try_catch_returned;
        [| rewrite (bind_returned _ _ _ _ _ _ (getOktaClient_ready w Hc));
           rewrite (bind_returned _ _ _ _ _ _ E1); reflexivity ].
      intros E Hd. inversion E; subst. simpl in Hd. inversion Hd; subst. exact Hcount.
  - destruct (getOktaClient_unconfigured w Hc) as [e He].
    erewrite try_catch_raised; [|rewrite (bind_raised _ _ _ _ _ _ He); reflexivity].
    intros E Hd. inversion E; subst. discriminate.
Qed.

Lemma assign_body_data (a : AssignArgs.t) (w w' : World P)
    (r : ToolResult.t AssignResults.t) (c : list Call) (g : AssignResults.t) :
  assign_users_to_groups_body a w = (Returned r, w', c) ->
  ToolResult.data r = Some g ->
  List.length (AssignResults.success g) + List.length (AssignResults.failed g)
  = List.length (AssignArgs.userIds a).
Proof.
  unfold assign_users_to_groups_body.
  destruct (configured P) eqn:Hc.
  - destruct (assign_users_returns a (AssignArgs.userIds a) (AssignResults.mk [] []) w)
      as [results [w1 [c1 [E1 _]]]].
    erewrite try_catch_returned;
      [| rewrite (bind_returned _ _ _ _ _ _ (getOktaClient_ready w Hc));
         rewrite (bind_returned _ _ _ _ _ _ E1); reflexivity ].
    intros E Hd. inversion E; subst. simpl in Hd. inversion Hd; subst.
    unfold assign_users in E1.
    apply (for_of_counts (assign_user a)
             (fun r => List.length (AssignResults.success r)
                       + List.length (AssignResults.failed r))) in E1; [exact E1|].
    intros x s0 w0 s' w0' c0. apply assign_user_adds_one.
  - destruct (getOktaClient_unconfigured w Hc) as [e He].
    erewrite try_catch_raised; [|rewrite (bind_raised _ _ _ _ _ _ He); reflexivity].
    intros E Hd. inversion E; subst. discriminate.
Qed.

Lemma provision_body_data (a : ProvisionArgs.t) (w w' : World P)
    (r : ToolResult.t ProvisionResults.t) (c : list Call) (ap : ProvisionResults.t) :
  provision_applications_body a w = (Returned r, w', c) ->
  ToolResult.data r = Some ap ->
  List.length (ProvisionResults.success ap) + List.length (ProvisionResults.failed ap)
  = List.length (ProvisionArgs.userIds a).
Proof.
  unfold provision_applications_body.
  destruct (configured P) eqn:Hc.
  - destruct (provision_users_returns a (ProvisionArgs.userIds a) (ProvisionResults.mk [] []) w)
      as [results [w1 [c1 [E1 [Hcount _]]]]].
    destruct (provision_summary a results) as [summary|e] eqn:Es.
    + erewrite try_catch_returned;
        [| rewrite (bind_returned _ _ _ _ _ _ (getOktaClient_ready w Hc));
           rewrite (bind_returned _ _ _ _ _ _ E1);
           unfold lift, bind; rewrite Es; reflexivity ].
      intros E Hd. inversion E; subst. simpl in Hd. inversion Hd; subst. exact Hcount.
    + erewrite try_catch_raised;
        [| rewrite (bind_returned _ _ _ _ _ _ (getOktaClient_ready w Hc));
           rewrite (bind_returned _ _ _ _ _ _ E1);
           unfold lift, bind; rewrite Es; reflexivity ].
      intros E Hd. simpl in E. inversion E; subst. discriminate.
  - destruct (getOktaClient_unconfigured w Hc) as [e He].
    erewrite try_catch_raised; [|rewrite (bind_raised _ _ _ _ _ _ He); reflexivity].
    intros E Hd. inversion E; subst. discriminate.
Qed.

Lemma assign_stage_data (a : WorkflowArgs.t) (ids : list string) (w w' : World P)
    (r : ToolResult.t AssignResults.t) (c : list Call) (g : AssignResults.t) :
  assign_users_to_groups (Some (assign_parameters a ids)) w = (Returned r, w', c) ->
  ToolResult.data r = Some g ->
  List.length (AssignResults.success g) + List.length (AssignResults.failed g)
  = List.length ids.
Proof.
  unfold assign_users_to_groups.
  destruct (proj1 (parse_assign_parameters a ids)) as [[e He]|[v [Hv Hd]]].
  - rewrite (bind_raised (lift _) _ w w e []) by (unfold lift; now rewrite He). discriminate.
  - rewrite (bind_returned (lift _) _ w w v []) by (unfold lift; now rewrite Hv).
    rewrite after_calls_nil, Hd. intros E Hg.
    exact (assign_body_data _ _ _ _ _ _ E Hg).
Qed.

Lemma provision_stage_data (a : WorkflowArgs.t) (ids : list string) (w w' : World P)
    (r : ToolResult.t ProvisionResults.t) (c : list Call) (ap : ProvisionResults.t) :
  provision_applications (Some (provision_parameters a ids)) w = (Returned r, w', c) ->
  ToolResult.data r = Some ap ->
  List.length (ProvisionResults.success ap) + List.length (ProvisionResults.failed ap)
  = List.length ids.
Proof.
  unfold provision_applications.
  destruct (proj1 (parse_provision_parameters a ids)) as [[e He]|[v [Hv Hd]]].
  - rewrite (bind_raised (lift _) _ w w e []) by (unfold lift; now rewrite He). discriminate.
  - rewrite (bind_returned (lift _) _ w w v []) by (unfold lift; now rewrite Hv).
    rewrite after_calls_nil, Hd. intros E Hg.
    exact (provision_body_data _ _ _ _ _ _ E Hg).
Qed.

(** The report the later stages compile, with the origin of its parts. *)
Lemma after_import_report (a : WorkflowArgs.t) (d : ImportResults.t) (w w' : World P)
    (r : ToolResult.t WorkflowData) (c : list Call) :
  after_import a d w = (Returned r, w', c) ->
  exists workflow,
    r = ToolResult.mk (text_only (workflow_summary a workflow)) false (Some (Compiled workflow))
    /\ Workflow.userImport workflow = d
    /\ Summary.totalProcessed (Workflow.summary workflow)
       = List.length (ImportResults.success d) + List.length (ImportResults.failed d)
    /\ Summary.successfullyOnboarded (Workflow.summary workflow)
       = List.length (ImportResults.success d)
    /\ Summary.failedUsers (Workflow.summary workflow)
       = List.length (ImportResults.failed d)
    /\ Summary.groupsAssigned (Workflow.summary workflow)
       = List.length (AssignResults.success (Workflow.groupAssignment workflow))
    /\ Summary.applicationsProvisioned (Workflow.summary workflow)
       = List.length (ProvisionResults.success (Workflow.applicationProvisioning workflow))
    /\ List.length (AssignResults.success (Workflow.groupAssignment workflow))
       + List.length (AssignResults.failed (Workflow.groupAssignment workflow))
       = (if Nat.ltb 0 (List.length (WorkflowArgs.groupMappings a))
          then List.length (ImportResults.success d) else 0)
    /\ List.length (ProvisionResults.success (Workflow.applicationProvisioning workflow))
       + List.length (ProvisionResults.failed (Workflow.applicationProvisioning workflow))
       = (if Nat.ltb 0 (List.length (WorkflowArgs.applicationIds a))
          then List.length (ImportResults.success d) else 0).
Proof.
  unfold after_import.
  match goal with
  | |- bind ?m ?k w = _ -> _ =>
      destruct (m w) as [[[g|e] w2] c2] eqn:E2;
      [ rewrite (bind_returned m k w w2 g c2 E2)
      | rewrite (bind_raised m k w w2 e c2 E2); discriminate ]
  end.
  cbv beta.
  match goal with
  | |- after_calls _ (bind ?m ?k w2) = _ -> _ =>
      destruct (m w2) as [[[ap|e] w3] c3] eqn:E3;
      [ rewrite (bind_returned m k w2 w3 ap c3 E3)
      | rewrite (bind_raised m k w2 w3 e c3 E3); discriminate ]
  end.
  cbv beta.
  destruct g as [g|]; [|discriminate]. destruct ap as [ap|]; [|discriminate].
  unfold ret. simpl. intros E. inversion E; subst.
  eexists; split; [reflexivity|]. simpl.
  repeat split.
  - destruct (Nat.ltb 0 (List.length (WorkflowArgs.groupMappings a))).
    + destruct (assign_users_to_groups
                  (Some (assign_parameters a (createdUserIds d))) w)
        as [[[r2|e2] w4] c4] eqn:E4.
      * rewrite (outcome_then_data _ _ _ _ _ E4) in E2.
        injection E2 as Hg Hw Hcalls.
        rewrite (assign_stage_data a (createdUserIds d) w w4 r2 c4 g E4 Hg).
        unfold createdUserIds. now rewrite length_map.
      * rewrite (bind_raised _ _ _ _ _ _ E4) in E2. discriminate.
    + unfold ret in E2. inversion E2; subst. reflexivity.
  - destruct (Nat.ltb 0 (List.length (WorkflowArgs.applicationIds a))).
    + destruct (provision_applications
                  (Some (provision_parameters a (createdUserIds d))) w2)
        as [[[r3|e3] w4] c4] eqn:E4.
      * rewrite (outcome_then_data _ _ _ _ _ E4) in E3.
        injection E3 as Hg Hw Hcalls.
        rewrite (provision_stage_data a (createdUserIds d) w2 w4 r3 c4 ap E4 Hg).
        unfold createdUserIds. now rewrite length_map.
      * rewrite (bind_raised _ _ _ _ _ _ E4) in E3. discriminate.
    + unfold ret in E3. inversion E3; subst. reflexivity.
Qed.

(** X21.  The numbers of a compiled workflow report agree with each
    other and with the data: the users processed are the rows of the
    data, each of them is counted once, as created or as failed, and at
    least one was created; a stage that ran holds one entry, success or
    failure, for every user created, and a stage that did not run holds
    none, so that neither stage counts more users than were created. *)
Theorem workflow_report_totals (a : WorkflowArgs.t) (w w' : World P)
    (r : ToolResult.t WorkflowData) (c : list Call) (workflow : Workflow.t) :
  WorkflowArgs.csvData a <> EmptyString ->
  run_onboarding_workflow_body a w = (Returned r, w', c) ->
  ToolResult.data r = Some (Compiled workflow) ->
  ToolResult.isError r = false
  /\ Summary.totalProcessed (Workflow.summary workflow)
     = List.length (Papa_parse P (WorkflowArgs.csvData a))
  /\ Summary.successfullyOnboarded (Workflow.summary workflow)
     + Summary.failedUsers (Workflow.summary workflow)
     = Summary.totalProcessed (Workflow.summary workflow)
  /\ 0 < Summary.successfullyOnboarded (Workflow.summary workflow)
  /\ List.length (AssignResults.success (Workflow.groupAssignment workflow))
     + List.length (AssignResults.failed (Workflow.groupAssignment workflow))
     = (if Nat.ltb 0 (List.length (WorkflowArgs.groupMappings a))
        then Summary.successfullyOnboarded (Workflow.summary workflow) else 0)
  /\ List.length (ProvisionResults.success (Workflow.applicationProvisioning workflow))
     + List.length (ProvisionResults.failed (Workflow.applicationProvisioning workflow))
     = (if Nat.ltb 0 (List.length (WorkflowArgs.applicationIds a))
        then Summary.successfullyOnboarded (Workflow.summary workflow) else 0)
  /\ Summary.groupsAssigned (Workflow.summary workflow)
     <= Summary.successfullyOnboarded (Workflow.summary workflow)
  /\ Summary.applicationsProvisioned (Workflow.summary workflow)
     <= Summary.successfullyOnboarded (Workflow.summary workflow).
Proof.
  intros Hcsv Hrun Hdata.
  destruct (bulk_user_import (Some (import_parameters a)) w) as [[[r1|e1] w1] c1] eqn:E1.
  - pose proof (workflow_after_import a w w1 r1 c1 E1) as [Hearly Hlater].
    destruct (ToolResult.data r1) as [d|] eqn:Hd.
    + destruct (ImportResults.success d) as [|x l] eqn:Es.
      * rewrite Hearly in Hrun by (unfold created_keys, createdUserIds; now rewrite Hd, Es).
        inversion Hrun; subst. discriminate.
      * rewrite (Hlater d eq_refl) in Hrun
          by (unfold created_keys, createdUserIds; rewrite Hd, Es; discriminate).
        destruct (after_import a d w1) as [[[r2|e2] w2] c2] eqn:E2.
        -- rewrite (try_catch_returned _ _ _ _ _ _ E2) in Hrun. simpl in Hrun.
           inversion Hrun; subst.
           destruct (after_import_report a d w1 w' r c2 E2)
             as [wf [-> [Hui [Ht [Hs [Hf [Hg [Hp [Hcg Hcp]]]]]]]]].
           simpl in Hdata. inversion Hdata; subst wf.
           rewrite (workflow_import a w Hcsv) in E1.
           pose proof (import_body_data _ _ _ _ _ _ E1 Hd) as Hrows.
           cbn [ImportArgs.csvData] in Hrows.
           rewrite Ht, Hs, Hf, Hg, Hp, Hcg, Hcp, Es in *. simpl in *.
           repeat split; try lia.
           ++ destruct (Nat.ltb 0 (List.length (WorkflowArgs.groupMappings a))); lia.
           ++ destruct (Nat.ltb 0 (List.length (WorkflowArgs.applicationIds a))); lia.
        -- rewrite (try_catch_raised _ _ _ _ _ _ E2) in Hrun. unfold ret in Hrun.
           simpl in Hrun. inversion Hrun; subst. discriminate.
    + rewrite Hearly in Hrun by (unfold created_keys; now rewrite Hd).
      inversion Hrun; subst. discriminate.
  - unfold run_onboarding_workflow_body in Hrun.
    rewrite (try_catch_raised _ _ _ _ _ _ (bind_raised _ _ _ _ _ _ E1)) in Hrun.
    unfold ret in Hrun. simpl in Hrun. inversion Hrun; subst. discriminate.
Qed.

End WorkflowReport.

(** The workflow on the demonstration data, with a mapping and an
    application: four rows, two users created. *)
Lemma workflow_report_demo :
  exists workflow : Onboarding.Workflow.t,
    Onboarding.Summary.totalProcessed (Onboarding.Workflow.summary workflow) = 4
    /\ Onboarding.Summary.successfullyOnboarded (Onboarding.Workflow.summary workflow)
       + Onboarding.Summary.failedUsers (Onboarding.Workflow.summary workflow)
       = Onboarding.Summary.totalProcessed (Onboarding.Workflow.summary workflow).
Proof.
  eexists.
  refine (let H := workflow_report_totals (P := Demo.platform)
                     (Demo.workflow_args [ ("department", [ ("Engineering", "G1") ]) ]
                        [ "app1" ]) 0 _ _ _ _ _ _ _ in
          conj (proj1 (proj2 H)) (proj1 (proj2 (proj2 H)))).
  - discriminate.
  - reflexivity.
  - reflexivity.
Defined.

(** ** Listings *)

Section Listings.
Context {P : Platform}.
Import Directory.

Lemma append_assoc (a b c : string) : ((a ++ b) ++ c = a ++ (b ++ c))%string.
Proof. induction a as [|x a IH]; simpl; [reflexivity | now rewrite IH]. Qed.

Lemma append_empty (a : string) : (a ++ EmptyString = a)%string.
Proof. induction a as [|x a IH]; simpl; [reflexivity | now rewrite IH]. Qed.

Lemma cursor_snoc {A : Type} (shown : list (A * string)) (x : A) (id : string) :
  Shown.cursor (shown ++ [ (x, id) ]) = id.
Proof. unfold Shown.cursor. now rewrite rev_app_distr. Qed.

(** The loop over the users of a collection, from any state: the
    entries of the users shown are appended, the count grows by their
    number, and the cursor is the id of the last one. *)
Lemma users_loop (collection : list (option FullUser.t)) (text : string) (count : nat)
    (after : option string) :
  fold_left (users_step (P := P)) collection (text, count, after)
  = (text ++ Shown.entries (user_entry (P := P)) (S count) (Shown.users collection),
     count + List.length (Shown.users collection),
     match Shown.users collection with
     | [] => after
     | shown => Some (Shown.cursor shown)
     end).
Proof.
  revert text count after.
  induction collection as [|user rest IH]; intros text count after.
  - simpl. now rewrite append_empty, Nat.add_0_r.
  - cbn [fold_left Shown.users flat_map].
    change (flat_map _ rest) with (Shown.users rest).
    destruct user as [user|]; [|cbn [users_step app]; apply IH].
    assert (Hstep : users_step (P := P) (text, count, after) (Some user)
                    = match FullUser.id user with
                      | Str id =>
                          if JS.truthy id
                          then (text ++ user_entry (P := P) (S count) user id, S count, Some id)
                          else (text, count, after)
                      | _ => (text, count, after)
                      end) by reflexivity.
    rewrite Hstep. clear Hstep.
    destruct (FullUser.id user) as [| |id]; try (cbn [app]; apply IH).
    destruct (JS.truthy id); [|cbn [app]; apply IH].
    rewrite IH. cbn [app Shown.entries List.length].
    rewrite append_assoc, Nat.add_succ_r. f_equal.
    destruct (Shown.users rest) as [|y l] eqn:Er; [reflexivity|].
    f_equal. unfold Shown.cursor. simpl.
    destruct (rev l ++ [y])%list as [|z l'] eqn:El.
    + now destruct (rev l).
    + reflexivity.
Qed.

Lemma groups_loop (collection : list (option Group.t)) (text : string) (count : nat)
    (after : option string) :
  fold_left (groups_step (P := P)) collection (text, count, after)
  = (text ++ Shown.entries (group_entry (P := P)) (S count) (Shown.groups collection),
     count + List.length (Shown.groups collection),
     match Shown.groups collection with
     | [] => after
     | shown => Some (Shown.cursor shown)
     end).
Proof.
  revert text count after.
  induction collection as [|group rest IH]; intros text count after.
  - simpl. now rewrite append_empty, Nat.add_0_r.
  - cbn [fold_left Shown.groups flat_map].
    change (flat_map _ rest) with (Shown.groups rest).
    destruct group as [group|]; [|cbn [groups_step app]; apply IH].
    assert (Hstep : groups_step (P := P) (text, count, after) (Some group)
                    = match Group.id group with
                      | Str id =>
                          if JS.truthy id
                          then (text ++ group_entry (P := P) (S count) group id, S count,
                                Some id)
                          else (text, count, after)
                      | _ => (text, count, after)
                      end) by reflexivity.
    rewrite Hstep. clear Hstep.
    destruct (Group.id group) as [| |id]; try (cbn [app]; apply IH).
    destruct (JS.truthy id); [|cbn [app]; apply IH].
    rewrite IH. cbn [app Shown.entries List.length].
    rewrite append_assoc, Nat.add_succ_r. f_equal.
    destruct (Shown.groups rest) as [|y l] eqn:Er; [reflexivity|].
    f_equal. unfold Shown.cursor. simpl.
    destruct (rev l ++ [y])%list as [|z l'] eqn:El.
    + now destruct (rev l).
    + reflexivity.
Qed.

(** The elements shown have a non-empty id, and so has the cursor. *)
Lemma shown_users_have_ids (collection : list (option FullUser.t)) :
  Forall (fun shown => JS.truthy (snd shown) = true) (Shown.users collection).
Proof.
  induction collection as [|user rest IH]; [constructor|].
  cbn [Shown.users flat_map]. apply Forall_app. split; [|exact IH].
  destruct user as [user|]; [|constructor].
  destruct (FullUser.id user) as [| |id]; try constructor.
  destruct (JS.truthy id) eqn:E; constructor; [exact E | constructor].
Qed.

Lemma shown_groups_have_ids (collection : list (option Group.t)) :
  Forall (fun shown => JS.truthy (snd shown) = true) (Shown.groups collection).
Proof.
  induction collection as [|group rest IH]; [constructor|].
  cbn [Shown.groups flat_map]. apply Forall_app. split; [|exact IH].
  destruct group as [group|]; [|constructor].
  destruct (Group.id group) as [| |id]; try constructor.
  destruct (JS.truthy id) eqn:E; constructor; [exact E | constructor].
Qed.

Lemma cursor_is_an_id {A : Type} (shown : list (A * string)) :
  Forall (fun x => JS.truthy (snd x) = true) shown ->
  shown <> [] ->
  JS.truthy (Shown.cursor shown) = true.
Proof.
  intros Hall Hne. unfold Shown.cursor.
  destruct (rev shown) as [|[x id] l] eqn:E.
  - apply (f_equal (@rev _)) in E. rewrite rev_involutive in E. now elim Hne.
  - assert (Hin : In (x, id) shown) by (apply in_rev; rewrite E; now left).
    rewrite Forall_forall in Hall. exact (Hall _ Hin).
Qed.

(** The end of a listing, for the state the loop ends in. *)
Lemma listing_result_shown {A : Type} (head : string)
    (entry : nat -> A -> string -> string) (shown : list (A * string))
    (params : list (string * Zod.JSON)) (nothing : string)
    (pagination : nat -> string -> string) (total : nat -> string) :
  Forall (fun x => JS.truthy (snd x) = true) shown ->
  listing_result
    (head ++ Shown.entries entry 1 shown, 0 + List.length shown,
     match shown with
     | [] => None
     | x :: rest => Some (Shown.cursor (x :: rest))
     end) params nothing pagination total
  = VResult
      (text_result
         match shown with
         | [] => nothing
         | x :: rest => Shown.report head entry pagination total params (x :: rest)
         end false).
Proof.
  intros Hall. unfold listing_result. cbn [Nat.add].
  destruct shown as [|x l]; [reflexivity|].
  cbv iota. cbn [List.length Nat.eqb].
  assert (Hne : x :: l <> []) by discriminate.
  unfold more_pages, Shown.report. cbn [JS.truthy_opt JS.show_opt].
  rewrite (cursor_is_an_id (x :: l) Hall Hne). cbn [andb List.length].
  destruct (Z.leb (limit_or_50 (get_number "limit" params)) (Z.of_nat (S (List.length l))));
    now rewrite append_assoc.
Qed.

(** X22.  What [list_users] answers when the directory returns a
    collection.  The elements that are [null] or have no id are passed
    over.  If none is left the answer is
    ["No users found matching your criteria."]; otherwise the text is the
    head, one numbered entry for every user shown, in order, and then
    either the hint for the next page, with the count and the id of the
    last user shown as the cursor, or the total: the hint is given
    exactly when the number of users shown has reached [limit || 50]. *)
Theorem list_users_report (sdk : Sdk.t P) (params : list (string * Zod.JSON))
    (w w1 : World P) (c : list Call) (collection : list (option FullUser.t)) :
  configured P = true ->
  Sdk.userApi_listUsers sdk (queryParams params) w = (Returned (Some collection), w1, c) ->
  Users.list_users_body sdk params w
  = (Returned
       (VResult
          (text_result
             match Shown.users collection with
             | [] => "No users found matching your criteria."
             | shown =>
                 Shown.report ("Users:" ++ JS.nl) (user_entry (P := P))
                   Users.users_pagination Users.users_total params shown
             end false)), w1, c).
Proof.
  intros Hc Hlist. unfold Users.list_users_body. cbv zeta.
  erewrite try_catch_returned; [reflexivity|].
  rewrite (bind_returned _ _ _ _ _ _ (getOktaClient_ready w Hc)).
  rewrite (bind_returned _ _ _ _ _ _ Hlist).
  rewrite users_loop.
  rewrite (listing_result_shown _ _ _ _ _ _ _ (shown_users_have_ids collection)).
  unfold ret. simpl. now rewrite app_nil_r.
Qed.

(** X23.  The same for the two listings of [groups.ts], [list_groups]
    and [list_group_users]: elements without an id are passed over, an
    empty listing is answered with ["No groups found matching your
    criteria."] and ["No users found in this group."], and the hint for
    the next page is given, with the id of the last element shown,
    exactly when the number of elements shown has reached
    [limit || 50]. *)
Theorem group_listings_report (sdk : Sdk.t P) (params : list (string * Zod.JSON))
    (w w1 : World P) (c : list Call) :
  configured P = true ->
  (forall collection : list (option Group.t),
     Sdk.groupApi_listGroups sdk (queryParams params) w
     = (Returned (Some collection), w1, c) ->
     Groups.list_groups_body sdk params w
     = (Returned
          (VResult
             (text_result
                match Shown.groups collection with
                | [] => "No groups found matching your criteria."
                | shown =>
                    Shown.report ("Groups:" ++ JS.nl) (group_entry (P := P))
                      Groups.groups_pagination Groups.groups_total params shown
                end false)), w1, c))
  /\ (forall collection : list (option FullUser.t),
        Sdk.groupApi_listGroupUsers sdk (Onboarding.get_string "groupId" params)
          (pageParams params) w
        = (Returned (Some collection), w1, c) ->
        Groups.list_group_users_body sdk params w
        = (Returned
             (VResult
                (text_result
                   match Shown.users collection with
                   | [] => "No users found in this group."
                   | shown =>
                       Shown.report
                         ("Users in Group (ID: " ++ Onboarding.get_string "groupId" params
                          ++ "):" ++ JS.nl)
                         (user_entry (P := P))
                         Groups.group_users_pagination Groups.group_users_total params shown
                   end false)), w1, c)).
Proof.
  intros Hc. split.
  - intros collection Hlist. unfold Groups.list_groups_body. cbv zeta.
    erewrite try_catch_returned; [reflexivity|].
    rewrite (bind_returned _ _ _ _ _ _ (getOktaClient_ready w Hc)).
    rewrite (bind_returned _ _ _ _ _ _ Hlist).
    rewrite groups_loop.
    rewrite (listing_result_shown _ _ _ _ _ _ _ (shown_groups_have_ids collection)).
    unfold ret. simpl. now rewrite app_nil_r.
  - intros collection Hlist. unfold Groups.list_group_users_body. cbv zeta.
    erewrite try_catch_returned; [reflexivity|].
    rewrite (bind_returned _ _ _ _ _ _ (getOktaClient_ready w Hc)).
    rewrite (bind_returned _ _ _ _ _ _ Hlist).
    rewrite users_loop.
    rewrite (listing_result_shown _ _ _ _ _ _ _ (shown_users_have_ids collection)).
    unfold ret. simpl. now rewrite app_nil_r.
Qed.

End Listings.

(** A listing of the demonstration client with a limit of two: two
    users are shown, and the hint for the next page is given. *)
Lemma list_users_demo :
  Users.list_users_body DemoSdk.sdk [ ("limit", Zod.JNum 2); ("sortOrder", Zod.JStr "asc") ] 0
  = (Returned
       (VResult
          (text_result
             (Shown.report ("Users:" ++ JS.nl) (Directory.user_entry (P := Demo.platform))
                Users.users_pagination Users.users_total
                [ ("limit", Zod.JNum 2); ("sortOrder", Zod.JStr "asc") ]
                [ (DemoSdk.alice, "u1"); (DemoSdk.bob, "u2") ]) false)), 0, []).
Proof.
  exact (list_users_report DemoSdk.sdk
           [ ("limit", Zod.JNum 2); ("sortOrder", Zod.JStr "asc") ] 0 0 []
           [ Some DemoSdk.alice; None; Some DemoSdk.nameless; Some DemoSdk.bob ]
           eq_refl eq_refl).
Defined.

Example list_users_demo_text :
  exists t : string,
    outcome (Users.list_users_body DemoSdk.sdk
               [ ("limit", Zod.JNum 2); ("sortOrder", Zod.JStr "asc") ] 0)
    = Returned (VResult (text_result t false))
    /\ JS.includes t "2. Bob Bell (bob@example.com)" = true
    /\ JS.includes t "- For next page, use 'after' parameter with value: u2" = true.
Proof. eexists. split; [reflexivity|]. split; vm_compute; reflexivity. Qed.

(** The listings of groups and of the users of a group, on the
    demonstration client. *)
Lemma group_listings_demo :
  Groups.list_groups_body DemoSdk.sdk [ ("limit", Zod.JNum 50) ] 0
  = (Returned
       (VResult
          (text_result
             (Shown.report ("Groups:" ++ JS.nl) (Directory.group_entry (P := Demo.platform))
                Groups.groups_pagination Groups.groups_total [ ("limit", Zod.JNum 50) ]
                [ (DemoSdk.staff, "g1") ]) false)), 0, []).
Proof.
  exact (proj1 (group_listings_report DemoSdk.sdk [ ("limit", Zod.JNum 50) ] 0 0 [] eq_refl)
           [ Some DemoSdk.staff ] eq_refl).
Defined.

(** ** A user whose record has no profile *)

Section MissingProfile.
Context {P : Platform}.
Import Directory.

(** X24.  A user whose record does not come back, or comes back without
    a profile.  [get_user] answers with an error: a missing profile is
    reported as ["User profile is undefined"], a missing record as the
    failure to read [profile] of [undefined].  [get_user_last_location]
    answers without error that the user was not found, and does not
    query the system log.  Neither does anything beyond the fetch. *)
Theorem user_without_profile (sdk : Sdk.t P) (params : list (string * Zod.JSON))
    (w w1 : World P) (c : list Call) (user : option FullUser.t) :
  configured P = true ->
  Sdk.userApi_getUser sdk (Onboarding.get_string "userId" params) w = (Returned user, w1, c) ->
  match user with Some u => FullUser.profile u | None => None end = None ->
  Users.get_user_body sdk params w
  = (Returned
       (VResult
          (text_result
             ("Failed to get user: "
              ++ match user with
                 | Some _ => "User profile is undefined"
                 | None => "Cannot read properties of undefined (reading 'profile')"
                 end) true)), w1, c)
  /\ Users.get_user_last_location_body sdk params w
     = (Returned
          (VResult
             (text_result
                ("User with ID " ++ Onboarding.get_string "userId" params ++ " not found.")
                false)), w1, c).
Proof.
  intros Hc Hget Hprofile. split.
  - unfold Users.get_user_body. cbv zeta.
    destruct user as [user|]; cbv iota in Hprofile;
      (erewrite try_catch_raised;
        [| rewrite (bind_returned _ _ _ _ _ _ (getOktaClient_ready w Hc));
           rewrite (bind_returned _ _ _ _ _ _ Hget);
           rewrite ?Hprofile; reflexivity ]);
      unfold ret; simpl; rewrite !app_nil_r; reflexivity.
  - unfold Users.get_user_last_location_body. cbv zeta.
    erewrite try_catch_returned; [reflexivity|].
    rewrite (bind_returned _ _ _ _ _ _ (getOktaClient_ready w Hc)).
    rewrite (bind_returned _ _ _ _ _ _ Hget).
    destruct user as [user|]; [rewrite Hprofile|]; unfold ret; simpl; now rewrite app_nil_r.
Qed.

End MissingProfile.

(** The user [stub] of the demonstration client. *)
Lemma user_without_profile_demo :
  Users.get_user_body DemoSdk.sdk [ ("userId", Zod.JStr "stub") ] 0
  = (Returned (VResult (text_result "Failed to get user: User profile is undefined" true)),
     0, [])
  /\ Users.get_user_last_location_body DemoSdk.sdk [ ("userId", Zod.JStr "stub") ] 0
     = (Returned (VResult (text_result "User with ID stub not found." false)), 0, []).
Proof.
  exact (user_without_profile DemoSdk.sdk [ ("userId", Zod.JStr "stub") ] 0 0 []
           (Some DemoSdk.stub) eq_refl eq_refl eq_refl).
Defined.

(** ** The arguments of [create_user] *)

Section CreateUser.
Context {P : Platform}.
Import Directory.

(** X25.  A [create_user] request that gives a first name, a last name
    and an e-mail address, and neither [login] nor [activate], creates
    the user with the e-mail address as the login and without
    activation; the answer reports the user the directory returns, or
    the failure of the creation. *)
Theorem create_user_defaults (sdk : Sdk.t P) (is_email : string -> bool)
    (prototype : list (string * Property P)) (members : list (string * Zod.JSON))
    (firstName lastName email : string) (w : World P) :
  configured P = true ->
  JS.lookup "firstName" members = Some (Zod.JStr firstName) ->
  JS.lookup "lastName" members = Some (Zod.JStr lastName) ->
  JS.lookup "email" members = Some (Zod.JStr email) ->
  firstName <> EmptyString ->
  lastName <> EmptyString ->
  is_email email = true ->
  JS.lookup "login" members = None ->
  JS.lookup "activate" members = None ->
  exists h : Handler P,
    JS.lookup "create_user" (own (Registry.HANDLERS sdk is_email prototype)) = Some h
    /\ h (Some (Zod.JObj members)) w
       = match Sdk.userApi_createUser sdk
                 [ ("firstName", firstName); ("lastName", lastName); ("email", email);
                   ("login", email) ] false w with
         | (Returned user, w1, c) =>
             (Returned (VResult (text_result (Users.created_user (P := P) user) false)), w1, c)
         | (Raised e, w1, c) =>
             (Returned
                (VResult (text_result ("Failed to create user: " ++ errorText e) true)),
              w1, c)
         end.
Proof.
  intros Hc Hf Hl He Hnf Hnl Hmail Hlogin Hactivate.
  eexists. split; [reflexivity|].
  assert (Hparse : Zod.parse (Tools.userSchemas_createUser is_email) (Some (Zod.JObj members))
                   = Returned [ ("firstName", Zod.JStr firstName);
                                ("lastName", Zod.JStr lastName);
                                ("email", Zod.JStr email);
                                ("activate", Zod.JBool false) ]).
  { unfold Zod.parse, Zod.parse_object, Tools.userSchemas_createUser, Tools.optional_string.
    cbn [Zod.parse_fields]. rewrite Hf, Hl, He, Hlogin, Hactivate.
    destruct firstName as [|c1 r1]; [now elim Hnf|].
    destruct lastName as [|c2 r2]; [now elim Hnl|].
    cbn [Zod.parse_value]. rewrite Hmail. reflexivity. }
  change (Registry.bodies sdk "create_user") with (Users.create_user_body sdk).
  unfold validated, bind at 1, lift. rewrite Hparse.
  unfold Users.create_user_body.
  change (Users.newUser [ ("firstName", Zod.JStr firstName);
                          ("lastName", Zod.JStr lastName);
                          ("email", Zod.JStr email);
                          ("activate", Zod.JBool false) ])
    with [ ("firstName", firstName); ("lastName", lastName); ("email", email);
           ("login", email) ].
  change (Onboarding.get_bool "activate"
            [ ("firstName", Zod.JStr firstName);
              ("lastName", Zod.JStr lastName);
              ("email", Zod.JStr email);
              ("activate", Zod.JBool false) ]) with false.
  unfold try_catch. rewrite (bind_returned _ _ _ _ _ _ (getOktaClient_ready w Hc)).
  unfold bind, ret.
  destruct (Sdk.userApi_createUser sdk _ false w) as [[[user|e] w1] c]; simpl;
    now rewrite ?app_nil_r.
Qed.

End CreateUser.

(** The creation of a user on the demonstration client. *)
Lemma create_user_demo :
  exists h : Handler Demo.platform,
    JS.lookup "create_user"
      (own (Registry.HANDLERS DemoSdk.sdk DemoSdk.is_email [])) = Some h
    /\ h (Some (Zod.JObj [ ("firstName", Zod.JStr "Bob"); ("lastName", Zod.JStr "Bell");
                           ("email", Zod.JStr "bob@example.com") ])) 0
       = (Returned
            (VResult
               (text_result (Users.created_user (P := Demo.platform) DemoSdk.bob) false)),
          0, []).
Proof.
  exact (create_user_defaults DemoSdk.sdk DemoSdk.is_email []
           [ ("firstName", Zod.JStr "Bob"); ("lastName", Zod.JStr "Bell");
             ("email", Zod.JStr "bob@example.com") ]
           "Bob" "Bell" "bob@example.com" 0
           eq_refl eq_refl eq_refl eq_refl
           (fun H => match H in (_ = s) return match s with
                                               | EmptyString => False
                                               | String _ _ => True
                                               end with eq_refl => I end)
           (fun H => match H in (_ = s) return match s with
                                               | EmptyString => False
                                               | String _ _ => True
                                               end with eq_refl => I end)
           eq_refl eq_refl eq_refl).
Defined.

(** ** Every tool of the table, through the dispatcher *)

Section EveryTool.
Context {P : Platform}.
Import Directory.
Variable sdk : Sdk.t P.
Variable is_email : string -> bool.
Variable prototype : list (string * Property P).

(** What the dispatcher makes of the outcome of an own handler. *)
Lemma dispatch_outcome (table : HandlerTable P) (request : CallToolRequest) (h : Handler P)
    (w : World P) :
  JS.lookup (name request) (own table) = Some h ->
  callTool_startServer table request w
  = match h (Registry.raw request) w with
    | (Returned v, w1, c) => (Returned v, w1, c)
    | (Raised e, w1, c) =>
        (Returned (VResult (text_result ("Error: " ++ errorText e) true)), w1, c)
    end.
Proof.
  intros Hown.
  unfold callTool_startServer, has_property, get_property, Registry.raw. rewrite Hown.
  cbn [is_some orb negb call_property]. unfold try_catch, bind, ret.
  destruct (h _ w) as [[[v|e] w1] c]; now rewrite app_nil_r.
Qed.

(** A [try] whose [catch] returns a value returns. *)
Lemma try_catch_ret_returns {A : Type} (m : M P A) (f : Thrown -> A) (w : World P) :
  exists a w1 c, try_catch m (fun error => ret (f error)) w = (Returned a, w1, c).
Proof.
  unfold try_catch, ret. destruct (m w) as [[[a|e] w1] c]; do 3 eexists; reflexivity.
Qed.

(** A handler's [try] that starts with [getOktaClient], when an
    environment variable is missing. *)
Lemma guarded_is_quiet {A B : Type} (k : unit -> M P A) (f : Thrown -> B) (g : B -> A)
    (w : World P) :
  configured P = false ->
  exists b, try_catch (bind getOktaClient k) (fun error => ret (g (f error))) w
            = (Returned (g b), w, []).
Proof.
  intros Hc. destruct (getOktaClient_unconfigured w Hc) as [e He].
  exists (f e). now rewrite (try_catch_raised _ _ _ _ _ _ (bind_raised _ k _ _ _ _ He)).
Qed.

Lemma guarded_answers_error (k : unit -> M P JSValue) (text : Thrown -> string)
    (w : World P) :
  configured P = false ->
  exists r, try_catch (bind getOktaClient k)
              (fun error => ret (VResult (text_result (text error) true))) w
            = (Returned (VResult r), w, [])
            /\ isError r = true.
Proof.
  intros Hc.
  destruct (guarded_is_quiet k text (fun t => VResult (text_result t true)) w Hc) as [t Ht].
  exists (text_result t true). now split.
Qed.

Lemma guarded_tool_answers_error {D : Type} (k : unit -> M P (Onboarding.ToolResult.t D))
    (text : Thrown -> string) (w : World P) :
  configured P = false ->
  exists t, try_catch (bind getOktaClient k)
              (fun error =>
                 ret (Onboarding.ToolResult.mk (Onboarding.text_only (text error)) true None)) w
            = (Returned (Onboarding.ToolResult.mk (Onboarding.text_only t) true None), w, []).
Proof.
  intros Hc.
  exact (guarded_is_quiet k text
           (fun t => Onboarding.ToolResult.mk (Onboarding.text_only t) true None) w Hc).
Qed.

Ltac each_body Hin :=
  cbn [In Registry.plain_tools] in Hin;
  repeat (destruct Hin as [<-|Hin]); try contradiction;
  cbv beta iota zeta delta
    [Registry.bodies
       Users.get_user_body Users.list_users_body Users.create_user_body
       Users.activate_user_body Users.suspend_user_body Users.unsuspend_user_body
       Users.deactivate_user_body Users.delete_user_body Users.get_user_last_location_body
       Groups.list_groups_body Groups.create_group_body Groups.get_group_body
       Groups.delete_group_body Groups.assign_user_to_group_body
       Groups.remove_user_from_group_body Groups.list_group_users_body].

Lemma bodies_answer_error (tool : string) (v : list (string * Zod.JSON)) (w : World P) :
  configured P = false ->
  In tool Registry.plain_tools ->
  exists r, Registry.bodies sdk tool v w = (Returned (VResult r), w, []) /\ isError r = true.
Proof.
  intros Hc Hin. each_body Hin; apply guarded_answers_error; exact Hc.
Qed.

Lemma bodies_return (tool : string) (v : list (string * Zod.JSON)) (w : World P) :
  In tool Registry.plain_tools ->
  exists a w1 c, Registry.bodies sdk tool v w = (Returned a, w1, c).
Proof.
  intros Hin. each_body Hin; apply try_catch_ret_returns.
Qed.

Lemma validated_answers_error (schema : Zod.ObjectSchema)
    (body : list (string * Zod.JSON) -> M P JSValue) (parameters : option Zod.JSON)
    (w : World P) :
  (forall v, exists r, body v w = (Returned (VResult r), w, []) /\ isError r = true) ->
  (exists e, validated schema body parameters w = (Raised e, w, []))
  \/ (exists r, validated schema body parameters w = (Returned (VResult r), w, [])
                /\ isError r = true).
Proof.
  intros Hbody. unfold validated, bind, lift.
  destruct (Zod.parse schema parameters) as [v|e]; [right|left; eexists; reflexivity].
  destruct (Hbody v) as [r [E Hr]]. rewrite E. exists r. now split.
Qed.

Lemma validated_returns (schema : Zod.ObjectSchema)
    (body : list (string * Zod.JSON) -> M P JSValue) (parameters : option Zod.JSON)
    (w : World P) :
  (forall v, exists a w1 c, body v w = (Returned a, w1, c)) ->
  match Zod.parse schema parameters with
  | Raised e => validated schema body parameters w = (Raised e, w, [])
  | Returned _ => exists a w1 c, validated schema body parameters w = (Returned a, w1, c)
  end.
Proof.
  intros Hbody. unfold validated, bind, lift.
  destruct (Zod.parse schema parameters) as [v|e]; [|reflexivity].
  destruct (Hbody v) as [a [w1 [c E]]]. rewrite E. do 3 eexists; reflexivity.
Qed.

(** An onboarding handler as the table holds it. *)
Lemma wrapped_answers_error {D : Type} (schema : Zod.ObjectSchema)
    (body : list (string * Zod.JSON) -> M P (Onboarding.ToolResult.t D))
    (parameters : option Zod.JSON) (w : World P) :
  (forall v, exists t,
      body v w = (Returned (Onboarding.ToolResult.mk (Onboarding.text_only t) true None), w, [])) ->
  (exists e, bind (bind (lift (Zod.parse schema parameters)) body)
               (fun r => ret (Onboarding.to_value r)) w = (Raised e, w, []))
  \/ (exists r, bind (bind (lift (Zod.parse schema parameters)) body)
                  (fun r => ret (Onboarding.to_value r)) w = (Returned (VResult r), w, [])
                /\ isError r = true).
Proof.
  intros Hbody. unfold bind, lift, ret.
  destruct (Zod.parse schema parameters) as [v|e]; [right|left; eexists; reflexivity].
  destruct (Hbody v) as [t E]. rewrite E. eexists. split; reflexivity.
Qed.

Lemma wrapped_returns {D : Type} (schema : Zod.ObjectSchema)
    (body : list (string * Zod.JSON) -> M P (Onboarding.ToolResult.t D))
    (parameters : option Zod.JSON) (w : World P) :
  (forall v, exists a w1 c, body v w = (Returned a, w1, c)) ->
  match Zod.parse schema parameters with
  | Raised e =>
      bind (bind (lift (Zod.parse schema parameters)) body)
        (fun r => ret (Onboarding.to_value r)) w = (Raised e, w, [])
  | Returned _ =>
      exists a w1 c,
        bind (bind (lift (Zod.parse schema parameters)) body)
          (fun r => ret (Onboarding.to_value r)) w = (Returned a, w1, c)
  end.
Proof.
  intros Hbody. unfold bind, lift, ret.
  destruct (Zod.parse schema parameters) as [v|e]; [|reflexivity].
  destruct (Hbody v) as [a [w1 [c E]]]. rewrite E. do 3 eexists; reflexivity.
Qed.

(** The import, when an environment variable is missing. *)
Lemma import_answers_error (parameters : option Zod.JSON) (w : World P) :
  configured P = false ->
  (exists e, Onboarding.bulk_user_import parameters w = (Raised e, w, []))
  \/ (exists t, Onboarding.bulk_user_import parameters w
                = (Returned (Onboarding.ToolResult.mk (Onboarding.text_only t) true None),
                   w, [])).
Proof.
  intros Hc. unfold Onboarding.bulk_user_import, bind, lift.
  destruct (Zod.parse _ parameters) as [v|e]; [right|left; eexists; reflexivity].
  unfold Onboarding.bulk_user_import_body.
  destruct (guarded_tool_answers_error
              (fun oktaClient : unit =>
                 match Papa_parse P (Onboarding.ImportArgs.csvData
                                       (Onboarding.destructure_import v)) with
                 | [] =>
                     ret (Onboarding.ToolResult.mk
                            (Onboarding.text_only "No valid users found in CSV data.")
                            true None)
                 | _ :: _ =>
                     bind (Onboarding.import_rows (Onboarding.destructure_import v)
                             (Papa_parse P (Onboarding.ImportArgs.csvData
                                              (Onboarding.destructure_import v)))
                             (Onboarding.ImportResults.mk [] []))
                       (fun results =>
                          ret (Onboarding.ToolResult.mk
                                 (Onboarding.text_only
                                    (Onboarding.import_summary
                                       (Papa_parse P (Onboarding.ImportArgs.csvData
                                                        (Onboarding.destructure_import v)))
                                       results))
                                 false (Some results)))
                 end)
              (fun error => "Failed to import users: " ++ errorText error) w Hc) as [t Ht].
  exists t. cbv zeta. rewrite Ht. reflexivity.
Qed.

Ltac table_entries Hown :=
  apply lookup_In in Hown;
  unfold Registry.HANDLERS, Tools.HANDLERS, Tools.userHandlers, Tools.groupHandlers,
    Onboarding.onboardingHandlers, get_user, Search.find_users_by_attribute,
    Onboarding.bulk_user_import, Onboarding.assign_users_to_groups,
    Onboarding.provision_applications, Onboarding.run_onboarding_workflow in Hown;
  cbn [own app In] in Hown;
  repeat (destruct Hown as [Hown|Hown]); try contradiction;
  injection Hown as Hname Hh; subst.

(** The workflow, when an environment variable is missing. *)
Lemma workflow_body_without_credentials (a : Onboarding.WorkflowArgs.t) (w : World P) :
  configured P = false ->
  exists t err,
    Onboarding.run_onboarding_workflow_body a w
    = (Returned (Onboarding.ToolResult.mk (Onboarding.text_only t) err
                   (if err then None else Some (Onboarding.OnlyImport None))), w, [])
    /\ (err = false -> t = Onboarding.no_users_created).
Proof.
  intros Hc. unfold Onboarding.run_onboarding_workflow_body.
  destruct (import_answers_error (Some (Onboarding.import_parameters a)) w Hc)
    as [[e E]|[t E]].
  - rewrite (try_catch_raised _ _ _ _ _ _ (bind_raised _ _ _ _ _ _ E)).
    exists ("Failed to complete onboarding workflow: " ++ errorText e), true.
    split; [reflexivity|discriminate].
  - erewrite try_catch_returned;
      [|rewrite (bind_returned _ _ _ _ _ _ E); reflexivity].
    exists Onboarding.no_users_created, false. now split.
Qed.

(** X26.  When an environment variable of the connection is missing,
    no tool of the table reaches the directory: whatever the arguments,
    a call through the dispatcher is answered without any call to the
    directory and without any change of it.  Every such answer is an
    error, except that of [run_onboarding_workflow], which may answer
    without error that no users were created. *)
Theorem no_tool_reaches_the_directory_without_credentials (request : CallToolRequest)
    (h : Handler P) (w : World P) :
  configured P = false ->
  JS.lookup (name request) (own (Registry.HANDLERS sdk is_email prototype)) = Some h ->
  exists r,
    callTool_startServer (Registry.HANDLERS sdk is_email prototype) request w
    = (Returned (VResult r), w, [])
    /\ (isError r = false ->
        name request = "run_onboarding_workflow"
        /\ r = text_result Onboarding.no_users_created false).
Proof.
  intros Hc Hown. rewrite (dispatch_outcome _ _ _ _ Hown).
  assert (Hh : (exists e, h (Registry.raw request) w = (Raised e, w, []))
               \/ (exists r, h (Registry.raw request) w = (Returned (VResult r), w, [])
                             /\ (isError r = false ->
                                 name request = "run_onboarding_workflow"
                                 /\ r = text_result Onboarding.no_users_created false))).
  { assert (Hweaken : forall x : Outcome JSValue * World P * list Call,
              (exists e, x = (Raised e, w, []))
              \/ (exists r, x = (Returned (VResult r), w, []) /\ isError r = true) ->
              (exists e, x = (Raised e, w, []))
              \/ (exists r, x = (Returned (VResult r), w, [])
                            /\ (isError r = false ->
                                name request = "run_onboarding_workflow"
                                /\ r = text_result Onboarding.no_users_created false))).
    { intros x [He|[r [E Hr]]]; [now left|right]. exists r. split; [exact E|].
      rewrite Hr. discriminate. }
    table_entries Hown;
      try solve [ apply Hweaken, validated_answers_error; intros v;
                  match goal with
                  | Hn : ?tool = name request |- _ =>
                      apply (bodies_answer_error tool v w Hc);
                      cbn [In Registry.plain_tools]; tauto
                  end ].
    - apply Hweaken, validated_answers_error. intros v.
      unfold Search.find_users_by_attribute_body. apply guarded_answers_error, Hc.
    - apply Hweaken, wrapped_answers_error. intros v.
      unfold Onboarding.bulk_user_import_body. apply guarded_tool_answers_error, Hc.
    - apply Hweaken, wrapped_answers_error. intros v.
      unfold Onboarding.assign_users_to_groups_body. apply guarded_tool_answers_error, Hc.
    - apply Hweaken, wrapped_answers_error. intros v.
      unfold Onboarding.provision_applications_body. apply guarded_tool_answers_error, Hc.
    - unfold bind, lift, ret.
      destruct (Zod.parse _ (Registry.raw request)) as [v|e]; [right|left; eexists; reflexivity].
      destruct (workflow_body_without_credentials (Onboarding.destructure_workflow v) w Hc)
        as [t [err [E Ht]]].
      rewrite E. unfold Onboarding.to_value. cbn.
      eexists. split; [reflexivity|]. cbn. intros ->. split; [now symmetry|].
      now rewrite (Ht eq_refl). }
  destruct Hh as [[e E]|[r [E Hr]]]; rewrite E.
  - eexists. split; [reflexivity|discriminate].
  - exists r. now split.
Qed.

(** X27.  A call of a tool of the table is always answered.  The
    handler raises only when the tool's schema refuses the arguments, and
    then before anything else; the dispatcher turns that into the answer
    ["Error: "] followed by the message, marked as an error.  With
    arguments the schema accepts the handler returns, whatever the
    directory does, and the dispatcher passes on what it returns, with
    the calls it made. *)
Theorem every_tool_call_is_answered (request : CallToolRequest) (h : Handler P)
    (w : World P) :
  JS.lookup (name request) (own (Registry.HANDLERS sdk is_email prototype)) = Some h ->
  exists schema,
    JS.lookup (name request) (Tools.schemas is_email) = Some schema
    /\ match Zod.parse schema (Registry.raw request) with
       | Raised e =>
           h (Registry.raw request) w = (Raised e, w, [])
           /\ callTool_startServer (Registry.HANDLERS sdk is_email prototype) request w
              = (Returned (VResult (text_result ("Error: " ++ errorText e) true)), w, [])
       | Returned _ =>
           exists v w1 c,
             h (Registry.raw request) w = (Returned v, w1, c)
             /\ callTool_startServer (Registry.HANDLERS sdk is_email prototype) request w
                = (Returned v, w1, c)
       end.
Proof.
  intros Hown. rewrite (dispatch_outcome _ _ _ _ Hown).
  assert (Hh : exists schema,
            JS.lookup (name request) (Tools.schemas is_email) = Some schema
            /\ match Zod.parse schema (Registry.raw request) with
               | Raised e => h (Registry.raw request) w = (Raised e, w, [])
               | Returned _ => exists v w1 c, h (Registry.raw request) w = (Returned v, w1, c)
               end).
  { table_entries Hown; rewrite <- Hname; (eexists; split; [reflexivity|]);
      try solve [ apply validated_returns; intros v;
                  match goal with
                  | Hn : ?tool = name request |- _ =>
                      apply (bodies_return tool v w);
                      cbn [In Registry.plain_tools]; tauto
                  end ].
    - apply validated_returns. intros v.
      unfold Search.find_users_by_attribute_body. apply try_catch_ret_returns.
    - apply wrapped_returns. intros v.
      unfold Onboarding.bulk_user_import_body. apply try_catch_ret_returns.
    - apply wrapped_returns. intros v.
      unfold Onboarding.assign_users_to_groups_body. apply try_catch_ret_returns.
    - apply wrapped_returns. intros v.
      unfold Onboarding.provision_applications_body. apply try_catch_ret_returns.
    - apply wrapped_returns. intros v.
      unfold Onboarding.run_onboarding_workflow_body. apply try_catch_ret_returns. }
  destruct Hh as [schema [Hschema Hh]]. exists schema. split; [exact Hschema|].
  destruct (Zod.parse schema (Registry.raw request)) as [v0|e].
  - destruct Hh as [v [w1 [c E]]]. exists v, w1, c. rewrite E. now split.
  - rewrite Hh. now split.
Qed.

End EveryTool.

(** The deletion of a user, asked of a process whose environment lacks
    [OKTA_ORG_URL]. *)
Lemma delete_offline_demo :
  exists r,
    callTool_startServer (Registry.HANDLERS DemoSdk.offline DemoSdk.is_email [])
      (mkCallToolRequest "delete_user" (Some [ ("userId", Zod.JStr "u1") ])) 0
    = (Returned (VResult r), 0, [])
    /\ (isError r = false ->
        "delete_user" = "run_onboarding_workflow"
        /\ r = text_result Onboarding.no_users_created false).
Proof.
  exact (no_tool_reaches_the_directory_without_credentials
           DemoSdk.offline DemoSdk.is_email []
           (mkCallToolRequest "delete_user" (Some [ ("userId", Zod.JStr "u1") ]))
           _ 0 eq_refl eq_refl).
Defined.

(** A call of [get_group] without arguments. *)
Lemma get_group_demo :
  (exists schema,
     JS.lookup "get_group" (Tools.schemas DemoSdk.is_email) = Some schema
     /\ match Zod.parse schema (Some (Zod.JObj [])) with
        | Raised e =>
            validated Tools.groupSchemas_getGroup
              (Groups.get_group_body DemoSdk.sdk) (Some (Zod.JObj [])) 0
            = (Raised e, 0, [])
            /\ callTool_startServer (Registry.HANDLERS DemoSdk.sdk DemoSdk.is_email [])
                 (mkCallToolRequest "get_group" None) 0
               = (Returned (VResult (text_result ("Error: " ++ errorText e) true)), 0, [])
        | Returned _ =>
            exists v w1 c,
              validated Tools.groupSchemas_getGroup
                (Groups.get_group_body DemoSdk.sdk) (Some (Zod.JObj [])) 0
              = (Returned v, w1, c)
              /\ callTool_startServer (Registry.HANDLERS DemoSdk.sdk DemoSdk.is_email [])
                   (mkCallToolRequest "get_group" None) 0
                 = (Returned v, w1, c)
        end).
Proof.
  exact (every_tool_call_is_answered DemoSdk.sdk DemoSdk.is_email []
           (mkCallToolRequest "get_group" None) _ 0 eq_refl).
Defined.

(** ** The query of a listing *)

(** A key the schema does not name is not in the validated object. *)
Lemma parse_fields_absent (shape : Zod.ObjectSchema) (members : list (string * Zod.JSON))
    (k : string) :
  ~ In k (map fst shape) -> JS.lookup k (snd (Zod.parse_fields shape members)) = None.
Proof.
  induction shape as [|[k0 s0] shape IH]; intros Hk; [reflexivity|].
  simpl.
  destruct (Zod.parse_value s0 [Zod.Key k0] (JS.lookup k0 members)) as [issues1 v].
  destruct (Zod.parse_fields shape members) as [issues2 vs]. simpl in *.
  assert (Hrest : JS.lookup k vs = None) by (apply IH; tauto).
  destruct v as [y|]; [|exact Hrest].
  simpl. destruct (String.eqb k0 k) eqn:E; [|exact Hrest].
  apply String.eqb_eq in E. tauto.
Qed.

(** A field of the schema holds, in the validated object, what its own
    schema makes of the member of that name. *)
Lemma parse_fields_lookup (shape : Zod.ObjectSchema) (members : list (string * Zod.JSON))
    (k : string) (s : Zod.Schema) :
  NoDup (map fst shape) ->
  In (k, s) shape ->
  JS.lookup k (snd (Zod.parse_fields shape members))
  = snd (Zod.parse_value s [Zod.Key k] (JS.lookup k members)).
Proof.
  induction shape as [|[k0 s0] shape IH]; intros Hnd Hin; [contradiction|].
  inversion Hnd as [|? ? Hk0 Hnd']; subst.
  pose proof (parse_fields_absent shape members k0 Hk0) as Habsent.
  simpl.
  destruct (Zod.parse_value s0 [Zod.Key k0] (JS.lookup k0 members)) as [issues1 v] eqn:E1.
  destruct (Zod.parse_fields shape members) as [issues2 vs] eqn:E2. simpl in *.
  destruct Hin as [Heq|Hin].
  - injection Heq as -> ->. rewrite E1. simpl.
    destruct v as [y|]; [simpl; now rewrite String.eqb_refl|exact Habsent].
  - assert (Hne : String.eqb k0 k = false).
    { apply String.eqb_neq. intros ->. apply Hk0.
      change k with (fst (k, s)). now apply in_map. }
    rewrite <- (IH Hnd' Hin).
    destruct v as [y|]; [simpl; now rewrite Hne|reflexivity].
Qed.

Lemma parse_fields_no_issue (shape : Zod.ObjectSchema) (members : list (string * Zod.JSON))
    (k : string) (s : Zod.Schema) :
  fst (Zod.parse_fields shape members) = [] ->
  In (k, s) shape ->
  fst (Zod.parse_value s [Zod.Key k] (JS.lookup k members)) = [].
Proof.
  intros Hnone Hin.
  destruct (fst (Zod.parse_value s [Zod.Key k] (JS.lookup k members))) as [|i issues] eqn:E;
    [reflexivity|].
  pose proof (parse_fields_issue shape members k s i Hin) as Hi.
  rewrite E, Hnone in Hi. elim Hi. now left.
Qed.

Lemma parse_accepts (shape : Zod.ObjectSchema) (members v : list (string * Zod.JSON)) :
  Zod.parse shape (Some (Zod.JObj members)) = Returned v ->
  fst (Zod.parse_fields shape members) = [] /\ v = snd (Zod.parse_fields shape members).
Proof.
  unfold Zod.parse, Zod.parse_object.
  destruct (Zod.parse_fields shape members) as [[|i issues] vs]; [|discriminate].
  intros [= <-]. now split.
Qed.

(** The limit of a listing, validated. *)
Lemma limit_validated (p : list Zod.PathSeg) (given : option Zod.JSON) :
  fst (Zod.parse_value Tools.limit_schema p given) = [] ->
  exists n,
    snd (Zod.parse_value Tools.limit_schema p given) = Some (Zod.JNum n)
    /\ (1 <= n <= 200)%Z
    /\ (given = None -> n = 50%Z)
    /\ (forall m, given = Some (Zod.JNum m) -> n = m).
Proof.
  unfold Tools.limit_schema. destruct given as [x|]; cbn [Zod.parse_value].
  - destruct x as [|b|n|s|items|members]; try discriminate.
    destruct (Z.ltb n 1) eqn:Elo; [discriminate|].
    destruct (Z.ltb 200 n) eqn:Ehi; [discriminate|].
    intros _. exists n. cbn. repeat split; try lia; try discriminate.
    now intros m [= ->].
  - intros _. exists 50%Z. cbn. repeat split; try lia. discriminate.
Qed.

Section ListingQuery.
Import Directory.

(** X28.  The query of a listing, for arguments the schema accepts.
    [list_users] and [list_groups] always ask the directory for a limit
    between 1 and 200, the one given or else 50, and for a sort order,
    the one given or else ["asc"]; [list_group_users] always asks for
    such a limit and for nothing but the page.  So the page hint of a
    listing compares the count with the limit that was asked for. *)
Theorem listing_query_after_validation (args v : list (string * Zod.JSON)) :
  (Zod.parse Tools.userSchemas_listUsers (Some (Zod.JObj args)) = Returned v ->
   exists n order,
     QueryParams.limit (queryParams v) = Some n
     /\ (1 <= n <= 200)%Z
     /\ (JS.lookup "limit" args = None -> n = 50%Z)
     /\ (forall m, JS.lookup "limit" args = Some (Zod.JNum m) -> n = m)
     /\ limit_or_50 (get_number "limit" v) = n
     /\ QueryParams.sortOrder (queryParams v) = Some order
     /\ (order = "asc" \/ order = "desc")
     /\ (JS.lookup "sortOrder" args = None -> order = "asc"))
  /\ (Zod.parse Tools.groupSchemas_listGroupUsers (Some (Zod.JObj args)) = Returned v ->
      exists n,
        QueryParams.limit (pageParams v) = Some n
        /\ (1 <= n <= 200)%Z
        /\ (JS.lookup "limit" args = None -> n = 50%Z)
        /\ (forall m, JS.lookup "limit" args = Some (Zod.JNum m) -> n = m)
        /\ limit_or_50 (get_number "limit" v) = n
        /\ QueryParams.filter (pageParams v) = None
        /\ QueryParams.search (pageParams v) = None
        /\ QueryParams.sortBy (pageParams v) = None
        /\ QueryParams.sortOrder (pageParams v) = None).
Proof.
  split; intros Hparse; apply parse_accepts in Hparse; destruct Hparse as [Hnone ->].
  - assert (Hnd : NoDup (map fst Tools.userSchemas_listUsers)).
    { cbn. repeat constructor; cbn; intuition discriminate. }
    assert (Hl : In ("limit", Tools.limit_schema) Tools.userSchemas_listUsers)
      by (cbn; tauto).
    assert (Ho : In ("sortOrder",
                     Zod.ZDefault (Zod.ZOptional (Zod.ZEnum ["asc"; "desc"])) (Zod.JStr "asc"))
                   Tools.userSchemas_listUsers) by (cbn; tauto).
    destruct (limit_validated _ _ (parse_fields_no_issue _ _ _ _ Hnone Hl))
      as [n [Hn [Hrange [Hdefault Hgiven]]]].
    pose proof (parse_fields_no_issue _ _ _ _ Hnone Ho) as Hoi.
    pose proof (parse_fields_lookup _ args _ _ Hnd Ho) as Hov.
    assert (Horder : exists order,
               JS.lookup "sortOrder" (snd (Zod.parse_fields Tools.userSchemas_listUsers args))
               = Some (Zod.JStr order)
               /\ (order = "asc" \/ order = "desc")
               /\ (JS.lookup "sortOrder" args = None -> order = "asc")).
    { rewrite Hov. clear Hov.
      destruct (JS.lookup "sortOrder" args) as [x|]; cbn [Zod.parse_value] in *.
      - destruct x as [|b|m|s|items|members]; try discriminate.
        destruct (JS.array_includes ["asc"; "desc"] s) eqn:Es; [|discriminate].
        exists s. cbn. repeat split; [|discriminate].
        cbn in Es. destruct (String.eqb s "asc") eqn:E1.
        + left. now apply String.eqb_eq.
        + destruct (String.eqb s "desc") eqn:E2; [|discriminate Es].
          right. now apply String.eqb_eq.
      - exists "asc". cbn. repeat split. now left. }
    destruct Horder as [order [Hlookup [Hcases Hdflt]]].
    exists n, order.
    unfold queryParams, get_number, get_optional. cbn [QueryParams.limit QueryParams.sortOrder].
    rewrite (parse_fields_lookup _ args _ _ Hnd Hl), Hn, Hlookup.
    assert (Hnz : Z.eqb n 0 = false) by (apply Z.eqb_neq; lia).
    cbn [if_nonzero if_truthy limit_or_50]. rewrite Hnz.
    assert (Htruthy : JS.truthy order = true) by (destruct Hcases as [->| ->]; reflexivity).
    rewrite Htruthy. repeat split; try tauto; try lia; exact Hgiven.
  - assert (Hnd : NoDup (map fst Tools.groupSchemas_listGroupUsers)).
    { cbn. repeat constructor; cbn; intuition discriminate. }
    assert (Hl : In ("limit", Tools.limit_schema) Tools.groupSchemas_listGroupUsers)
      by (cbn; tauto).
    destruct (limit_validated _ _ (parse_fields_no_issue _ _ _ _ Hnone Hl))
      as [n [Hn [Hrange [Hdefault Hgiven]]]].
    exists n.
    unfold pageParams, get_number. cbn [QueryParams.limit QueryParams.filter
      QueryParams.search QueryParams.sortBy QueryParams.sortOrder].
    rewrite (parse_fields_lookup _ args _ _ Hnd Hl), Hn.
    assert (Hnz : Z.eqb n 0 = false) by (apply Z.eqb_neq; lia).
    cbn [if_nonzero limit_or_50]. rewrite Hnz.
    repeat split; try tauto; try lia; exact Hgiven.
Qed.

End ListingQuery.

(** A listing of twenty users, with no sort order given. *)
Lemma listing_query_demo :
  exists n order,
    Directory.QueryParams.limit
      (Directory.queryParams [ ("limit", Zod.JNum 20); ("sortOrder", Zod.JStr "asc") ])
    = Some n
    /\ (1 <= n <= 200)%Z
    /\ (JS.lookup "limit" [ ("limit", Zod.JNum 20) ] = None -> n = 50%Z)
    /\ (forall m, JS.lookup "limit" [ ("limit", Zod.JNum 20) ] = Some (Zod.JNum m) -> n = m)
    /\ Directory.limit_or_50
         (Directory.get_number "limit"
            [ ("limit", Zod.JNum 20); ("sortOrder", Zod.JStr "asc") ]) = n
    /\ Directory.QueryParams.sortOrder
         (Directory.queryParams [ ("limit", Zod.JNum 20); ("sortOrder", Zod.JStr "asc") ])
       = Some order
    /\ (order = "asc" \/ order = "desc")
    /\ (JS.lookup "sortOrder" [ ("limit", Zod.JNum 20) ] = None -> order = "asc").
Proof.
  exact (proj1 (listing_query_after_validation [ ("limit", Zod.JNum 20) ]
                  [ ("limit", Zod.JNum 20); ("sortOrder", Zod.JStr "asc") ]) eq_refl).
Defined.
